(** * DataSages: the analysis-plan validator and the execution engine

    A shallow embedding of [schemas/plan_validator.py] and
    [executor/executor.py].  A plan is the JSON document produced by the
    planner; it is kept dynamically typed, as the Python code receives
    it, and every Python exception is an explicit error result. *)

From Stdlib Require Import ZArith List String Ascii Bool Lia.
From Stdlib Require Import Floats.SpecFloat.
Import ListNotations.
Local Open Scope string_scope.
Local Open Scope Z_scope.
Local Open Scope list_scope.

Set Warnings "-register-all".

(** ** Python values *)

(** A decoded JSON document.  Python's [float] is IEEE binary64, here a
    [spec_float] used at precision 53.  A dictionary is the list of its
    items in insertion order; [json.loads] gives each key once. *)
Inductive json : Type :=
| JNull
| JBool (b : bool)
| JInt (z : Z)
| JFloat (f : spec_float)
| JStr (s : string)
| JList (l : list json)
| JDict (d : list (string * json)).

(** The [ValueError] messages of the two modules, one constructor per
    [raise] statement, carrying what the message interpolates. *)
Inductive verr : Type :=
| PlanNotDict
| MissingKey (k : string)
| InvalidAnalysisType (v : json)
| InvalidFilterColumn (v : json)
| InvalidOperator (v : json)
| InRequiresList
| InvalidGroupByColumn (v : json)
| InvalidMetricOperation (v : json)
| InvalidMetricColumn (v : json)
| MetricsNotAllowed (analysis_type : json)
| InvalidVizType (v : json)
| HistogramHasY
| HistogramNeedsX
| CorrelationNeedsScatter
| CorrelationNeedsAxes
| InvalidXAxis (v : json)
| InvalidYAxis (v : json)
| InvalidTopN
| InvalidResultYAxis (y : json) (available : list string)
| FloatOfString (s : string)
| IntOfString (s : string)
| IntOfNaN.

Inductive exn : Type :=
| ValueError (e : verr)
| KeyError (k : json)
| TypeError
| AttributeError
| IndexError
| OverflowError
| LibraryError (e : string).

(** ** The error monad *)

Definition result (A : Type) : Type := (exn + A)%type.

Definition ret {A} (a : A) : result A := inr a.
Definition raise {A} (e : exn) : result A := inl e.
Definition bind {A B} (c : result A) (k : A -> result B) : result B :=
  match c with
  | inl e => inl e
  | inr a => k a
  end.

Declare Scope py_scope.
Delimit Scope py_scope with py.
Notation "x <- c ;; k" := (bind c (fun x => k))
  (at level 61, c at next level, right associativity) : py_scope.
Notation "c ;;; k" := (bind c (fun _ => k))
  (at level 61, right associativity) : py_scope.
Local Open Scope py_scope.

(** [if b: raise e] *)
Definition raise_if (b : bool) (e : exn) : result unit :=
  if b then raise e else ret tt.

(** [for x in xs: body(x)] for a body that only checks. *)
Fixpoint for_each {A} (body : A -> result unit) (xs : list A) : result unit :=
  match xs with
  | [] => ret tt
  | x :: rest => body x ;;; for_each body rest
  end.

(** ** Python operations on JSON values *)

Definition b2z (b : bool) : Z := if b then 1 else 0.

(** [int == float], compared exactly as Python does. *)
Definition int_eq_float (z : Z) (f : spec_float) : bool :=
  match f with
  | S754_zero _ => z =? 0
  | S754_finite s m e =>
      let m' := if s then Z.neg m else Z.pos m in
      if 0 <=? e then z =? m' * 2 ^ e else z * 2 ^ (- e) =? m'
  | _ => false
  end.

Fixpoint dict_get {A} (d : list (string * A)) (k : string) : option A :=
  match d with
  | [] => None
  | (k', v) :: rest => if String.eqb k' k then Some v else dict_get rest k
  end.

(** [d[k] = v]: an existing key keeps its position, a new one goes last. *)
Fixpoint dict_set {A} (d : list (string * A)) (k : string) (v : A)
  : list (string * A) :=
  match d with
  | [] => [(k, v)]
  | (k', v') :: rest =>
      if String.eqb k' k then (k', v) :: rest else (k', v') :: dict_set rest k v
  end.

Definition dict_has {A} (d : list (string * A)) (k : string) : bool :=
  match dict_get d k with Some _ => true | None => false end.

(** Python's [==] on JSON values: numbers compare across [bool], [int]
    and [float]; dictionaries compare regardless of key order. *)
Fixpoint py_eq (a b : json) {struct a} : bool :=
  match a, b with
  | JNull, JNull => true
  | JBool x, JBool y => Bool.eqb x y
  | JBool x, JInt y => b2z x =? y
  | JInt x, JBool y => x =? b2z y
  | JInt x, JInt y => x =? y
  | JBool x, JFloat g => int_eq_float (b2z x) g
  | JInt x, JFloat g => int_eq_float x g
  | JFloat f, JBool y => int_eq_float (b2z y) f
  | JFloat f, JInt y => int_eq_float y f
  | JFloat f, JFloat g => SFeqb f g
  | JStr s, JStr t => String.eqb s t
  | JList la, JList lb =>
      (fix go (la lb : list json) {struct la} : bool :=
         match la, lb with
         | [], [] => true
         | x :: xs, y :: ys => py_eq x y && go xs ys
         | _, _ => false
         end) la lb
  | JDict da, JDict db =>
      Nat.eqb (List.length da) (List.length db)
      && (fix go (da : list (string * json)) {struct da} : bool :=
            match da with
            | [] => true
            | (k, v) :: rest =>
                match dict_get db k with
                | Some v' => py_eq v v'
                | None => false
                end && go rest
            end) da
  | _, _ => false
  end.

(** [bool(v)] *)
Definition truthy (v : json) : bool :=
  match v with
  | JNull => false
  | JBool b => b
  | JInt z => negb (z =? 0)
  | JFloat (S754_zero _) => false
  | JFloat _ => true
  | JStr s => negb (String.eqb s "")
  | JList l => match l with [] => false | _ => true end
  | JDict d => match d with [] => false | _ => true end
  end.

Definition is_none (v : json) : bool :=
  match v with JNull => true | _ => false end.

(** Lists and dictionaries cannot be hashed. *)
Definition hashable (v : json) : bool :=
  match v with
  | JList _ | JDict _ => false
  | _ => true
  end.

(** [v in l] for a list or tuple [l] of strings. *)
Definition in_strs (v : json) (l : list string) : bool :=
  existsb (fun s => py_eq v (JStr s)) l.

(** [v in s] for a set [s] of strings: hashes [v] first. *)
Definition in_str_set (v : json) (s : list string) : result bool :=
  if hashable v then ret (in_strs v s) else raise TypeError.

(** [v in l] for a list [l]. *)
Definition in_list (v : json) (l : list json) : bool :=
  existsb (py_eq v) l.

(** [v[k]] for a string key [k]. *)
Definition getitem (v : json) (k : string) : result json :=
  match v with
  | JDict d =>
      match dict_get d k with
      | Some x => ret x
      | None => raise (KeyError (JStr k))
      end
  | _ => raise TypeError
  end.

(** [v.get(k, dflt)] *)
Definition get_default (v : json) (k : string) (dflt : json) : result json :=
  match v with
  | JDict d =>
      match dict_get d k with
      | Some x => ret x
      | None => ret dflt
      end
  | _ => raise AttributeError
  end.

(** [v.get(k)] *)
Definition get (v : json) (k : string) : result json :=
  get_default v k JNull.

Fixpoint chars (s : string) : list json :=
  match s with
  | EmptyString => []
  | String c rest => JStr (String c EmptyString) :: chars rest
  end.

(** What [for x in v] iterates over. *)
Definition iter (v : json) : result (list json) :=
  match v with
  | JList l => ret l
  | JDict d => ret (map (fun kv => JStr (fst kv)) d)
  | JStr s => ret (chars s)
  | _ => raise TypeError
  end.

(** [len(v)] *)
Definition py_len (v : json) : result nat :=
  match v with
  | JList l => ret (List.length l)
  | JDict d => ret (List.length d)
  | JStr s => ret (String.length s)
  | _ => raise TypeError
  end.

(** [v[0]] *)
Definition first_item (v : json) : result json :=
  match v with
  | JList (x :: _) => ret x
  | JList [] => raise IndexError
  | JStr (String c _) => ret (JStr (String c EmptyString))
  | JStr EmptyString => raise IndexError
  | JDict _ => raise (KeyError (JInt 0))
  | _ => raise TypeError
  end.

(** [isinstance(v, list)] *)
Definition is_list (v : json) : bool :=
  match v with JList _ => true | _ => false end.

(** ** Strings and numbers *)

(** The white space that [float] and [int] skip around a number, among
    the ASCII characters. *)
Definition is_c_space (c : ascii) : bool :=
  let n := N_of_ascii c in
  ((9 <=? n) && (n <=? 13) || (n =? 32))%N.

Fixpoint lstrip_chars (space : ascii -> bool) (cs : list ascii) : list ascii :=
  match cs with
  | c :: rest => if space c then lstrip_chars space rest else cs
  | [] => []
  end.

Definition strip_chars (space : ascii -> bool) (s : string) : list ascii :=
  rev (lstrip_chars space (rev (lstrip_chars space (list_ascii_of_string s)))).

(** The characters for which [str.isspace] holds, as the bytes of their
    UTF-8 encoding: U+0009 to U+000D, U+001C to U+0020, U+0085, U+00A0,
    U+1680, U+2000 to U+200A, U+2028, U+2029, U+202F, U+205F and U+3000.
    Texts are held as the bytes of their UTF-8 encoding. *)
Definition white_space : list (list ascii) :=
  map (map ascii_of_N)
      [[9]; [10]; [11]; [12]; [13]; [28]; [29]; [30]; [31]; [32];
       [194; 133]; [194; 160]; [225; 154; 128];
       [226; 128; 128]; [226; 128; 129]; [226; 128; 130]; [226; 128; 131];
       [226; 128; 132]; [226; 128; 133]; [226; 128; 134]; [226; 128; 135];
       [226; 128; 136]; [226; 128; 137]; [226; 128; 138];
       [226; 128; 168]; [226; 128; 169]; [226; 128; 175];
       [226; 129; 159]; [227; 128; 128]]%N.

Fixpoint starts_with (p cs : list ascii) : bool :=
  match p, cs with
  | [], _ => true
  | a :: p', c :: cs' => Ascii.eqb a c && starts_with p' cs'
  | _ :: _, [] => false
  end.

(** The number of bytes of the white-space character, among [spaces],
    that [cs] begins with; 0 when it begins with none. *)
Definition space_length (spaces : list (list ascii)) (cs : list ascii) : nat :=
  match find (fun p => starts_with p cs) spaces with
  | Some p => List.length p
  | None => 0%nat
  end.

(** Drops [skip] bytes, then the white-space characters in front. *)
Fixpoint lstrip_from (spaces : list (list ascii)) (skip : nat)
  (cs : list ascii) : list ascii :=
  match cs with
  | [] => []
  | _ :: rest =>
      match skip with
      | S k => lstrip_from spaces k rest
      | O =>
          match space_length spaces cs with
          | S k => lstrip_from spaces k rest
          | O => cs
          end
      end
  end.

(** [s.strip()] *)
Definition strip (s : string) : string :=
  let front := lstrip_from white_space 0 (list_ascii_of_string s) in
  string_of_list_ascii
    (rev (lstrip_from (map (@rev ascii) white_space) 0 (rev front))).

(** [s.replace(a, b)] for single characters [a] and [b]. *)
Definition replace_char (a b : ascii) (s : string) : string :=
  string_of_list_ascii
    (map (fun c => if Ascii.eqb c a then b else c) (list_ascii_of_string s)).

(** [s.replace("%", "")] *)
Definition remove_percent (s : string) : string :=
  string_of_list_ascii
    (filter (fun c => negb (Ascii.eqb c "%")) (list_ascii_of_string s)).

Definition startswith (c : ascii) (s : string) : bool :=
  match s with
  | String c' _ => Ascii.eqb c' c
  | EmptyString => false
  end.

Definition endswith (c : ascii) (s : string) : bool :=
  match rev (list_ascii_of_string s) with
  | c' :: _ => Ascii.eqb c' c
  | [] => false
  end.

Definition digit_val (c : ascii) : option Z :=
  let n := N_of_ascii c in
  if ((48 <=? n) && (n <=? 57))%N then Some (Z.of_N n - 48) else None.

Definition is_digit (c : ascii) : bool :=
  match digit_val c with Some _ => true | None => false end.

(** Splits off the leading run of digits: its value when read after
    [acc], how many there are, and the rest. *)
Fixpoint take_digits (cs : list ascii) (acc : Z) (n : Z)
  : Z * Z * list ascii :=
  match cs with
  | c :: rest =>
      match digit_val c with
      | Some d => take_digits rest (10 * acc + d) (n + 1)
      | None => (acc, n, cs)
      end
  | [] => (acc, n, [])
  end.

(** Python's numeric literals allow an underscore between two digits. *)
Fixpoint drop_underscores (prev_digit : bool) (cs : list ascii)
  : option (list ascii) :=
  match cs with
  | [] => Some []
  | c :: rest =>
      if Ascii.eqb c "_" then
        match rest with
        | d :: _ => if prev_digit && is_digit d
                    then drop_underscores false rest else None
        | [] => None
        end
      else option_map (cons c) (drop_underscores (is_digit c) rest)
  end.

Definition lower (c : ascii) : ascii :=
  let n := N_of_ascii c in
  if ((65 <=? n) && (n <=? 90))%N then ascii_of_N (n + 32) else c.

Definition binary64_of_Z (z : Z) : spec_float :=
  binary_normalize 53 1024 z 0 false.

(** The binary64 nearest to [m * 10 ^ e], ties to even. *)
Definition binary64_of_decimal (neg : bool) (m e : Z) : spec_float :=
  match m with
  | Zpos p =>
      if 0 <=? e then binary_round 53 1024 neg (p * Z.to_pos (10 ^ e)) 0
      else SFdiv 53 1024 (S754_finite neg p 0)
                 (S754_finite false (Z.to_pos (10 ^ (- e))) 0)
  | _ => S754_zero neg
  end.

Definition split_sign (cs : list ascii) : bool * list ascii :=
  match cs with
  | c :: rest =>
      if Ascii.eqb c "-" then (true, rest)
      else if Ascii.eqb c "+" then (false, rest)
      else (false, cs)
  | [] => (false, [])
  end.

(** The exponent part of a literal: empty, or [e] or [E], a sign and at
    least one digit, up to the end of the text. *)
Definition parse_exponent (cs : list ascii) : option Z :=
  match cs with
  | [] => Some 0
  | c :: rest =>
      if Ascii.eqb (lower c) "e" then
        let '(neg, rest) := split_sign rest in
        match take_digits rest 0 0 with
        | (v, n, []) => if 0 <? n then Some (if neg then - v else v) else None
        | _ => None
        end
      else None
  end.

(** A decimal literal without sign: digits, an optional fraction and an
    optional exponent, with a digit before or after the point. *)
Definition parse_unsigned (neg : bool) (cs : list ascii) : option spec_float :=
  let '(i, ni, rest) := take_digits cs 0 0 in
  let '(m, nf, rest) :=
    match rest with
    | c :: rest' =>
        if Ascii.eqb c "." then
          let '(m, nf, rest'') := take_digits rest' i 0 in (m, nf, rest'')
        else (i, 0, rest)
    | [] => (i, 0, rest)
    end in
  if 0 <? ni + nf then
    match parse_exponent rest with
    | Some e => Some (binary64_of_decimal neg m (e - nf))
    | None => None
    end
  else None.

(** The text of a float: optional sign, then a decimal literal or one of
    [inf], [infinity], [nan] in any letter case. *)
Definition parse_float_chars (cs : list ascii) : option spec_float :=
  let '(neg, body) := split_sign cs in
  let word := string_of_list_ascii (map lower body) in
  if String.eqb word "inf" || String.eqb word "infinity"
  then Some (S754_infinity neg)
  else if String.eqb word "nan" then Some S754_nan
  else parse_unsigned neg body.

(** [float(s)] for a string [s]; [None] is the [ValueError]. *)
Definition float_of_string (s : string) : option spec_float :=
  match drop_underscores false (strip_chars is_c_space s) with
  | Some cs => parse_float_chars cs
  | None => None
  end.

(** [float(v)] *)
Definition py_float (v : json) : result spec_float :=
  match v with
  | JStr s =>
      match float_of_string s with
      | Some f => ret f
      | None => raise (ValueError (FloatOfString s))
      end
  | JFloat f => ret f
  | JInt z =>
      match binary64_of_Z z with
      | S754_infinity _ => raise OverflowError
      | f => ret f
      end
  | JBool b => ret (binary64_of_Z (b2z b))
  | _ => raise TypeError
  end.

(** ** schemas/plan_validator.py *)

Module Validator.

Definition ALLOWED_ANALYSIS_TYPES : list string :=
  ["comparison"; "trend"; "aggregation"; "correlation"; "distribution"].
Definition ALLOWED_OPERATORS : list string :=
  ["=="; "!="; ">"; "<"; ">="; "<="; "in"].
Definition ALLOWED_METRICS : list string :=
  ["sum"; "mean"; "count"; "min"; "max"; "median"; "std"].
Definition ALLOWED_VIZ_TYPES : list string :=
  ["bar"; "line"; "scatter"; "histogram"].
Definition INVALID_METRIC_OPERATIONS : list string :=
  ["bar"; "line"; "scatter"; "histogram"].

Definition required_keys : list string :=
  ["analysis_type"; "filters"; "group_by"; "metrics"; "sort"; "visualization"].

(** The body of [for f in plan["filters"]]. *)
Definition check_filter (df_columns : list string) (f : json) : result unit :=
  column <- getitem f "column" ;;
  raise_if (negb (in_strs column df_columns))
           (ValueError (InvalidFilterColumn column)) ;;;
  operator <- getitem f "operator" ;;
  allowed <- in_str_set operator ALLOWED_OPERATORS ;;
  raise_if (negb allowed) (ValueError (InvalidOperator operator)) ;;;
  if py_eq operator (JStr "in") then
    value <- getitem f "value" ;;
    raise_if (negb (is_list value)) (ValueError InRequiresList)
  else ret tt.

(** The body of [for col in plan["group_by"]]. *)
Definition check_group_by (df_columns : list string) (col : json) : result unit :=
  raise_if (negb (in_strs col df_columns)) (ValueError (InvalidGroupByColumn col)).

(** One turn of [for m in plan["metrics"]]: [None] is the [continue] of
    a dropped chart keyword, [Some m] the metric that is appended. *)
Definition clean_metric (df_columns : list string) (m : json)
  : result (option json) :=
  op <- get m "operation" ;;
  dropped <- in_str_set op INVALID_METRIC_OPERATIONS ;;
  if dropped then ret None
  else
    allowed <- in_str_set op ALLOWED_METRICS ;;
    raise_if (negb allowed) (ValueError (InvalidMetricOperation op)) ;;;
    column <- getitem m "column" ;;
    raise_if (negb (in_strs column df_columns))
             (ValueError (InvalidMetricColumn column)) ;;;
    ret (Some m).

(** The metric loop, with [cleaned_metrics] as accumulator. *)
Fixpoint clean_metrics (df_columns : list string) (cleaned_metrics : list json)
  (ms : list json) : result (list json) :=
  match ms with
  | [] => ret cleaned_metrics
  | m :: rest =>
      r <- clean_metric df_columns m ;;
      match r with
      | None => clean_metrics df_columns cleaned_metrics rest
      | Some m' => clean_metrics df_columns (cleaned_metrics ++ [m']) rest
      end
  end.

(** [for key in ["x", "y", "color", "top_n"]]: the literal strings
    ["null"] and ["NULL"] become [None]. *)
Definition null_key (viz : list (string * json)) (key : string)
  : list (string * json) :=
  match dict_get viz key with
  | Some v => if in_strs v ["null"; "NULL"] then dict_set viz key JNull else viz
  | None => viz
  end.

Definition normalize_nulls (viz : list (string * json)) : list (string * json) :=
  fold_left null_key ["x"; "y"; "color"; "top_n"] viz.

(** [df_columns[0]] *)
Definition first_column (df_columns : list string) : result json :=
  match df_columns with
  | [] => raise IndexError
  | c :: _ => ret (JStr c)
  end.

(** The auto-fix of a metric name found in the y axis.  It returns the
    metrics list and the visualization after the fix. *)
Definition auto_fix (df_columns : list string) (group_by : json)
  (metrics : list json) (viz : list (string * json))
  : result (list json * list (string * json)) :=
  y <- get (JDict viz) "y" ;;
  is_metric <- in_str_set y ALLOWED_METRICS ;;
  if is_metric then
    target_col <- (if truthy group_by then first_item group_by
                   else first_column df_columns) ;;
    y' <- getitem (JDict viz) "y" ;;
    ret (metrics ++ [JDict [("operation", y'); ("column", target_col)]],
         dict_set viz "y" target_col)
  else ret (metrics, viz).

(** The checks that follow the auto-fix: type rules, axes, top_n. *)
Definition check_viz (df_columns : list string) (analysis_type : json)
  (viz : json) : result unit :=
  type <- getitem viz "type" ;;
  (if py_eq type (JStr "histogram") then
     y <- get viz "y" ;;
     raise_if (negb (is_none y)) (ValueError HistogramHasY) ;;;
     x <- get viz "x" ;;
     raise_if (is_none x) (ValueError HistogramNeedsX)
   else ret tt) ;;;
  (if py_eq analysis_type (JStr "correlation") then
     type <- getitem viz "type" ;;
     raise_if (negb (py_eq type (JStr "scatter")))
              (ValueError CorrelationNeedsScatter) ;;;
     x <- get viz "x" ;;
     if is_none x then raise (ValueError CorrelationNeedsAxes)
     else
       y <- get viz "y" ;;
       raise_if (is_none y) (ValueError CorrelationNeedsAxes)
   else ret tt) ;;;
  x <- get viz "x" ;;
  (if negb (is_none x) then
     x <- getitem viz "x" ;;
     raise_if (negb (in_strs x df_columns)) (ValueError (InvalidXAxis x))
   else ret tt) ;;;
  y <- get viz "y" ;;
  (if negb (is_none y) then
     y <- getitem viz "y" ;;
     raise_if (negb (in_strs y df_columns)) (ValueError (InvalidYAxis y))
   else ret tt) ;;;
  top_n <- get viz "top_n" ;;
  if negb (is_none top_n) then
    top_n <- getitem viz "top_n" ;;
    (* isinstance(top_n, int) holds of integers and of booleans *)
    match top_n with
    | JInt n => raise_if (n <=? 0) (ValueError InvalidTopN)
    | JBool b => raise_if (b2z b <=? 0) (ValueError InvalidTopN)
    | _ => raise (ValueError InvalidTopN)
    end
  else ret tt.

(** The sections REQUIRED KEYS, FILTERS and GROUP BY; the value is
    [analysis_type]. *)
Definition check_request (p : list (string * json)) (df_columns : list string)
  : result json :=
  for_each (fun key => raise_if (negb (dict_has p key))
                                (ValueError (MissingKey key)))
           required_keys ;;;
  analysis_type <- getitem (JDict p) "analysis_type" ;;
  allowed <- in_str_set analysis_type ALLOWED_ANALYSIS_TYPES ;;
  raise_if (negb allowed) (ValueError (InvalidAnalysisType analysis_type)) ;;;
  filters <- getitem (JDict p) "filters" ;;
  fs <- iter filters ;;
  for_each (check_filter df_columns) fs ;;;
  group_by <- getitem (JDict p) "group_by" ;;
  cols <- iter group_by ;;
  for_each (check_group_by df_columns) cols ;;;
  ret analysis_type.

(** [validate_plan(plan, df_columns)].  The Python function mutates
    [plan] and returns [True]; the model returns the plan as the call
    leaves it, which is the normalized plan. *)
Definition validate_plan (plan : json) (df_columns : list string) : result json :=
  match plan with
  | JDict p =>
      analysis_type <- check_request p df_columns ;;
      metrics <- getitem (JDict p) "metrics" ;;
      ms <- iter metrics ;;
      cleaned_metrics <- clean_metrics df_columns [] ms ;;
      let p := dict_set p "metrics" (JList cleaned_metrics) in
      conflict <- in_str_set analysis_type ["distribution"; "correlation"] ;;
      raise_if (conflict && truthy (JList cleaned_metrics))
               (ValueError (MetricsNotAllowed analysis_type)) ;;;
      viz <- getitem (JDict p) "visualization" ;;
      if negb (truthy viz) then ret (JDict p)
      else
        match viz with
        | JDict v =>
            let v := normalize_nulls v in
            type <- getitem (JDict v) "type" ;;
            known <- in_str_set type ALLOWED_VIZ_TYPES ;;
            raise_if (negb known) (ValueError (InvalidVizType type)) ;;;
            group_by <- getitem (JDict p) "group_by" ;;
            fixed <- auto_fix df_columns group_by cleaned_metrics v ;;
            let '(metrics', v') := fixed in
            check_viz df_columns analysis_type (JDict v') ;;;
            ret (JDict (dict_set (dict_set p "metrics" (JList metrics'))
                                 "visualization" (JDict v')))
        | _ => raise TypeError
        end
  | _ => raise (ValueError PlanNotDict)
  end.

End Validator.

(** ** Tables *)

(** The kinds of column.  Text is held by [object] columns (what
    [pandas.read_csv] makes of text before pandas 3), by columns of the
    string dtype (what it makes of text since) and by categorical
    columns. *)
Inductive dtype : Type :=
  Dint64 | Dfloat64 | Dbool | Dobject | Dstring | Dcategory.

(** A cell.  A missing value is the float NaN, as in pandas. *)
Inductive cell : Type :=
| CInt (z : Z)
| CNum (f : spec_float)
| CBool (b : bool)
| CStr (s : string).

Record Series : Type := { dtype_of : dtype; cells : list cell }.

(** A frame is its columns in order; every column has one cell per row. *)
Definition DataFrame : Type := list (string * Series).

Definition dtype_eqb (a b : dtype) : bool :=
  match a, b with
  | Dint64, Dint64 | Dfloat64, Dfloat64 | Dbool, Dbool | Dobject, Dobject
  | Dstring, Dstring | Dcategory, Dcategory => true
  | _, _ => false
  end.

Definition columns (df : DataFrame) : list string := map fst df.

(** [len(df)] *)
Definition nrows (df : DataFrame) : nat :=
  match df with
  | [] => 0%nat
  | (_, s) :: _ => List.length (cells s)
  end.

(** [df[col]] for one column label: a label that is no column raises
    [KeyError].  (A list of labels would select a frame; the engine reads
    series only, and the validator admits column names only.) *)
Definition df_get (df : DataFrame) (col : json) : result Series :=
  match col with
  | JStr c =>
      match dict_get df c with
      | Some s => ret s
      | None => raise (KeyError col)
      end
  | JList _ | JDict _ => raise TypeError
  | _ => raise (KeyError col)
  end.

(** [col in df.columns] *)
Definition in_columns (col : json) (df : DataFrame) : result bool :=
  in_str_set col (columns df).

Fixpoint mask_cells {A} (mask : list bool) (xs : list A) : list A :=
  match mask, xs with
  | b :: mask', x :: xs' =>
      if b then x :: mask_cells mask' xs' else mask_cells mask' xs'
  | _, _ => []
  end.

(** [df[mask]]: the rows where the boolean mask holds. *)
Definition filter_rows (mask : list bool) (df : DataFrame) : DataFrame :=
  map (fun c => (fst c, {| dtype_of := dtype_of (snd c);
                           cells := mask_cells mask (cells (snd c)) |})) df.

(** [df.head(n)]: the first [n] rows, or all but the last [-n]. *)
Definition head (n : Z) (df : DataFrame) : DataFrame :=
  let k := if 0 <=? n then Z.to_nat n
           else (nrows df - Z.to_nat (- n))%nat in
  map (fun c => (fst c, {| dtype_of := dtype_of (snd c);
                           cells := firstn k (cells (snd c)) |})) df.

Definition cell_json (c : cell) : json :=
  match c with
  | CInt z => JInt z
  | CNum f => JFloat f
  | CBool b => JBool b
  | CStr s => JStr s
  end.

Definition cell_eqb (a b : cell) : bool := py_eq (cell_json a) (cell_json b).

Definition is_nan (c : cell) : bool :=
  match c with CNum S754_nan => true | _ => false end.

(** The values of a list without repetition, first occurrences kept. *)
Fixpoint distinct (seen xs : list cell) : list cell :=
  match xs with
  | [] => []
  | x :: rest =>
      if existsb (cell_eqb x) seen then distinct seen rest
      else x :: distinct (x :: seen) rest
  end.

(** [s.nunique()]: the number of distinct values, missing ones left out. *)
Definition nunique (s : Series) : nat :=
  List.length (distinct [] (filter (fun c => negb (is_nan c)) (cells s))).

(** *** The safe numeric coercion *)

(** A cell after [astype(str)]: a text, or the [str] of a number, which
    holds neither ["%"] nor white space. *)
Inductive text : Type :=
| Lit (s : string)
| IntRepr (z : Z)
| FloatRepr (f : spec_float).

(** [str(x)] of one cell, as [series.astype(str)] writes it. *)
Definition astype_str (c : cell) : text :=
  match c with
  | CStr s => Lit s
  | CInt z => IntRepr z
  | CNum f => FloatRepr f
  | CBool b => Lit (if b then "True" else "False")
  end.

Definition text_map (f : string -> string) (t : text) : text :=
  match t with
  | Lit s => Lit (f s)
  | _ => t
  end.

(** A number of a numeric column: an integer or a float, NaN when it is
    missing. *)
Inductive number : Type :=
| NInt (z : Z)
| NFloat (f : spec_float).

Definition number_cell (n : number) : cell :=
  match n with
  | NInt z => CInt z
  | NFloat f => CNum f
  end.

Definition number_float (n : number) : spec_float :=
  match n with
  | NInt z => binary64_of_Z z
  | NFloat f => f
  end.

(** The number a cell stands for in a comparison with a float. *)
Definition cell_float (c : cell) : result spec_float :=
  match c with
  | CNum f => ret f
  | CInt z => ret (binary64_of_Z z)
  | CBool b => ret (binary64_of_Z (b2z b))
  | CStr _ => raise TypeError
  end.

Fixpoint map_result {A B} (f : A -> result B) (xs : list A) : result (list B) :=
  match xs with
  | [] => ret []
  | x :: rest => y <- f x ;; ys <- map_result f rest ;; ret (y :: ys)
  end.

(** [series > val], [series < val], [series >= val], [series <= val]. *)
Definition compare_float (op : string) (a b : spec_float) : bool :=
  if String.eqb op ">" then SFltb b a
  else if String.eqb op "<" then SFltb a b
  else if String.eqb op ">=" then SFleb b a
  else SFleb a b.

Definition series_compare (op : string) (s : Series) (val : spec_float)
  : result (list bool) :=
  map_result (fun c => f <- cell_float c ;; ret (compare_float op f val))
             (cells s).

(** [int(v)] *)
Definition int_of_string (s : string) : option Z :=
  match drop_underscores false (strip_chars is_c_space s) with
  | Some cs =>
      let '(neg, body) := split_sign cs in
      match take_digits body 0 0 with
      | (v, n, []) => if 0 <? n then Some (if neg then - v else v) else None
      | _ => None
      end
  | None => None
  end.

Definition py_int (v : json) : result Z :=
  match v with
  | JInt z => ret z
  | JBool b => ret (b2z b)
  | JFloat (S754_zero _) => ret 0
  | JFloat (S754_finite s m e) =>
      let q := if 0 <=? e then Z.pos m * 2 ^ e else Z.pos m / 2 ^ (- e) in
      ret (if s then - q else q)
  | JFloat (S754_infinity _) => raise OverflowError
  | JFloat S754_nan => raise (ValueError IntOfNaN)
  | JStr s =>
      match int_of_string s with
      | Some z => ret z
      | None => raise (ValueError (IntOfString s))
      end
  | _ => raise TypeError
  end.

Fixpoint is_substring (t s : string) : bool :=
  String.prefix t s
  || match s with
     | String _ rest => is_substring t rest
     | EmptyString => false
     end.

(** [v in container] *)
Definition contains (container v : json) : result bool :=
  match container with
  | JList l => ret (in_list v l)
  | JDict d =>
      if hashable v then ret (existsb (fun kv => py_eq v (JStr (fst kv))) d)
      else raise TypeError
  | JStr s =>
      match v with
      | JStr t => ret (is_substring t s)
      | _ => raise TypeError
      end
  | _ => raise TypeError
  end.

(** ** executor/executor.py *)

(** The chart request handed to plotly, that is the arguments of the
    [px] call; [px.histogram] takes no [y].  What plotly makes of a
    request is outside this development. *)
Record Figure : Type :=
  { fig_kind : string; fig_x : json; fig_y : option json; fig_color : json }.

(** What the engine calls in [json] and [pandas] beyond the operations
    modelled above.  The engine is verified against any behaviour of
    these calls.  The calls of the numeric coercion return a value for
    every text: [str.strip] is total, and [pd.to_numeric] is called with
    [errors="coerce"], under which a text that does not parse gives NaN
    instead of an exception; how they trim and parse, and which kind of
    numeric column comes out, is left to the library. *)
Record Library : Type :=
  { (* json.loads on a text that starts with "[" and ends with "]" *)
    json_loads : string -> option (list json);
    (* series == val, series != val *)
    series_eq : Series -> json -> result (list bool);
    series_ne : Series -> json -> result (list bool);
    (* series.isin(values) *)
    series_isin : Series -> list json -> result (list bool);
    (* df.groupby(group_by, as_index=False).agg(agg_map) *)
    groupby_agg : DataFrame -> json -> list (json * json) -> result DataFrame;
    (* df[group_by].drop_duplicates() *)
    select_distinct : DataFrame -> json -> result DataFrame;
    (* df.sort_values(by=by, ascending=ascending) *)
    sort_values : DataFrame -> json -> bool -> result DataFrame;
    (* text.strip(), as series.str.strip() applies it to every text *)
    str_strip : string -> string;
    (* pd.to_numeric(texts, errors="coerce"): the kind of the column it
       returns, and the number it holds for each of the texts, NaN for a
       text that does not parse *)
    numeric_dtype : list text -> dtype;
    numeric_value : list text -> text -> number }.

Module Executor.

Section Engine.

Variable lib : Library.

(** [pd.to_numeric(texts, errors="coerce")]: a numeric column with one
    number for each text. *)
Definition to_numeric (texts : list text) : Series :=
  {| dtype_of := numeric_dtype lib texts;
     cells := map number_cell (map (numeric_value lib texts) texts) |}.

(** [_coerce_numeric(series)] *)
Definition _coerce_numeric (series : Series) : Series :=
  to_numeric
    (map (text_map (str_strip lib))
         (map (text_map remove_percent)
              (map astype_str (cells series)))).

Definition relational_operators : list string := [">"; "<"; ">="; "<="].

(** A string value that looks like a list literal is decoded; a text
    that does not decode is kept. *)
Definition decode_list_literal (val : json) : json :=
  match val with
  | JStr s =>
      if startswith "[" s && endswith "]" s then
        match json_loads lib (replace_char "'" "034" s) with
        | Some l => JList l
        | None => val
        end
      else val
  | _ => val
  end.

(** [working_df[col] = series], for a column [working_df[col]] that was
    just read. *)
Definition df_set (df : DataFrame) (col : json) (s : Series) : result DataFrame :=
  match col with
  | JStr c => ret (dict_set df c s)
  | _ => raise TypeError
  end.

(** [working_df[col] > val] and the like, once [val] is a float. *)
Definition compare_column (op : string) (df : DataFrame) (col val : json)
  : result (list bool) :=
  s <- df_get df col ;;
  match val with
  | JFloat x => series_compare op s x
  | _ => raise TypeError
  end.

(** One turn of [for f in plan.get("filters", [])]. *)
Definition apply_filter (working_df : DataFrame) (f : json) : result DataFrame :=
  col <- get f "column" ;;
  op <- get f "operator" ;;
  val <- get f "value" ;;
  let val := decode_list_literal val in
  relational <- in_str_set op relational_operators ;;
  st <- (if relational then
           series <- df_get working_df col ;;
           working_df <- df_set working_df col (_coerce_numeric series) ;;
           x <- py_float val ;;
           ret (working_df, JFloat x)
         else ret (working_df, val)) ;;
  let '(working_df, val) := st in
  if py_eq op (JStr "==") then
    s <- df_get working_df col ;;
    mask <- series_eq lib s val ;;
    ret (filter_rows mask working_df)
  else if py_eq op (JStr "!=") then
    s <- df_get working_df col ;;
    mask <- series_ne lib s val ;;
    ret (filter_rows mask working_df)
  else if py_eq op (JStr ">") then
    mask <- compare_column ">" working_df col val ;;
    ret (filter_rows mask working_df)
  else if py_eq op (JStr "<") then
    mask <- compare_column "<" working_df col val ;;
    ret (filter_rows mask working_df)
  else if py_eq op (JStr ">=") then
    mask <- compare_column ">=" working_df col val ;;
    ret (filter_rows mask working_df)
  else if py_eq op (JStr "<=") then
    mask <- compare_column "<=" working_df col val ;;
    ret (filter_rows mask working_df)
  else if py_eq op (JStr "in") then
    let vals := match val with JList l => l | _ => [val] end in
    s <- df_get working_df col ;;
    mask <- series_isin lib s vals ;;
    ret (filter_rows mask working_df)
  else ret working_df.

Fixpoint apply_filters (working_df : DataFrame) (fs : list json)
  : result DataFrame :=
  match fs with
  | [] => ret working_df
  | f :: rest =>
      working_df <- apply_filter working_df f ;;
      apply_filters working_df rest
  end.

(** [pd.DataFrame({"count": [n]})] *)
Definition count_frame (n : nat) : DataFrame :=
  [("count", {| dtype_of := Dint64; cells := [CInt (Z.of_nat n)] |})].

(** [not group_by and len(metrics) == 1 and
    metrics[0]["operation"] == "count"] *)
Definition count_only (metrics group_by : json) : result bool :=
  if negb (truthy group_by) then
    n <- py_len metrics ;;
    if Nat.eqb n 1 then
      m <- first_item metrics ;;
      op <- getitem m "operation" ;;
      ret (py_eq op (JStr "count"))
    else ret false
  else ret false.

(** [agg_map[col] = op] *)
Fixpoint agg_set (agg_map : list (json * json)) (col op : json)
  : list (json * json) :=
  match agg_map with
  | [] => [(col, op)]
  | (c, o) :: rest =>
      if py_eq c col then (c, op) :: rest else (c, o) :: agg_set rest col op
  end.

(** The loop that fills [agg_map], leaving out the group-by columns. *)
Fixpoint build_agg_map (group_by : json) (agg_map : list (json * json))
  (ms : list json) : result (list (json * json)) :=
  match ms with
  | [] => ret agg_map
  | m :: rest =>
      col <- getitem m "column" ;;
      op <- getitem m "operation" ;;
      skip <- contains group_by col ;;
      if skip then build_agg_map group_by agg_map rest
      else if hashable col
           then build_agg_map group_by (agg_set agg_map col op) rest
           else raise TypeError
  end.

Definition aggregate (working_df : DataFrame) (metrics group_by : json)
  : result DataFrame :=
  scalar <- count_only metrics group_by ;;
  if scalar then
    m <- first_item metrics ;;
    count_col <- getitem m "column" ;;
    s <- df_get working_df count_col ;;
    if negb (dtype_eqb (dtype_of s) Dobject)
    then ret (count_frame (nrows working_df))
    else ret (count_frame (nunique s))
  else if truthy group_by then
    ms <- iter metrics ;;
    agg_map <- build_agg_map group_by [] ms ;;
    match agg_map with
    | _ :: _ => groupby_agg lib working_df group_by agg_map
    | [] => select_distinct lib working_df group_by
    end
  else ret working_df.

Definition sort_stage (result_df : DataFrame) (plan : json) : result DataFrame :=
  sort_cfg <- get plan "sort" ;;
  has_by <- (if truthy sort_cfg
             then by_col <- get sort_cfg "by" ;; ret (truthy by_col)
             else ret false) ;;
  if has_by then
    by_col <- getitem sort_cfg "by" ;;
    present <- in_columns by_col result_df ;;
    if present then
      order <- get_default sort_cfg "order" (JStr "asc") ;;
      sort_values lib result_df by_col (py_eq order (JStr "asc"))
    else ret result_df
  else ret result_df.

(** The top-N step, given [viz] and [user_intent]. *)
Definition top_n_stage (result_df : DataFrame) (viz user_intent : json)
  : result DataFrame :=
  top_n <- get viz "top_n" ;;
  focus <- get user_intent "focus" ;;
  if negb (py_eq focus (JStr "both")) && truthy top_n then
    n <- py_int top_n ;;
    ret (head n result_df)
  else ret result_df.

(** The loop that looks for a y axis among the metric columns. *)
Fixpoint first_metric_column (result_df : DataFrame) (ms : list json)
  : result json :=
  match ms with
  | [] => ret JNull
  | m :: rest =>
      c <- getitem m "column" ;;
      present <- in_columns c result_df ;;
      if present then getitem m "column"
      else first_metric_column result_df rest
  end.

(** [y] after the resolution step. *)
Definition resolve_y (result_df : DataFrame) (viz metrics : json) : result json :=
  y <- get viz "y" ;;
  if is_none y && truthy metrics then
    ms <- iter metrics ;;
    first_metric_column result_df ms
  else ret y.

Definition viz_stage (result_df : DataFrame) (viz metrics : json)
  : result (option Figure) :=
  type <- (if truthy viz then get viz "type" else ret JNull) ;;
  if truthy viz && truthy type then
    viz_type <- get viz "type" ;;
    x <- get viz "x" ;;
    y <- resolve_y result_df viz metrics ;;
    bad <- (if truthy y then present <- in_columns y result_df ;; ret (negb present)
            else ret false) ;;
    raise_if bad (ValueError (InvalidResultYAxis y (columns result_df))) ;;;
    color <- get viz "color" ;;
    if py_eq viz_type (JStr "bar") && truthy x && truthy y then
      ret (Some {| fig_kind := "bar"; fig_x := x; fig_y := Some y; fig_color := color |})
    else if py_eq viz_type (JStr "line") && truthy x && truthy y then
      ret (Some {| fig_kind := "line"; fig_x := x; fig_y := Some y; fig_color := color |})
    else if py_eq viz_type (JStr "scatter") && truthy x && truthy y then
      ret (Some {| fig_kind := "scatter"; fig_x := x; fig_y := Some y; fig_color := color |})
    else if py_eq viz_type (JStr "histogram") && truthy x then
      ret (Some {| fig_kind := "histogram"; fig_x := x; fig_y := None; fig_color := color |})
    else ret None
  else ret None.

(** The table after filtering, aggregation and sorting, with the
    filtered table kept aside. *)
Definition run_to_sort (df : DataFrame) (plan : json)
  : result (DataFrame * DataFrame) :=
  filters <- get_default plan "filters" (JList []) ;;
  fs <- iter filters ;;
  working_df <- apply_filters df fs ;;
  let original_filtered_df := working_df in
  metrics <- get_default plan "metrics" (JList []) ;;
  group_by <- get_default plan "group_by" (JList []) ;;
  result_df <- aggregate working_df metrics group_by ;;
  result_df <- sort_stage result_df plan ;;
  ret (result_df, original_filtered_df).

(** [execute_plan(df, plan)]: the result table, the chart request and
    the filtered table, or the exception that ends the call. *)
Definition execute_plan (df : DataFrame) (plan : json)
  : result (DataFrame * option Figure * DataFrame) :=
  st <- run_to_sort df plan ;;
  let '(result_df, original_filtered_df) := st in
  metrics <- get_default plan "metrics" (JList []) ;;
  viz <- get_default plan "visualization" (JDict []) ;;
  user_intent <- get_default plan "user_intent" (JDict []) ;;
  result_df <- top_n_stage result_df viz user_intent ;;
  fig <- viz_stage result_df viz metrics ;;
  ret (result_df, fig, original_filtered_df).

End Engine.

End Executor.

(** ** Observations on plans *)

Definition metrics_of (plan : json) : list json :=
  match getitem plan "metrics" with
  | inr (JList l) => l
  | _ => []
  end.

Definition group_by_of (plan : json) : json :=
  match getitem plan "group_by" with
  | inr g => g
  | inl _ => JList []
  end.

Definition group_by_items (plan : json) : list json :=
  match iter (group_by_of plan) with
  | inr l => l
  | inl _ => []
  end.

Definition visualization_of (plan : json) : json :=
  match getitem plan "visualization" with
  | inr v => v
  | inl _ => JNull
  end.

Definition analysis_type_of (plan : json) : json :=
  match getitem plan "analysis_type" with
  | inr v => v
  | inl _ => JNull
  end.

Definition column_of (m : json) : json :=
  match get m "column" with
  | inr c => c
  | inl _ => JNull
  end.

Definition operation_of (m : json) : json :=
  match get m "operation" with
  | inr c => c
  | inl _ => JNull
  end.

(** Some metric of the plan has a group-by column as its column. *)
Definition aggregates_key (plan : json) : bool :=
  existsb (fun m => in_list (column_of m) (group_by_items plan))
          (metrics_of plan).

(** The plan is a distribution or correlation analysis. *)
Definition metric_free_analysis (plan : json) : bool :=
  in_strs (analysis_type_of plan) ["distribution"; "correlation"].

(** The y axis of the plan's chart names one of the given words. *)
Definition y_axis_in (plan : json) (words : list string) : bool :=
  match get (visualization_of plan) "y" with
  | inr y => in_strs y words
  | inl _ => false
  end.

(** A normalized plan on which a further validation has nothing to do:
    its y axis is neither a metric name nor a null literal, and it does
    not carry metrics under a distribution or correlation analysis. *)
Definition settled (plan : json) : bool :=
  negb (y_axis_in plan (Validator.ALLOWED_METRICS ++ ["null"; "NULL"]))
  && negb (metric_free_analysis plan && truthy (JList (metrics_of plan))).

(** Scenario E: a metric name in the y axis of a grouped plan. *)
Definition scenario_E : json :=
  JDict [("analysis_type", JStr "aggregation"); ("filters", JList []);
         ("group_by", JList [JStr "region"]); ("metrics", JList []);
         ("sort", JNull);
         ("visualization",
          JDict [("type", JStr "bar"); ("x", JStr "region");
                 ("y", JStr "mean")])].

(** A distribution analysis whose chart has a metric name as y axis. *)
Definition distribution_plan : json :=
  JDict [("analysis_type", JStr "distribution"); ("filters", JList []);
         ("group_by", JList []); ("metrics", JList []); ("sort", JNull);
         ("visualization",
          JDict [("type", JStr "bar"); ("x", JStr "age");
                 ("y", JStr "mean")])].

(** A plan over a table whose first column is named [count]. *)
Definition count_column_plan : json :=
  JDict [("analysis_type", JStr "aggregation"); ("filters", JList []);
         ("group_by", JList []); ("metrics", JList []); ("sort", JNull);
         ("visualization",
          JDict [("type", JStr "bar"); ("x", JStr "region");
                 ("y", JStr "mean")])].

(** ** Tables and plans used in the examples *)

(** The number in a text: what [int] reads in it, else what [float]
    reads in it, else NaN; the [str] of a number reads as that number. *)
Definition read_number (t : text) : number :=
  match t with
  | Lit s =>
      match int_of_string s with
      | Some z => NInt z
      | None =>
          match float_of_string s with
          | Some f => NFloat f
          | None => NFloat S754_nan
          end
      end
  | IntRepr z => NInt z
  | FloatRepr f => NFloat f
  end.

Definition is_whole (n : number) : bool :=
  match n with NInt _ => true | NFloat _ => false end.

Definition all_whole (texts : list text) : bool :=
  forallb (fun t => is_whole (read_number t)) texts.

(** The library of the examples.  It trims as [str.strip] does and
    reads numbers with [read_number], into an [int64] column when every
    text is an integer and into a [float64] column otherwise; its other
    calls all fail.  It is enough to run the plans that filter with
    relational operators only and neither group nor sort. *)
Definition bare_library : Library :=
  {| json_loads := fun _ => None;
     series_eq := fun _ _ => raise (LibraryError "series_eq");
     series_ne := fun _ _ => raise (LibraryError "series_ne");
     series_isin := fun _ _ => raise (LibraryError "series_isin");
     groupby_agg := fun _ _ _ => raise (LibraryError "groupby_agg");
     select_distinct := fun _ _ => raise (LibraryError "select_distinct");
     sort_values := fun _ _ _ => raise (LibraryError "sort_values");
     str_strip := strip;
     numeric_dtype := fun texts => if all_whole texts then Dint64 else Dfloat64;
     numeric_value := fun texts t =>
       if all_whole texts then read_number t
       else NFloat (number_float (read_number t)) |}.

(** Scenario B: a text column of percentages. *)
Definition discounts : DataFrame :=
  [("item", {| dtype_of := Dobject; cells := [CStr "pen"; CStr "ink"] |});
   ("discount", {| dtype_of := Dobject; cells := [CStr "15%"; CStr "5%"] |})].

Definition relational_plan (value : json) : json :=
  JDict [("analysis_type", JStr "comparison");
         ("filters",
          JList [JDict [("column", JStr "discount"); ("operator", JStr ">");
                        ("value", value)]]);
         ("group_by", JList []); ("metrics", JList []); ("sort", JNull);
         ("visualization", JDict [])].

(** A plan that counts the rows of a numeric column and asks for a bar
    chart of that column. *)
Definition countries : DataFrame :=
  [("country", {| dtype_of := Dobject; cells := [CStr "FR"; CStr "IN"; CStr "FR"] |});
   ("population", {| dtype_of := Dint64; cells := [CInt 68; CInt 1400; CInt 68] |})].

Definition count_chart_plan : json :=
  JDict [("analysis_type", JStr "aggregation"); ("filters", JList []);
         ("group_by", JList []);
         ("metrics",
          JList [JDict [("column", JStr "population");
                        ("operation", JStr "count")]]);
         ("sort", JNull);
         ("visualization",
          JDict [("type", JStr "bar"); ("x", JStr "country");
                 ("y", JStr "population")])].

(** A plan that counts the rows of [population] and asks for a bar chart
    without naming a y axis. *)
Definition count_no_y_plan : json :=
  JDict [("analysis_type", JStr "aggregation"); ("filters", JList []);
         ("group_by", JList []);
         ("metrics",
          JList [JDict [("column", JStr "population");
                        ("operation", JStr "count")]]);
         ("sort", JNull);
         ("visualization", JDict [("type", JStr "bar"); ("x", JStr "country")])].

(** A row-level plan that keeps the first [top_n] rows. *)
Definition top_plan (top_n : Z) (focus : string) : json :=
  JDict [("analysis_type", JStr "comparison"); ("filters", JList []);
         ("group_by", JList []); ("metrics", JList []); ("sort", JNull);
         ("visualization",
          JDict [("type", JStr "bar"); ("x", JStr "country");
                 ("y", JStr "population"); ("top_n", JInt top_n)]);
         ("user_intent", JDict [("focus", JStr focus)])].

(** A plan whose metrics are given. *)
Definition metrics_plan (metrics : list json) : list (string * json) :=
  [("analysis_type", JStr "aggregation"); ("filters", JList []);
   ("group_by", JList [JStr "region"]); ("metrics", JList metrics);
   ("sort", JNull); ("visualization", JNull)].

Definition metric (column operation : string) : json :=
  JDict [("column", JStr column); ("operation", JStr operation)].

(** ** The words of the specification *)

(** The texts of a column, missing values left out. *)
Fixpoint texts (cs : list cell) : list string :=
  match cs with
  | [] => []
  | CStr s :: rest => s :: texts rest
  | _ :: rest => texts rest
  end.

(** The number of distinct values of a text column. *)
Definition distinct_count (s : Series) : nat :=
  List.length (nodup string_dec (texts (cells s))).

(** A column of texts and missing values. *)
Definition text_column (s : Series) : Prop :=
  Forall (fun c => is_nan c = true \/ exists t, c = CStr t) (cells s).

(** The first metric whose column is a column of the result table. *)
Definition first_present_column (result_df : DataFrame) (ms : list json) : json :=
  match find (fun m => in_strs (column_of m) (columns result_df)) ms with
  | Some m => column_of m
  | None => JNull
  end.

(** ** What an accepted validation has established *)

Import Validator.

(** The metric goes through the cleaning loop unchanged. *)
Definition kept (cols : list string) (m : json) : Prop :=
  clean_metric cols m = inr (Some m).

(** The metric carries a chart keyword as operation. *)
Definition chart_metric (m : json) : bool :=
  in_strs (operation_of m) INVALID_METRIC_OPERATIONS.

(** What an accepted run of [validate_plan] has checked before it looks
    at the chart. *)
Record checked (cols : list string) (d : list (string * json))
  (analysis_type group_by : json) (cleaned : list json) : Prop :=
  { chk_request : check_request d cols = inr analysis_type;
    chk_type : getitem (JDict d) "analysis_type" = inr analysis_type;
    chk_group_by : getitem (JDict d) "group_by" = inr group_by;
    chk_group_cols : exists gs,
        iter group_by = inr gs /\ for_each (check_group_by cols) gs = inr tt;
    chk_metrics : exists metrics ms,
        getitem (JDict d) "metrics" = inr metrics /\ iter metrics = inr ms
        /\ clean_metrics cols [] ms = inr cleaned;
    chk_conflict : exists conflict,
        in_str_set analysis_type ["distribution"; "correlation"] = inr conflict
        /\ conflict && truthy (JList cleaned) = false }.

(** The two ways [validate_plan] accepts a plan. *)
Inductive accepted (cols : list string) : json -> json -> Prop :=
| accepted_no_chart d analysis_type group_by cleaned viz :
    checked cols d analysis_type group_by cleaned ->
    getitem (JDict d) "visualization" = inr viz ->
    truthy viz = false ->
    accepted cols (JDict d) (JDict (dict_set d "metrics" (JList cleaned)))
| accepted_chart d analysis_type group_by cleaned v type metrics' v' :
    checked cols d analysis_type group_by cleaned ->
    getitem (JDict d) "visualization" = inr (JDict v) ->
    truthy (JDict v) = true ->
    getitem (JDict (normalize_nulls v)) "type" = inr type ->
    in_str_set type ALLOWED_VIZ_TYPES = inr true ->
    auto_fix cols group_by cleaned (normalize_nulls v) = inr (metrics', v') ->
    check_viz cols analysis_type (JDict v') = inr tt ->
    accepted cols (JDict d)
      (JDict (dict_set (dict_set d "metrics" (JList metrics'))
                       "visualization" (JDict v'))).

(** The value under [key], if any, is not a null literal. *)
Definition no_null_literal (v : list (string * json)) (key : string) : Prop :=
  forall val, dict_get v key = Some val -> in_strs val ["null"; "NULL"] = false.

(** ** Counting without repetition *)

(** The texts of a list without repetition, first occurrences kept. *)
Fixpoint firsts (seen ts : list string) : list string :=
  match ts with
  | [] => []
  | t :: rest =>
      if existsb (String.eqb t) seen then firsts seen rest
      else t :: firsts (t :: seen) rest
  end.

(** ** app.py *)

Module App.

Definition keywords : list string :=
  ["dataset information"; "dataset info"; "describe dataset"; "data overview";
   "summary of dataset"; "about the dataset"; "dataset summary"].

(** [s.lower()], on ASCII letters. *)
Definition lower_string (s : string) : string :=
  string_of_list_ascii (map lower (list_ascii_of_string s)).

(** [is_dataset_info_query(question)] *)
Definition is_dataset_info_query (question : string) : bool :=
  let q := lower_string question in
  existsb (fun k => is_substring k q) keywords.

End App.

(** ** Further observations *)

(** The value under a key of a chart or filter, [None] when absent. *)
Definition axis (v : json) (k : string) : json :=
  match get v k with
  | inr x => x
  | inl _ => JNull
  end.

(** What the type rules, the axis validation and the top-N check have
    established when they pass. *)
Record chart_ok (cols : list string) (analysis_type : json)
  (v : list (string * json)) : Prop :=
  { ok_histogram :
      py_eq (axis (JDict v) "type") (JStr "histogram") = true ->
      is_none (axis (JDict v) "y") = true /\ is_none (axis (JDict v) "x") = false;
    ok_correlation :
      py_eq analysis_type (JStr "correlation") = true ->
      py_eq (axis (JDict v) "type") (JStr "scatter") = true
      /\ is_none (axis (JDict v) "x") = false
      /\ is_none (axis (JDict v) "y") = false;
    ok_x : is_none (axis (JDict v) "x") = false ->
           in_strs (axis (JDict v) "x") cols = true;
    ok_y : is_none (axis (JDict v) "y") = false ->
           in_strs (axis (JDict v) "y") cols = true;
    ok_top_n : axis (JDict v) "top_n" = JNull
               \/ (exists n, axis (JDict v) "top_n" = JInt n /\ 0 < n)
               \/ axis (JDict v) "top_n" = JBool true }.

(** The text of a cell as the coercion hands it to the parser. *)
Definition read_text (lib : Library) (c : cell) : text :=
  text_map (str_strip lib) (text_map remove_percent (astype_str c)).

(** The cell is a number that stands in the relation [op] to [x]. *)
Definition satisfies (op : string) (x : spec_float) (c : cell) : bool :=
  match cell_float c with
  | inr v => compare_float op v x
  | inl _ => false
  end.

(** Every column of the frame has [n] cells. *)
Definition rectangular (n : nat) (df : DataFrame) : Prop :=
  Forall (fun c => List.length (cells (snd c)) = n) df.

(** [agg_map.get(col)] *)
Fixpoint agg_get (agg_map : list (json * json)) (col : json) : option json :=
  match agg_map with
  | [] => None
  | (c, o) :: rest => if py_eq c col then Some o else agg_get rest col
  end.

(** A plan without filters, grouping, metrics or sorting. *)
Definition plain_plan (visualization : json) : json :=
  JDict [("analysis_type", JStr "comparison"); ("filters", JList []);
         ("group_by", JList []); ("metrics", JList []); ("sort", JNull);
         ("visualization", visualization)].

(** * Properties *)

(** ** The error monad and the dictionaries *)

Lemma bind_inr {A B} (c : result A) (k : A -> result B) (b : B) :
  bind c k = inr b -> exists a, c = inr a /\ k a = inr b.
Proof.
  destruct c as [e | a]; simpl; intros H; [discriminate | eauto].
Qed.

Lemma raise_if_inr (b : bool) (e : exn) (u : unit) :
  raise_if b e = inr u -> b = false.
Proof. destruct b; simpl; [discriminate | reflexivity]. Qed.

(** Splits [bind c k = inr b] in hypothesis [H] into the two runs. *)
Tactic Notation "inv_bind" hyp(H) "as" ident(a) ident(Ha) :=
  apply bind_inr in H; destruct H as (a & Ha & H).

Lemma for_each_inr {A} (body : A -> result unit) (xs : list A) :
  for_each body xs = inr tt <-> Forall (fun x => body x = inr tt) xs.
Proof.
  induction xs as [| x xs IH]; simpl.
  - split; [constructor | reflexivity].
  - split.
    + intros H. inv_bind H as u Hx. destruct u.
      constructor; [assumption | now apply IH].
    + intros H. inversion H as [| ? ? Hx Hxs]; subst.
      rewrite Hx. simpl. now apply IH.
Qed.

Lemma dict_get_set {A} (d : list (string * A)) (k k' : string) (v : A) :
  dict_get (dict_set d k v) k'
  = if String.eqb k k' then Some v else dict_get d k'.
Proof.
  induction d as [| [k0 v0] d IH]; simpl.
  - destruct (String.eqb k k'); reflexivity.
  - destruct (String.eqb k0 k) eqn:E0; simpl.
    + apply String.eqb_eq in E0. subst k0.
      destruct (String.eqb k k'); reflexivity.
    + destruct (String.eqb k0 k') eqn:E1.
      * apply String.eqb_eq in E1. subst k0.
        rewrite String.eqb_sym, E0. reflexivity.
      * apply IH.
Qed.

Lemma dict_get_set_same {A} (d : list (string * A)) (k : string) (v : A) :
  dict_get (dict_set d k v) k = Some v.
Proof. now rewrite dict_get_set, String.eqb_refl. Qed.

Lemma dict_get_set_other {A} (d : list (string * A)) (k k' : string) (v : A) :
  k <> k' -> dict_get (dict_set d k v) k' = dict_get d k'.
Proof.
  intros H. rewrite dict_get_set.
  destruct (String.eqb_spec k k'); [contradiction | reflexivity].
Qed.

(** Storing the value a key already has changes nothing. *)
Lemma dict_set_same {A} (d : list (string * A)) (k : string) (v : A) :
  dict_get d k = Some v -> dict_set d k v = d.
Proof.
  induction d as [| [k0 v0] d IH]; simpl; [discriminate |].
  destruct (String.eqb k0 k); intros H.
  - now inversion H.
  - now rewrite IH.
Qed.

Lemma dict_set_twice {A} (d : list (string * A)) (k : string) (v w : A) :
  dict_set (dict_set d k v) k w = dict_set d k w.
Proof.
  induction d as [| [k0 v0] d IH]; simpl.
  - now rewrite String.eqb_refl.
  - destruct (String.eqb k0 k) eqn:E; simpl; rewrite E; [reflexivity |].
    now rewrite IH.
Qed.

Lemma getitem_set_same (d : list (string * json)) (k : string) (v : json) :
  getitem (JDict (dict_set d k v)) k = inr v.
Proof. unfold getitem. now rewrite dict_get_set_same. Qed.

Lemma getitem_set_other (d : list (string * json)) (k k' : string) (v : json) :
  k <> k' -> getitem (JDict (dict_set d k v)) k' = getitem (JDict d) k'.
Proof. intros H. unfold getitem. now rewrite dict_get_set_other. Qed.

Lemma getitem_inr (v : json) (k : string) (x : json) :
  getitem v k = inr x -> exists d, v = JDict d /\ dict_get d k = Some x.
Proof.
  destruct v; simpl; try discriminate.
  destruct (dict_get d k) eqn:E; [| discriminate].
  intros H. inversion H. subst. eauto.
Qed.

Lemma get_of_getitem (v : json) (k : string) (x : json) :
  getitem v k = inr x -> get v k = inr x.
Proof.
  intros H. apply getitem_inr in H. destruct H as (d & -> & H).
  unfold get, get_default. now rewrite H.
Qed.

Lemma getitem_has (d : list (string * json)) (k : string) (x : json) :
  getitem (JDict d) k = inr x -> dict_has d k = true.
Proof.
  intros H. apply getitem_inr in H. destruct H as (d' & E & H).
  inversion E. subst d'. unfold dict_has. now rewrite H.
Qed.

Lemma getitem_get (d : list (string * json)) (k : string) (x : json) :
  getitem (JDict d) k = inr x -> dict_get d k = Some x.
Proof.
  intros H. apply getitem_inr in H. destruct H as (d' & E & H).
  now inversion E.
Qed.

(** Membership in a list of strings singles out a string of the list. *)
Lemma in_strs_true (v : json) (l : list string) :
  in_strs v l = true -> exists s, v = JStr s /\ In s l.
Proof.
  unfold in_strs. intros H. apply existsb_exists in H.
  destruct H as (s & Hin & Heq).
  destruct v; simpl in Heq; try discriminate.
  apply String.eqb_eq in Heq. subst. eauto.
Qed.

Lemma in_strs_str (s : string) (l : list string) :
  In s l -> in_strs (JStr s) l = true.
Proof.
  intros H. unfold in_strs. apply existsb_exists.
  exists s. split; [assumption | apply String.eqb_refl].
Qed.

Lemma in_str_set_inr (v : json) (l : list string) (b : bool) :
  in_str_set v l = inr b -> hashable v = true /\ in_strs v l = b.
Proof.
  unfold in_str_set. destruct (hashable v); simpl; [| discriminate].
  intros H. inversion H. auto.
Qed.

(** ** The validator *)

Module ValidatorFacts.
Import Validator.

Lemma negb_false_true (b : bool) : negb b = false -> b = true.
Proof. now destruct b. Qed.

Lemma check_request_inv (d : list (string * json)) (cols : list string)
  (analysis_type : json) :
  check_request d cols = inr analysis_type ->
  getitem (JDict d) "analysis_type" = inr analysis_type
  /\ in_str_set analysis_type ALLOWED_ANALYSIS_TYPES = inr true
  /\ exists group_by gs,
      getitem (JDict d) "group_by" = inr group_by /\ iter group_by = inr gs
      /\ for_each (check_group_by cols) gs = inr tt.
Proof.
  unfold check_request. intros H.
  inv_bind H as u Hkeys. destruct u.
  inv_bind H as analysis_type' Htype.
  inv_bind H as allowed Hallowed.
  inv_bind H as u Hu. apply raise_if_inr, negb_false_true in Hu. subst allowed.
  clear u.
  inv_bind H as filters Hfilters.
  inv_bind H as fs Hfs. inv_bind H as u Hfs_ok. destruct u.
  inv_bind H as group_by Hgroup.
  inv_bind H as gs Hgs. inv_bind H as u Hgs_ok. destruct u.
  inversion H. subst analysis_type'. eauto 10.
Qed.

Lemma for_each_ext {A} (f g : A -> result unit) (xs : list A) :
  (forall x, f x = g x) -> for_each f xs = for_each g xs.
Proof.
  intros H. induction xs as [| x xs IH]; simpl; [reflexivity |].
  now rewrite H, IH.
Qed.

Lemma dict_has_set {A} (d : list (string * A)) (k k' : string) (v : A) :
  dict_has d k = true -> dict_has (dict_set d k v) k' = dict_has d k'.
Proof.
  unfold dict_has. rewrite dict_get_set.
  destruct (String.eqb_spec k k'); [subst k' | reflexivity].
  destruct (dict_get d k); [reflexivity | discriminate].
Qed.

(** The first three sections of the validator do not read [metrics] or
    [visualization]. *)
Lemma check_request_set (d : list (string * json)) (k : string) (v : json)
  (cols : list string) :
  dict_has d k = true ->
  k <> "analysis_type" -> k <> "filters" -> k <> "group_by" ->
  check_request (dict_set d k v) cols = check_request d cols.
Proof.
  intros Hk H1 H2 H3. unfold check_request.
  rewrite !getitem_set_other by assumption.
  f_equal. apply for_each_ext. intros key. now rewrite dict_has_set.
Qed.

Lemma validate_plan_inv (plan plan' : json) (cols : list string) :
  validate_plan plan cols = inr plan' -> accepted cols plan plan'.
Proof.
  unfold validate_plan. destruct plan as [| | | | | | d]; try discriminate.
  intros H.
  inv_bind H as analysis_type Hrequest.
  destruct (check_request_inv _ _ _ Hrequest)
    as (Htype & Hallowed & group_by & gs & Hgroup & Hgs & Hgs_ok).
  inv_bind H as metrics Hmetrics.
  inv_bind H as ms Hms. inv_bind H as cleaned Hcleaned.
  inv_bind H as conflict Hconflict.
  inv_bind H as u Hno_conflict. apply raise_if_inr in Hno_conflict. clear u.
  inv_bind H as viz Hviz.
  rewrite getitem_set_other in Hviz by discriminate.
  assert (Hchk : checked cols d analysis_type group_by cleaned).
  { constructor; eauto. }
  cbv zeta in H. destruct (truthy viz) eqn:Htruthy; cbn [negb] in H.
  - destruct viz as [| | | | | | v]; try discriminate.
    inv_bind H as type Hvtype.
    inv_bind H as known Hknown.
    inv_bind H as u' Hu'. apply raise_if_inr, negb_false_true in Hu'. subst known.
    inv_bind H as group_by' Hgroup'.
    rewrite getitem_set_other in Hgroup' by discriminate.
    assert (group_by' = group_by) by congruence. subst group_by'.
    inv_bind H as fixed Hfixed. destruct fixed as [metrics' v'].
    inv_bind H as u'' Hcheck. destruct u''. inversion H. subst plan'. clear H.
    rewrite dict_set_twice.
    eapply accepted_chart; eauto.
  - inversion H. subst plan'. eapply accepted_no_chart; eauto.
Qed.

(** *** Metric cleaning *)

Lemma clean_metric_some (cols : list string) (m m' : json) :
  clean_metric cols m = inr (Some m') -> m' = m.
Proof.
  unfold clean_metric. intros H.
  inv_bind H as op Hop. inv_bind H as dropped Hdropped.
  destruct dropped; [discriminate |].
  inv_bind H as allowed Hallowed. inv_bind H as u Hu.
  inv_bind H as column Hcolumn. inv_bind H as u' Hu'.
  now inversion H.
Qed.

Lemma allowed_not_chart (op : json) :
  in_strs op ALLOWED_METRICS = true ->
  in_strs op INVALID_METRIC_OPERATIONS = false.
Proof.
  intros H. apply in_strs_true in H. destruct H as (s & -> & Hin).
  simpl in Hin. repeat (destruct Hin as [<- | Hin]; [reflexivity |]).
  contradiction.
Qed.

(** What a kept metric looks like. *)
Lemma kept_inv (cols : list string) (m : json) :
  kept cols m ->
  exists op column,
    get m "operation" = inr op /\ in_strs op ALLOWED_METRICS = true
    /\ getitem m "column" = inr column /\ in_strs column cols = true.
Proof.
  unfold kept, clean_metric. intros H.
  inv_bind H as op Hop. inv_bind H as dropped Hdropped.
  destruct dropped; [discriminate |].
  inv_bind H as allowed Hallowed. inv_bind H as u Hu.
  apply raise_if_inr, negb_false_true in Hu. subst allowed.
  inv_bind H as column Hcolumn. inv_bind H as u' Hu'.
  apply raise_if_inr, negb_false_true in Hu'.
  apply in_str_set_inr in Hallowed. destruct Hallowed as [_ Hallowed].
  eauto 10.
Qed.

Lemma kept_intro (cols : list string) (m op column : json) :
  get m "operation" = inr op -> in_strs op ALLOWED_METRICS = true ->
  getitem m "column" = inr column -> in_strs column cols = true ->
  kept cols m.
Proof.
  intros Hop Hallowed Hcolumn Hcols. unfold kept, clean_metric.
  rewrite Hop. cbn [bind].
  destruct (in_strs_true _ _ Hallowed) as (s & -> & _).
  unfold in_str_set. cbn [hashable bind ret].
  rewrite (allowed_not_chart _ Hallowed), Hallowed. cbn [negb raise_if bind ret].
  rewrite Hcolumn. cbn [bind]. now rewrite Hcols.
Qed.

Lemma clean_metrics_inv (cols : list string) (ms acc out : list json) :
  clean_metrics cols acc ms = inr out ->
  exists new, out = acc ++ new /\ Forall (kept cols) new.
Proof.
  revert acc. induction ms as [| m ms IH]; simpl; intros acc H.
  - inversion H. exists []. now rewrite app_nil_r.
  - inv_bind H as r Hr. destruct r as [m' |].
    + pose proof (clean_metric_some _ _ _ Hr) as ->.
      apply IH in H. destruct H as (new & -> & Hnew).
      exists (m :: new). rewrite <- app_assoc. split; [reflexivity |].
      now constructor.
    + now apply IH.
Qed.

(** Cleaning a list of kept metrics keeps all of them. *)
Lemma clean_metrics_kept (cols : list string) (ms acc : list json) :
  Forall (kept cols) ms -> clean_metrics cols acc ms = inr (acc ++ ms).
Proof.
  revert acc. induction ms as [| m ms IH]; simpl; intros acc H.
  - now rewrite app_nil_r.
  - inversion H as [| ? ? Hm Hms]; subst. unfold kept in Hm. rewrite Hm.
    cbn [bind]. rewrite IH by assumption. now rewrite <- app_assoc.
Qed.

(** A chart keyword makes the loop skip the metric, whatever else the
    metric holds. *)
Lemma clean_metric_chart (cols : list string) (m : json) :
  chart_metric m = true -> clean_metric cols m = inr None.
Proof.
  unfold chart_metric, operation_of, clean_metric. intros H.
  destruct (get m "operation") as [e | op]; [discriminate |].
  cbn [bind]. destruct (in_strs_true _ _ H) as (s & -> & _).
  unfold in_str_set. cbn [hashable bind ret]. now rewrite H.
Qed.

Lemma clean_metrics_drop_chart (cols : list string) (ms acc : list json) :
  clean_metrics cols acc ms
  = clean_metrics cols acc (filter (fun m => negb (chart_metric m)) ms).
Proof.
  revert acc. induction ms as [| m ms IH]; intros acc; [reflexivity |].
  cbn [filter]. destruct (chart_metric m) eqn:Hm; cbn [negb].
  - cbn [clean_metrics]. rewrite (clean_metric_chart _ _ Hm). cbn [bind].
    apply IH.
  - cbn [clean_metrics]. destruct (clean_metric cols m) as [e | [m' |]];
      cbn [bind]; [reflexivity | apply IH | apply IH].
Qed.

(** An operation that is neither a chart keyword nor a statistic stops
    the loop. *)
Lemma clean_metric_unknown (cols : list string) (m op : json) :
  get m "operation" = inr op -> hashable op = true ->
  in_strs op INVALID_METRIC_OPERATIONS = false ->
  in_strs op ALLOWED_METRICS = false ->
  clean_metric cols m = inl (ValueError (InvalidMetricOperation op)).
Proof.
  intros Hop Hhash Hchart Hallowed. unfold clean_metric, in_str_set.
  rewrite Hop. cbn [bind]. rewrite Hhash. cbn [bind ret].
  rewrite Hchart, Hallowed. reflexivity.
Qed.

Lemma clean_metrics_app (cols : list string) (ms1 ms2 acc out : list json) :
  clean_metrics cols acc ms1 = inr out ->
  clean_metrics cols acc (ms1 ++ ms2) = clean_metrics cols out ms2.
Proof.
  revert acc. induction ms1 as [| m ms1 IH]; simpl; intros acc H.
  - now inversion H.
  - destruct (clean_metric cols m) as [e | [m' |]]; cbn [bind] in *;
      [discriminate | now apply IH | now apply IH].
Qed.

(** *** The auto-fix *)

Lemma first_item_iter (g t : json) :
  first_item g = inr t -> exists rest, iter g = inr (t :: rest).
Proof.
  destruct g as [| | | | s | l | d]; simpl; try discriminate.
  - destruct s as [| c s]; [discriminate |].
    intros H. inversion H. simpl. eauto.
  - destruct l as [| x l]; [discriminate |].
    intros H. inversion H. eauto.
Qed.

Lemma first_column_in (cols : list string) (t : json) :
  first_column cols = inr t -> in_strs t cols = true.
Proof.
  destruct cols as [| c cols]; cbn [first_column]; [discriminate |].
  intros H. inversion H. apply in_strs_str. now left.
Qed.

(** The column the auto-fix aggregates is a column of the table. *)
Lemma target_col_in (cols : list string) (group_by t : json) (gs : list json) :
  iter group_by = inr gs -> for_each (check_group_by cols) gs = inr tt ->
  (if truthy group_by then first_item group_by else first_column cols) = inr t ->
  in_strs t cols = true.
Proof.
  intros Hgs Hok Ht. destruct (truthy group_by).
  - destruct (first_item_iter _ _ Ht) as (rest & Hiter).
    rewrite Hiter in Hgs. inversion Hgs. subst gs.
    apply for_each_inr in Hok. inversion Hok as [| ? ? Hx _]; subst.
    unfold check_group_by in Hx. now apply raise_if_inr, negb_false_true in Hx.
  - now apply first_column_in in Ht.
Qed.

(** Either the y axis is no metric name and nothing changes, or a metric
    on the target column is appended and the y axis rewritten. *)
Lemma auto_fix_inv (cols : list string) (group_by : json)
  (cleaned metrics' : list json) (v v' : list (string * json)) :
  auto_fix cols group_by cleaned v = inr (metrics', v') ->
  exists y,
    (get (JDict v) "y" = inr y /\ hashable y = true)
    /\ ((in_strs y ALLOWED_METRICS = false /\ metrics' = cleaned /\ v' = v)
        \/ (in_strs y ALLOWED_METRICS = true
            /\ exists target,
                (if truthy group_by then first_item group_by
                 else first_column cols) = inr target
                /\ metrics' = cleaned
                               ++ [JDict [("operation", y); ("column", target)]]
                /\ v' = dict_set v "y" target)).
Proof.
  unfold auto_fix. intros H.
  inv_bind H as y Hy. exists y.
  inv_bind H as is_metric Hmetric.
  apply in_str_set_inr in Hmetric. destruct Hmetric as [Hhash Hmetric].
  split; [now split |].
  destruct is_metric.
  - right. split; [assumption |].
    inv_bind H as target Htarget. inv_bind H as y' Hy'.
    inversion H. subst. exists target. split; [assumption |].
    apply get_of_getitem in Hy'. rewrite Hy in Hy'. inversion Hy'. auto.
  - left. inversion H. auto.
Qed.

Lemma metrics_of_set (d : list (string * json)) (ms : list json) :
  metrics_of (JDict (dict_set d "metrics" (JList ms))) = ms.
Proof. unfold metrics_of. now rewrite getitem_set_same. Qed.

Lemma metrics_of_set_viz (d : list (string * json)) (v : json) :
  metrics_of (JDict (dict_set d "visualization" v)) = metrics_of (JDict d).
Proof. unfold metrics_of. now rewrite getitem_set_other by discriminate. Qed.

(** Every metric of a normalized plan is one the cleaning loop keeps:
    a statistic over a column of the table. *)
Lemma accepted_metrics_kept (cols : list string) (plan plan' : json) :
  accepted cols plan plan' -> Forall (kept cols) (metrics_of plan').
Proof.
  intros [d analysis_type group_by cleaned viz Hchk Hviz Htruthy
         | d analysis_type group_by cleaned v type metrics' v'
             Hchk Hviz Htruthy Htype Hknown Hfix Hcheck].
  - rewrite metrics_of_set.
    destruct (chk_metrics _ _ _ _ _ Hchk) as (metrics & ms & _ & _ & Hclean).
    apply clean_metrics_inv in Hclean. now destruct Hclean as (new & -> & Hnew).
  - rewrite metrics_of_set_viz, metrics_of_set.
    destruct (chk_metrics _ _ _ _ _ Hchk) as (metrics & ms & _ & _ & Hclean).
    apply clean_metrics_inv in Hclean. destruct Hclean as (new & -> & Hnew).
    destruct (chk_group_cols _ _ _ _ _ Hchk) as (gs & Hgs & Hgs_ok).
    apply auto_fix_inv in Hfix.
    destruct Hfix as (y & _ & [(_ & -> & _) | (Hmetric & target & Ht & -> & _)]);
      [assumption |].
    apply Forall_app. split; [assumption |].
    constructor; [| constructor].
    eapply kept_intro with (op := y) (column := target);
      [reflexivity | assumption | reflexivity |].
    eapply target_col_in; eassumption.
Qed.

(** *** Null literals *)

Lemma null_key_cleans (v : list (string * json)) (key : string) :
  no_null_literal (null_key v key) key.
Proof.
  unfold no_null_literal, null_key. intros val.
  destruct (dict_get v key) as [x |] eqn:Hx.
  - destruct (in_strs x ["null"; "NULL"]) eqn:Hnull.
    + rewrite dict_get_set_same. intros H. inversion H. reflexivity.
    + rewrite Hx. intros H. inversion H. subst. assumption.
  - rewrite Hx. discriminate.
Qed.

Lemma null_key_preserves (v : list (string * json)) (key key' : string) :
  no_null_literal v key -> no_null_literal (null_key v key') key.
Proof.
  intros H. destruct (String.eqb_spec key' key) as [-> | Hne].
  - apply null_key_cleans.
  - unfold no_null_literal, null_key. intros val.
    destruct (dict_get v key') as [x |]; [| apply H].
    destruct (in_strs x ["null"; "NULL"]); [| apply H].
    rewrite dict_get_set_other by assumption. apply H.
Qed.

Lemma fold_null_key_preserves (keys : list string) (v : list (string * json))
  (key : string) :
  no_null_literal v key -> no_null_literal (fold_left null_key keys v) key.
Proof.
  revert v. induction keys as [| k keys IH]; simpl; intros v H; [assumption |].
  apply IH. now apply null_key_preserves.
Qed.

Lemma fold_null_key_cleans (keys : list string) (v : list (string * json))
  (key : string) :
  In key keys -> no_null_literal (fold_left null_key keys v) key.
Proof.
  revert v. induction keys as [| k keys IH]; simpl; intros v H; [contradiction |].
  destruct H as [-> | H].
  - apply fold_null_key_preserves, null_key_cleans.
  - now apply IH.
Qed.

Lemma null_key_fixed (v : list (string * json)) (key : string) :
  no_null_literal v key -> null_key v key = v.
Proof.
  unfold no_null_literal, null_key. intros H.
  destruct (dict_get v key) as [x |]; [| reflexivity].
  now rewrite (H x eq_refl).
Qed.

Lemma fold_null_key_fixed (keys : list string) (v : list (string * json)) :
  (forall key, In key keys -> no_null_literal v key) ->
  fold_left null_key keys v = v.
Proof.
  induction keys as [| k keys IH]; simpl; intros H; [reflexivity |].
  rewrite null_key_fixed by auto. apply IH. auto.
Qed.

Lemma no_null_literal_set (v : list (string * json)) (k key : string)
  (x : json) :
  in_strs x ["null"; "NULL"] = false ->
  no_null_literal v key -> no_null_literal (dict_set v k x) key.
Proof.
  unfold no_null_literal. intros Hx H val. rewrite dict_get_set.
  destruct (String.eqb k key); [| apply H].
  intros E. inversion E. subst. assumption.
Qed.

Lemma in_strs_app (v : json) (l1 l2 : list string) :
  in_strs v (l1 ++ l2) = in_strs v l1 || in_strs v l2.
Proof. unfold in_strs. apply existsb_app. Qed.

(** An accepted loop went through every metric without an error. *)
Lemma clean_metrics_each (cols : list string) (ms acc out : list json) (m : json) :
  clean_metrics cols acc ms = inr out -> In m ms ->
  exists r, clean_metric cols m = inr r.
Proof.
  revert acc. induction ms as [| m' ms IH]; simpl; intros acc H Hin;
    [contradiction |].
  inv_bind H as r Hr. destruct Hin as [-> | Hin]; [eauto |].
  destruct r; eapply IH; eassumption.
Qed.

Lemma accepted_cleaned (cols : list string) (d : list (string * json))
  (plan' : json) (ms : list json) :
  accepted cols (JDict d) plan' ->
  dict_get d "metrics" = Some (JList ms) ->
  exists cleaned, clean_metrics cols [] ms = inr cleaned.
Proof.
  intros H Hms.
  assert (Hchk : exists analysis_type group_by cleaned,
             checked cols d analysis_type group_by cleaned).
  { inversion H; subst; eauto. }
  destruct Hchk as (analysis_type & group_by & cleaned & Hchk).
  destruct (chk_metrics _ _ _ _ _ Hchk) as (metrics & ms' & Hget & Hiter & Hclean).
  apply getitem_get in Hget. rewrite Hms in Hget. inversion Hget. subst metrics.
  inversion Hiter. subst ms'. eauto.
Qed.

(** C6.  Metric entries whose operation is a chart keyword ([bar],
    [line], [scatter], [histogram]) are removed without an error:
    validation behaves exactly as on the plan without them.  The metrics
    of a normalized plan never carry a chart keyword, they all carry a
    statistic.  Any other operation outside the statistics stops the
    cleaning loop with the invalid-metric-operation error when the loop
    reaches it, and a plan that holds such a metric is never accepted. *)
Theorem chart_keywords_dropped_unknown_rejected :
  (forall (d : list (string * json)) (ms : list json) (cols : list string),
      dict_get d "metrics" = Some (JList ms) ->
      validate_plan (JDict d) cols
      = validate_plan
          (JDict (dict_set d "metrics"
                    (JList (filter (fun m => negb (chart_metric m)) ms))))
          cols)
  /\ (forall (plan plan' : json) (cols : list string),
         validate_plan plan cols = inr plan' ->
         Forall (fun m => chart_metric m = false
                          /\ in_strs (operation_of m) ALLOWED_METRICS = true)
                (metrics_of plan'))
  /\ (forall (d : list (string * json)) (cols : list string)
             (analysis_type m op : json) (before after cleaned : list json),
         check_request d cols = inr analysis_type ->
         dict_get d "metrics" = Some (JList (before ++ m :: after)) ->
         clean_metrics cols [] before = inr cleaned ->
         get m "operation" = inr op ->
         hashable op = true ->
         in_strs op INVALID_METRIC_OPERATIONS = false ->
         in_strs op ALLOWED_METRICS = false ->
         validate_plan (JDict d) cols
         = inl (ValueError (InvalidMetricOperation op)))
  /\ (forall (d : list (string * json)) (cols : list string)
             (m op : json) (ms : list json) (plan' : json),
         dict_get d "metrics" = Some (JList ms) ->
         In m ms ->
         get m "operation" = inr op ->
         in_strs op INVALID_METRIC_OPERATIONS = false ->
         in_strs op ALLOWED_METRICS = false ->
         validate_plan (JDict d) cols <> inr plan').
Proof.
  split; [| split; [| split]].
  - intros d ms cols Hms. unfold validate_plan.
    rewrite check_request_set;
      [| unfold dict_has; now rewrite Hms | discriminate ..].
    destruct (check_request d cols) as [e | analysis_type]; [reflexivity |].
    cbn [bind]. rewrite getitem_set_same. unfold getitem at 1. rewrite Hms.
    cbn [bind ret iter]. rewrite <- clean_metrics_drop_chart.
    destruct (clean_metrics cols [] ms) as [e | cleaned]; [reflexivity |].
    cbn [bind]. cbv zeta. now rewrite dict_set_twice.
  - intros plan plan' cols H.
    apply validate_plan_inv, accepted_metrics_kept in H.
    eapply Forall_impl; [| exact H]. intros m Hm.
    apply kept_inv in Hm. destruct Hm as (op & column & Hop & Hallowed & _).
    unfold chart_metric, operation_of. rewrite Hop.
    split; [now apply allowed_not_chart | assumption].
  - intros d cols analysis_type m op before after cleaned
           Hreq Hms Hbefore Hop Hhash Hchart Hallowed.
    unfold validate_plan. rewrite Hreq. cbn [bind].
    unfold getitem. rewrite Hms. cbn [bind ret iter].
    rewrite (clean_metrics_app _ _ _ _ _ Hbefore). cbn [clean_metrics].
    now rewrite (clean_metric_unknown _ _ _ Hop Hhash Hchart Hallowed).
  - intros d cols m op ms plan' Hms Hin Hop Hchart Hallowed H.
    apply validate_plan_inv in H.
    destruct (accepted_cleaned _ _ _ _ H Hms) as (cleaned & Hclean).
    destruct (clean_metrics_each _ _ _ _ _ Hclean Hin) as (r & Hr).
    unfold clean_metric, in_str_set in Hr. rewrite Hop in Hr. cbn [bind] in Hr.
    destruct (hashable op); [| discriminate]. cbn [bind ret] in Hr.
    rewrite Hchart, Hallowed in Hr. discriminate.
Qed.

(** A [bar] entry on an unknown column is dropped and [sum] is kept;
    an [average] entry after a kept [sum] is rejected. *)
Lemma chart_keywords_dropped_unknown_rejected_witness :
  validate_plan
    (JDict (metrics_plan [metric "nowhere" "bar"; metric "sales" "sum"]))
    ["region"; "sales"]
  = inr (JDict (metrics_plan [metric "sales" "sum"]))
  /\ Forall (fun m => chart_metric m = false
                      /\ in_strs (operation_of m) ALLOWED_METRICS = true)
            (metrics_of (JDict (metrics_plan [metric "sales" "sum"])))
  /\ validate_plan
       (JDict (metrics_plan [metric "sales" "sum"; metric "sales" "average"]))
       ["region"; "sales"]
     = inl (ValueError (InvalidMetricOperation (JStr "average"))).
Proof.
  destruct chart_keywords_dropped_unknown_rejected
    as (Hdrop & Hclean & Hunknown & _).
  split; [| split].
  - rewrite (Hdrop _ [metric "nowhere" "bar"; metric "sales" "sum"]);
      reflexivity.
  - apply (Hclean (JDict (metrics_plan [metric "sales" "sum"])) _
                  ["region"; "sales"]).
    reflexivity.
  - apply (Hunknown _ _ (JStr "aggregation") (metric "sales" "average")
                    (JStr "average") [metric "sales" "sum"] []
                    [metric "sales" "sum"]); reflexivity.
Defined.

(** *** Validating twice *)

(** A second validation of a plan accepted without a chart. *)
Lemma revalidate_no_chart (cols : list string) (d : list (string * json))
  (analysis_type group_by viz : json) (cleaned : list json) :
  checked cols d analysis_type group_by cleaned ->
  getitem (JDict d) "visualization" = inr viz ->
  truthy viz = false ->
  validate_plan (JDict (dict_set d "metrics" (JList cleaned))) cols
  = inr (JDict (dict_set d "metrics" (JList cleaned))).
Proof.
  intros Hchk Hviz Htruthy.
  destruct (chk_metrics _ _ _ _ _ Hchk) as (metrics & ms & Hmetrics & _ & Hclean).
  destruct (chk_conflict _ _ _ _ _ Hchk) as (conflict & Hconflict & Hnone).
  apply clean_metrics_inv in Hclean. destruct Hclean as (new & E & Hkept).
  simpl in E. subst new.
  unfold validate_plan.
  rewrite check_request_set;
    [| eapply getitem_has; eassumption | discriminate ..].
  rewrite (chk_request _ _ _ _ _ Hchk). cbn [bind].
  rewrite getitem_set_same. cbn [bind iter ret].
  rewrite (clean_metrics_kept _ _ [] Hkept). cbn [bind app]. cbv zeta.
  rewrite dict_set_twice, Hconflict. cbn [bind]. rewrite Hnone.
  cbn [raise_if bind ret].
  rewrite getitem_set_other by discriminate. rewrite Hviz. cbn [bind].
  now rewrite Htruthy.
Qed.

(** A second validation of a plan accepted with a chart, when the
    normalized plan is settled. *)
Lemma revalidate_chart (cols : list string) (d : list (string * json))
  (analysis_type group_by type : json) (cleaned metrics' : list json)
  (v v' : list (string * json)) :
  let plan' := JDict (dict_set (dict_set d "metrics" (JList metrics'))
                               "visualization" (JDict v')) in
  checked cols d analysis_type group_by cleaned ->
  getitem (JDict d) "visualization" = inr (JDict v) ->
  getitem (JDict (normalize_nulls v)) "type" = inr type ->
  in_str_set type ALLOWED_VIZ_TYPES = inr true ->
  auto_fix cols group_by cleaned (normalize_nulls v) = inr (metrics', v') ->
  check_viz cols analysis_type (JDict v') = inr tt ->
  Forall (kept cols) metrics' ->
  settled plan' = true ->
  validate_plan plan' cols = inr plan'.
Proof.
  intros plan' Hchk Hviz Htype Hknown Hfix Hcheck Hkept Hsettled.
  destruct (chk_metrics _ _ _ _ _ Hchk) as (metrics & ms & Hmetrics & _ & _).
  destruct (chk_conflict _ _ _ _ _ Hchk) as (conflict & Hconflict & _).
  (* what [settled] says about the normalized plan *)
  unfold settled, y_axis_in, metric_free_analysis, visualization_of,
    analysis_type_of in Hsettled.
  subst plan'.
  rewrite getitem_set_same, metrics_of_set_viz, metrics_of_set in Hsettled.
  rewrite !getitem_set_other in Hsettled by discriminate.
  rewrite (chk_type _ _ _ _ _ Hchk) in Hsettled.
  apply andb_true_iff in Hsettled. destruct Hsettled as [Hy Hfree].
  apply negb_true_iff in Hy, Hfree.
  destruct (in_str_set_inr _ _ _ Hconflict) as [_ Hc]. rewrite Hc in Hfree.
  (* the y axis after the first validation *)
  apply auto_fix_inv in Hfix. destruct Hfix as (y & (Hy0 & Hhash0) & Hcases).
  assert (Hy' : exists y', get (JDict v') "y" = inr y' /\ hashable y' = true
                           /\ in_strs y' ALLOWED_METRICS = false
                           /\ no_null_literal v' "y"
                           /\ getitem (JDict v') "type" = inr type
                           /\ forall key, In key ["x"; "color"; "top_n"] ->
                                          no_null_literal v' key).
  { destruct (chk_group_cols _ _ _ _ _ Hchk) as (gs & Hgs & Hgs_ok).
    destruct Hcases as [(Hno & _ & ->) | (Hyes & target & Ht & _ & ->)].
    - exists y. rewrite Hy0 in Hy. rewrite in_strs_app in Hy.
      apply orb_false_iff in Hy. destruct Hy as [Hy _].
      repeat split; try assumption.
      + apply fold_null_key_cleans. simpl. auto.
      + intros key Hkey. apply fold_null_key_cleans. simpl in *. intuition.
    - exists target. unfold get, get_default in Hy |- *.
      rewrite dict_get_set_same in Hy |- *. unfold ret in Hy.
      rewrite in_strs_app in Hy. apply orb_false_iff in Hy.
      destruct Hy as [Hy Hnull].
      pose proof (target_col_in _ _ _ _ Hgs Hgs_ok Ht) as Hin.
      destruct (in_strs_true _ _ Hin) as (c & -> & _).
      repeat split; try assumption.
      + intros val. rewrite dict_get_set_same. intros E. now inversion E.
      + now rewrite getitem_set_other by discriminate.
      + intros key Hkey. apply no_null_literal_set; [assumption |].
        apply fold_null_key_cleans. simpl in *. intuition. }
  destruct Hy' as (y' & Hget & Hhash & Hnot & Hclean_y & Htype' & Hclean).
  assert (Hnorm : normalize_nulls v' = v').
  { apply fold_null_key_fixed. intros key Hkey. simpl in Hkey.
    destruct Hkey as [<- | [<- | Hkey]];
      [apply Hclean; simpl; auto | assumption | apply Hclean; simpl; tauto]. }
  (* the second run *)
  set (d1 := dict_set d "metrics" (JList metrics')).
  set (d2 := dict_set d1 "visualization" (JDict v')).
  assert (Hm2 : dict_get d2 "metrics" = Some (JList metrics')).
  { unfold d2, d1. rewrite dict_get_set_other by discriminate.
    apply dict_get_set_same. }
  assert (Hv2 : dict_get d2 "visualization" = Some (JDict v')).
  { unfold d2. apply dict_get_set_same. }
  unfold validate_plan.
  unfold d2 at 1. rewrite check_request_set;
    [| unfold d1; rewrite dict_has_set by (eapply getitem_has; eassumption);
       eapply getitem_has; eassumption
     | discriminate ..].
  unfold d1 at 1. rewrite check_request_set;
    [| eapply getitem_has; eassumption | discriminate ..].
  rewrite (chk_request _ _ _ _ _ Hchk). cbn [bind].
  unfold getitem at 1. rewrite Hm2. cbn [bind iter ret].
  rewrite (clean_metrics_kept _ _ [] Hkept). cbn [bind app]. cbv zeta.
  rewrite (dict_set_same _ _ _ Hm2), Hconflict. cbn [bind].
  rewrite Hfree. cbn [raise_if bind ret].
  unfold getitem at 1. rewrite Hv2. cbn [bind ret].
  assert (Htruthy : truthy (JDict v') = true).
  { apply getitem_get in Htype'. destruct v'; [discriminate | reflexivity]. }
  rewrite Htruthy. cbn [negb]. rewrite Hnorm, Htype'. cbn [bind].
  rewrite Hknown. cbn [bind negb raise_if ret].
  unfold d2 at 1, d1 at 1. rewrite !getitem_set_other by discriminate.
  rewrite (chk_group_by _ _ _ _ _ Hchk). cbn [bind].
  unfold auto_fix. rewrite Hget. cbn [bind]. unfold in_str_set at 1.
  rewrite Hhash, Hnot. cbn [bind ret].
  rewrite Hcheck. cbn [bind ret].
  now rewrite (dict_set_same _ _ _ Hm2), (dict_set_same _ _ _ Hv2).
Qed.

(** C2 (the code at the failing input).  A distribution analysis whose
    chart has the metric name [mean] as y axis is accepted, and the plan
    it is normalized to holds a metric: the auto-fix appends it after the
    check that distribution and correlation carry no metrics. *)
Theorem distribution_plan_gets_metric :
  validate_plan distribution_plan ["age"]
  = inr (JDict [("analysis_type", JStr "distribution"); ("filters", JList []);
                ("group_by", JList []);
                ("metrics",
                 JList [JDict [("operation", JStr "mean");
                               ("column", JStr "age")]]);
                ("sort", JNull);
                ("visualization",
                 JDict [("type", JStr "bar"); ("x", JStr "age");
                        ("y", JStr "age")])]).
Proof. reflexivity. Qed.

(** C1 (counterexample).  Scenario E is accepted, and the normalized plan
    has a metric on its group-by column [region]. *)
Lemma scenario_E_aggregates_key :
  exists plan',
    validate_plan scenario_E ["region"; "sales"] = inr plan'
    /\ aggregates_key plan' = true.
Proof. eexists. split; reflexivity. Qed.

(** C3 (counterexample).  Over a table whose first column is named
    [count], the auto-fix rewrites the y axis to [count]; validating the
    normalized plan again does not give the same plan back. *)
Lemma revalidation_changes_plan :
  exists plan',
    validate_plan count_column_plan ["count"; "region"] = inr plan'
    /\ validate_plan plan' ["count"; "region"] <> inr plan'.
Proof. eexists. split; [reflexivity | discriminate]. Qed.

(** C3 (amended).  When [validate_plan] accepts a plan and the normalized
    plan is settled (its y axis is neither a metric name nor a null
    literal, and it carries no metric under a distribution or correlation
    analysis), validating the normalized plan against the same columns
    succeeds and returns it unchanged. *)
Theorem validate_plan_idempotent_on_settled (plan plan' : json)
  (cols : list string) :
  validate_plan plan cols = inr plan' ->
  settled plan' = true ->
  validate_plan plan' cols = inr plan'.
Proof.
  intros H Hsettled. pose proof (validate_plan_inv _ _ _ H) as Hacc.
  pose proof (accepted_metrics_kept _ _ _ Hacc) as Hkept.
  destruct Hacc as [d analysis_type group_by cleaned viz Hchk Hviz Htruthy
                   | d analysis_type group_by cleaned v type metrics' v'
                       Hchk Hviz Htruthy Htype Hknown Hfix Hcheck].
  - eapply revalidate_no_chart; eassumption.
  - rewrite metrics_of_set_viz, metrics_of_set in Hkept.
    eapply revalidate_chart; eassumption.
Qed.

(** Scenario E is normalized to a settled plan, which validates to
    itself. *)
Lemma validate_plan_idempotent_on_settled_witness :
  exists plan',
    validate_plan scenario_E ["region"; "sales"] = inr plan'
    /\ settled plan' = true
    /\ validate_plan plan' ["region"; "sales"] = inr plan'.
Proof.
  eexists. split; [reflexivity |]. split; [reflexivity |].
  apply (validate_plan_idempotent_on_settled scenario_E _ ["region"; "sales"]);
    reflexivity.
Defined.

End ValidatorFacts.

(** ** The execution engine *)

Module ExecutorFacts.
Import Validator ValidatorFacts Executor.

(** *** The aggregation map *)

Lemma agg_set_keys (agg_map : list (json * json)) (col op c o : json) :
  In (c, o) (agg_set agg_map col op) ->
  c = col \/ exists o', In (c, o') agg_map.
Proof.
  induction agg_map as [| [c0 o0] rest IH]; simpl.
  - intros [E | []]. inversion E. now left.
  - destruct (py_eq c0 col); simpl.
    + intros [E | H].
      * inversion E. subst. right. exists o0. now left.
      * right. exists o. now right.
    + intros [E | H].
      * inversion E. subst. right. exists o. now left.
      * destruct (IH H) as [-> | (o' & Ho')]; [now left |].
        right. exists o'. now right.
Qed.

(** No key of the aggregation map is a group-by column. *)
Lemma build_agg_map_keys (group_by : json) (ms : list json)
  (agg_map out : list (json * json)) :
  build_agg_map group_by agg_map ms = inr out ->
  (forall c o, In (c, o) agg_map -> contains group_by c = inr false) ->
  forall c o, In (c, o) out -> contains group_by c = inr false.
Proof.
  revert agg_map. induction ms as [| m ms IH]; simpl; intros agg_map H Hacc.
  - inversion H. subst out. exact Hacc.
  - inv_bind H as col Hcol. inv_bind H as op Hop. inv_bind H as skip Hskip.
    destruct skip; [now apply (IH agg_map) |].
    destruct (hashable col); [| discriminate].
    apply (IH _ H). intros c o Hin.
    destruct (agg_set_keys _ _ _ _ _ Hin) as [-> | (o' & Ho')];
      [assumption | eauto].
Qed.

Lemma contains_str_total (group_by : json) (gs : list json) (c : string) :
  iter group_by = inr gs -> exists b, contains group_by (JStr c) = inr b.
Proof.
  destruct group_by; simpl; try discriminate; eauto.
Qed.

(** On the metrics of a normalized plan the loop does not raise. *)
Lemma build_agg_map_total (cols : list string) (group_by : json)
  (gs ms : list json) (agg_map : list (json * json)) :
  iter group_by = inr gs -> Forall (kept cols) ms ->
  exists out, build_agg_map group_by agg_map ms = inr out.
Proof.
  intros Hgs Hkept. revert agg_map.
  induction Hkept as [| m ms Hm _ IH]; intros agg_map; simpl; [eauto |].
  apply kept_inv in Hm.
  destruct Hm as (op & column & Hop & Hallowed & Hcolumn & Hcols).
  destruct (in_strs_true _ _ Hcols) as (c & -> & _).
  destruct (in_strs_true _ _ Hallowed) as (o & -> & _).
  rewrite Hcolumn. cbn [bind].
  assert (Hop' : getitem m "operation" = inr (JStr o)).
  { unfold get, get_default in Hop. destruct m; try discriminate.
    unfold getitem. destruct (dict_get d "operation"); [assumption | discriminate]. }
  rewrite Hop'. cbn [bind].
  destruct (contains_str_total _ _ c Hgs) as (b & ->). cbn [bind hashable].
  destruct b; apply IH.
Qed.

Lemma group_by_of_set (d : list (string * json)) (k : string) (v : json) :
  k <> "group_by" ->
  group_by_of (JDict (dict_set d k v)) = group_by_of (JDict d).
Proof. intros H. unfold group_by_of. now rewrite getitem_set_other. Qed.

(** The group-by of a normalized plan is the one that was checked. *)
Lemma accepted_group_by (cols : list string) (plan plan' : json) :
  accepted cols plan plan' ->
  exists gs, iter (group_by_of plan') = inr gs.
Proof.
  intros [d analysis_type group_by cleaned viz Hchk Hviz Htruthy
         | d analysis_type group_by cleaned v type metrics' v'
             Hchk Hviz Htruthy Htype Hknown Hfix Hcheck];
    rewrite !group_by_of_set by discriminate;
    unfold group_by_of; rewrite (chk_group_by _ _ _ _ _ Hchk);
    destruct (chk_group_cols _ _ _ _ _ Hchk) as (gs & Hgs & _); eauto.
Qed.

(** C1 (amended).  For every plan that [validate_plan] accepts, the
    aggregation map that [execute_plan] builds from the normalized
    plan's metrics is built without an error and none of its columns is
    a group-by column; in grouped mode this map, or the distinct
    group-by combinations when it is empty, is all that is aggregated. *)
Theorem aggregation_map_skips_group_by (plan plan' : json)
  (cols : list string) :
  validate_plan plan cols = inr plan' ->
  exists agg_map,
    build_agg_map (group_by_of plan') [] (metrics_of plan') = inr agg_map
    /\ (forall col op, In (col, op) agg_map ->
                       contains (group_by_of plan') col = inr false)
    /\ (truthy (group_by_of plan') = true ->
        forall (lib : Library) (working_df : DataFrame),
          aggregate lib working_df (JList (metrics_of plan'))
                    (group_by_of plan')
          = match agg_map with
            | _ :: _ => groupby_agg lib working_df (group_by_of plan') agg_map
            | [] => select_distinct lib working_df (group_by_of plan')
            end).
Proof.
  intros H. apply validate_plan_inv in H.
  destruct (accepted_group_by _ _ _ H) as (gs & Hgs).
  pose proof (accepted_metrics_kept _ _ _ H) as Hkept.
  destruct (build_agg_map_total _ _ _ _ [] Hgs Hkept) as (agg_map & Hmap).
  exists agg_map. split; [assumption |]. split.
  - intros col op. eapply build_agg_map_keys; [eassumption |].
    intros c o [].
  - intros Htruthy lib working_df. unfold aggregate, count_only.
    rewrite Htruthy. cbn [negb bind ret iter]. now rewrite Hmap.
Qed.

(** Scenario E: the metric on [region] that the auto-fix appends stays
    out of the aggregation map. *)
Lemma aggregation_map_skips_group_by_witness :
  exists plan' agg_map,
    validate_plan scenario_E ["region"; "sales"] = inr plan'
    /\ build_agg_map (group_by_of plan') [] (metrics_of plan') = inr agg_map
    /\ forall col op, In (col, op) agg_map ->
                      contains (group_by_of plan') col = inr false.
Proof.
  destruct (aggregation_map_skips_group_by scenario_E _ ["region"; "sales"]
              eq_refl) as (agg_map & Hmap & Hkeys & _).
  eexists. exists agg_map. split; [reflexivity |]. split; assumption.
Defined.

(** *** Counting distinct texts *)

Lemma existsb_eqb_In (t : string) (l : list string) :
  existsb (String.eqb t) l = true <-> In t l.
Proof.
  rewrite existsb_exists. split.
  - intros (x & Hin & E). apply String.eqb_eq in E. now subst.
  - intros H. exists t. split; [assumption | apply String.eqb_refl].
Qed.

Lemma firsts_In (ts seen : list string) (x : string) :
  In x (firsts seen ts) <-> In x ts /\ ~ In x seen.
Proof.
  revert seen. induction ts as [| t ts IH]; intros seen; simpl; [tauto |].
  destruct (existsb (String.eqb t) seen) eqn:E.
  - apply existsb_eqb_In in E. rewrite IH. split.
    + tauto.
    + intros [[-> | H] Hn]; [contradiction | tauto].
  - assert (Hn : ~ In t seen).
    { intros H. apply existsb_eqb_In in H. congruence. }
    simpl. rewrite IH. simpl. split.
    + intros [<- | [H1 H2]]; [tauto |]. split; [tauto |]. tauto.
    + intros [[<- | H] Hx]; [tauto |].
      destruct (string_dec t x) as [-> | Hne]; [tauto |]. right.
      split; [assumption |]. intros [E' | E']; [contradiction | contradiction].
Qed.

Lemma firsts_NoDup (ts seen : list string) : NoDup (firsts seen ts).
Proof.
  revert seen. induction ts as [| t ts IH]; intros seen; simpl; [constructor |].
  destruct (existsb (String.eqb t) seen); [apply IH |].
  constructor; [| apply IH].
  rewrite firsts_In. simpl. tauto.
Qed.

Lemma firsts_length (ts : list string) :
  List.length (firsts [] ts) = List.length (nodup string_dec ts).
Proof.
  apply Nat.le_antisymm; apply NoDup_incl_length.
  - apply firsts_NoDup.
  - intros x H. apply nodup_In. now apply firsts_In in H.
  - apply NoDup_nodup.
  - intros x H. apply nodup_In in H. apply firsts_In. simpl. tauto.
Qed.

Lemma distinct_texts (seen ts : list string) :
  distinct (map CStr seen) (map CStr ts) = map CStr (firsts seen ts).
Proof.
  revert seen. induction ts as [| t ts IH]; intros seen; [reflexivity |].
  cbn [map distinct firsts].
  assert (E : existsb (cell_eqb (CStr t)) (map CStr seen)
              = existsb (String.eqb t) seen).
  { clear. induction seen as [| x seen IH]; [reflexivity |].
    cbn [map existsb]. now rewrite IH. }
  rewrite E. destruct (existsb (String.eqb t) seen).
  - apply IH.
  - cbn [map]. f_equal. apply (IH (t :: seen)).
Qed.

Lemma text_column_present (cs : list cell) :
  Forall (fun c => is_nan c = true \/ exists t, c = CStr t) cs ->
  filter (fun c => negb (is_nan c)) cs = map CStr (texts cs).
Proof.
  induction 1 as [| c cs Hc _ IH]; [reflexivity |].
  destruct Hc as [Hnan | (t & ->)].
  - cbn [filter]. rewrite Hnan. cbn [negb].
    destruct c as [| f | |]; try discriminate.
    destruct f; try discriminate. exact IH.
  - cbn [filter is_nan negb texts map]. now rewrite IH.
Qed.

(** On a column of texts, [nunique] counts the distinct texts. *)
Lemma nunique_distinct_count (s : Series) :
  text_column s -> nunique s = distinct_count s.
Proof.
  intros H. unfold nunique, distinct_count.
  rewrite (text_column_present _ H).
  change (@nil cell) with (map CStr []).
  now rewrite distinct_texts, length_map, firsts_length.
Qed.

Section WithLibrary.

Variable lib : Library.

(** C8 (amended).  With an empty group-by and exactly one metric, of
    operation [count], the result is the one-row, one-column table named
    [count].  What it holds is decided by the dtype of the counted
    column, not by its values: the number of distinct values when the
    dtype is [object] (on a column of texts: the number of distinct
    texts), and the number of rows of the filtered table for any other
    dtype. *)
Theorem scalar_count_result (working_df : DataFrame)
  (group_by m op count_col : json) (s : Series) :
  truthy group_by = false ->
  getitem m "operation" = inr op ->
  py_eq op (JStr "count") = true ->
  getitem m "column" = inr count_col ->
  df_get working_df count_col = inr s ->
  let n := if dtype_eqb (dtype_of s) Dobject then nunique s
           else nrows working_df in
  aggregate lib working_df (JList [m]) group_by
  = inr [("count", {| dtype_of := Dint64; cells := [CInt (Z.of_nat n)] |})]
  /\ (dtype_of s = Dobject -> text_column s -> n = distinct_count s)
  /\ (dtype_of s <> Dobject -> n = nrows working_df).
Proof.
  intros Hgroup Hop Hcount Hcol Hs n. split; [| split].
  - unfold aggregate, count_only. rewrite Hgroup.
    cbn [negb py_len List.length bind ret Nat.eqb first_item].
    rewrite Hop. cbn [bind ret]. rewrite Hcount, Hcol. cbn [bind].
    rewrite Hs. cbn [bind]. subst n.
    now destruct (dtype_eqb (dtype_of s) Dobject).
  - intros Hd Htext. subst n. rewrite Hd. cbn [dtype_eqb].
    now apply nunique_distinct_count.
  - intros Hd. subst n. destruct (dtype_of s); try reflexivity.
    now contradiction Hd.
Qed.

End WithLibrary.

(** C8 (counterexample).  A column that holds texts without being an
    [object] column, as a categorical column or a column of the string
    dtype is, gets the number of rows, 3, and not the number of distinct
    texts, 2. *)
Lemma text_column_gets_row_count :
  let held := [CStr "FR"; CStr "IN"; CStr "FR"] in
  let df := [("country", {| dtype_of := Dcategory; cells := held |});
             ("code", {| dtype_of := Dstring; cells := held |})] in
  text_column {| dtype_of := Dcategory; cells := held |}
  /\ distinct_count {| dtype_of := Dcategory; cells := held |} = 2%nat
  /\ aggregate bare_library df (JList [metric "country" "count"]) (JList [])
     = inr [("count", {| dtype_of := Dint64; cells := [CInt 3] |})]
  /\ aggregate bare_library df (JList [metric "code" "count"]) (JList [])
     = inr [("count", {| dtype_of := Dint64; cells := [CInt 3] |})].
Proof.
  cbv zeta. split; [| split; [| split]]; try reflexivity.
  unfold text_column. cbn [cells].
  repeat (apply Forall_cons; [right; eexists; reflexivity |]).
  apply Forall_nil.
Qed.

(** The count of an [object] column of texts and of a numeric column of
    [countries]. *)
Lemma scalar_count_result_witness :
  aggregate bare_library countries (JList [metric "country" "count"]) (JList [])
  = inr [("count", {| dtype_of := Dint64; cells := [CInt 2] |})]
  /\ aggregate bare_library countries (JList [metric "population" "count"])
               (JList [])
     = inr [("count", {| dtype_of := Dint64; cells := [CInt 3] |})].
Proof.
  split.
  - apply (scalar_count_result bare_library countries (JList [])
             (metric "country" "count") (JStr "count") (JStr "country")
             {| dtype_of := Dobject; cells := [CStr "FR"; CStr "IN"; CStr "FR"] |});
      reflexivity.
  - apply (scalar_count_result bare_library countries (JList [])
             (metric "population" "count") (JStr "count") (JStr "population")
             {| dtype_of := Dint64; cells := [CInt 68; CInt 1400; CInt 68] |});
      reflexivity.
Defined.

(** *** Top-N *)

Section TopN.

Variable lib : Library.

(** C7.  With [visualization.top_n] a positive integer [n], the top-N
    step returns the first [n] rows of the sorted result when
    [user_intent.focus] is not ["both"], and the sorted result untouched
    when it is; this is the table [execute_plan] returns. *)
Theorem top_n_skipped_exactly_for_both (df sorted filtered : DataFrame)
  (d v ui : list (string * json)) (n : Z) :
  dict_get d "visualization" = Some (JDict v) ->
  dict_get v "top_n" = Some (JInt n) ->
  0 < n ->
  get_default (JDict d) "user_intent" (JDict []) = inr (JDict ui) ->
  run_to_sort lib df (JDict d) = inr (sorted, filtered) ->
  let focus := match dict_get ui "focus" with Some f => f | None => JNull end in
  let first_n :=
    map (fun c => (fst c, {| dtype_of := dtype_of (snd c);
                             cells := firstn (Z.to_nat n) (cells (snd c)) |}))
        sorted in
  let expected := if py_eq focus (JStr "both") then sorted else first_n in
  top_n_stage sorted (JDict v) (JDict ui) = inr expected
  /\ forall result_df fig original_filtered_df,
      execute_plan lib df (JDict d) = inr (result_df, fig, original_filtered_df) ->
      result_df = expected.
Proof.
  intros Hviz Htop Hn Hui Hrun focus first_n expected.
  assert (Hstage : top_n_stage sorted (JDict v) (JDict ui) = inr expected).
  { assert (Htruthy : truthy (JInt n) = true).
    { cbn [truthy]. destruct (Z.eqb_spec n 0); [lia | reflexivity]. }
    assert (Hfocus : get (JDict ui) "focus" = inr focus).
    { unfold get, get_default. subst focus.
      now destruct (dict_get ui "focus"). }
    unfold top_n_stage. rewrite Hfocus. unfold get, get_default.
    rewrite Htop. cbn [bind ret]. rewrite Htruthy, andb_true_r.
    subst expected.
    destruct (py_eq focus (JStr "both")); cbn [negb]; [reflexivity |].
    cbn [py_int bind ret]. unfold head.
    destruct (Z.leb_spec 0 n); [reflexivity | lia]. }
  split; [assumption |].
  intros result_df fig original_filtered_df H. unfold execute_plan in H.
  rewrite Hrun in H. cbn [bind] in H.
  inv_bind H as metrics Hmetrics. inv_bind H as viz Hviz'.
  unfold get_default in Hviz'. rewrite Hviz in Hviz'. inversion Hviz'. subst viz.
  rewrite Hui in H. cbn [bind] in H. rewrite Hstage in H. cbn [bind] in H.
  inv_bind H as fig' Hfig. now inversion H.
Qed.

End TopN.

(** The first two of three rows are kept for the focus [highest], all
    three for the focus [both]. *)
Lemma top_n_skipped_exactly_for_both_witness :
  execute_plan bare_library countries (top_plan 2 "highest")
  = inr ([("country", {| dtype_of := Dobject; cells := [CStr "FR"; CStr "IN"] |});
          ("population", {| dtype_of := Dint64; cells := [CInt 68; CInt 1400] |})],
         Some {| fig_kind := "bar"; fig_x := JStr "country";
                 fig_y := Some (JStr "population"); fig_color := JNull |},
         countries)
  /\ top_n_stage countries
       (JDict [("type", JStr "bar"); ("x", JStr "country");
               ("y", JStr "population"); ("top_n", JInt 2)])
       (JDict [("focus", JStr "both")])
     = inr countries.
Proof.
  split; [reflexivity |].
  apply (top_n_skipped_exactly_for_both bare_library countries countries countries
           [("analysis_type", JStr "comparison"); ("filters", JList []);
            ("group_by", JList []); ("metrics", JList []); ("sort", JNull);
            ("visualization",
             JDict [("type", JStr "bar"); ("x", JStr "country");
                    ("y", JStr "population"); ("top_n", JInt 2)]);
            ("user_intent", JDict [("focus", JStr "both")])]
           _ [("focus", JStr "both")] 2); reflexivity.
Defined.

(** *** The chart request *)

Lemma column_of_getitem (m c : json) :
  getitem m "column" = inr c -> column_of m = c.
Proof.
  intros H. unfold column_of. now rewrite (get_of_getitem _ _ _ H).
Qed.

(** The loop over the metrics finds the first column that the result
    table has. *)
Lemma first_metric_column_spec (result_df : DataFrame) (ms : list json) :
  Forall (fun m => exists c, getitem m "column" = inr (JStr c)) ms ->
  first_metric_column result_df ms = inr (first_present_column result_df ms).
Proof.
  unfold first_present_column.
  induction 1 as [| m ms (c & Hc) _ IH]; [reflexivity |].
  cbn [first_metric_column find]. rewrite Hc. cbn [bind].
  pose proof (column_of_getitem _ _ Hc) as E. rewrite E.
  unfold in_columns, in_str_set. cbn [hashable bind ret].
  destruct (in_strs (JStr c) (columns result_df));
    [now rewrite E | exact IH].
Qed.

Lemma first_present_column_cases (result_df : DataFrame) (ms : list json) :
  first_present_column result_df ms = JNull
  \/ in_strs (first_present_column result_df ms) (columns result_df) = true.
Proof.
  unfold first_present_column.
  destruct (find _ ms) as [m |] eqn:E; [| now left].
  right. now apply find_some in E.
Qed.

(** A y axis that is set and is no column of the result table makes the
    chart step raise. *)
Lemma viz_stage_raises (result_df : DataFrame) (v : list (string * json))
  (metrics type y : json) :
  dict_get v "type" = Some type -> truthy type = true ->
  dict_get v "y" = Some y -> truthy y = true -> hashable y = true ->
  in_strs y (columns result_df) = false ->
  viz_stage result_df (JDict v) metrics
  = inl (ValueError (InvalidResultYAxis y (columns result_df))).
Proof.
  intros Htype Htruthy Hy Hty Hhash Hin.
  assert (Hviz : truthy (JDict v) = true).
  { destruct v; [discriminate | reflexivity]. }
  unfold viz_stage, resolve_y, get, get_default.
  rewrite Hviz, Htype, Hy. cbn [bind ret]. rewrite Htruthy. cbn [andb].
  assert (Hnone : is_none y = false) by (destruct y; try reflexivity; discriminate).
  rewrite Hnone. cbn [andb bind ret]. rewrite Hty.
  unfold in_columns, in_str_set. rewrite Hhash. cbn [bind ret].
  rewrite Hin. now destruct (dict_get v "x").
Qed.

(** C4 (counterexample).  A bar chart that names no y axis, over a
    count: the only metric column, [population], is no column of the
    result table, the y axis stays unset, and [execute_plan] returns the
    count without a chart and without an error. *)
Lemma unresolved_y_is_no_error :
  validate_plan count_no_y_plan ["country"; "population"] = inr count_no_y_plan
  /\ execute_plan bare_library countries count_no_y_plan
     = inr ([("count", {| dtype_of := Dint64; cells := [CInt 3] |})],
            None, countries).
Proof. split; reflexivity. Qed.

(** C4 (amended).  When [visualization.y] is unset it is resolved to the
    first metric column that the result table has; when no metric column
    is present it stays unset, the chart step raises nothing and yields
    no chart (a histogram apart, which needs no y axis and is requested
    from plotly).  The
    configuration error that names the y axis and the columns of the
    result table is raised when the y axis is set and is not among those
    columns. *)
Theorem unset_y_resolves_or_stays_unset (result_df : DataFrame)
  (v : list (string * json)) (ms : list json) (type : json) :
  dict_get v "type" = Some type ->
  truthy type = true ->
  Forall (fun m => exists c, getitem m "column" = inr (JStr c)) ms ->
  (get (JDict v) "y" = inr JNull ->
   resolve_y result_df (JDict v) (JList ms)
   = inr (first_present_column result_df ms)
   /\ exists fig,
       viz_stage result_df (JDict v) (JList ms) = inr fig
       /\ (first_present_column result_df ms = JNull ->
           fig = None
           \/ exists f, fig = Some f /\ fig_kind f = "histogram"
                        /\ fig_y f = None))
  /\ (forall y,
         dict_get v "y" = Some y -> truthy y = true -> hashable y = true ->
         in_strs y (columns result_df) = false ->
         viz_stage result_df (JDict v) (JList ms)
         = inl (ValueError (InvalidResultYAxis y (columns result_df)))).
Proof.
  intros Htype Htruthy Hms. split.
  - intros Hy.
    assert (Hres : resolve_y result_df (JDict v) (JList ms)
                   = inr (first_present_column result_df ms)).
    { unfold resolve_y. rewrite Hy. cbn [bind is_none andb].
      destruct ms as [| m ms']; [reflexivity |].
      cbn [truthy iter bind ret]. now apply first_metric_column_spec. }
    split; [assumption |].
    assert (Hviz : truthy (JDict v) = true).
    { destruct v; [discriminate | reflexivity]. }
    unfold viz_stage. rewrite Hres, Hviz.
    unfold get at 1 2 3, get_default. rewrite Htype. cbn [bind ret].
    rewrite Htruthy. cbn [andb].
    set (x := match dict_get v "x" with Some x => ret x | None => ret JNull end).
    assert (Hx : exists x', x = inr x') by (subst x; destruct (dict_get v "x"); eauto).
    destruct Hx as (x' & ->). cbn [bind].
    set (y := first_present_column result_df ms).
    assert (Hbad : (if truthy y
                    then present <- in_columns y result_df ;; ret (negb present)
                    else ret false) = inr false).
    { destruct (first_present_column_cases result_df ms) as [E | E]; fold y in E.
      - now rewrite E.
      - destruct (truthy y); [| reflexivity].
        destruct (in_strs_true _ _ E) as (c & Hc & _).
        unfold in_columns, in_str_set. rewrite Hc in *. cbn [hashable bind ret].
        now rewrite E. }
    rewrite Hbad. cbn [bind raise_if ret].
    unfold get, get_default.
    set (color := match dict_get v "color" with
                  | Some c => ret c | None => ret JNull end).
    assert (Hc : exists c', color = inr c')
      by (subst color; destruct (dict_get v "color"); eauto).
    destruct Hc as (c' & ->). cbn [bind].
    destruct (py_eq type (JStr "bar") && truthy x' && truthy y) eqn:E1.
    { eexists. split; [reflexivity |]. intros E. rewrite E in E1.
      cbn [truthy] in E1. now rewrite andb_false_r in E1. }
    destruct (py_eq type (JStr "line") && truthy x' && truthy y) eqn:E2.
    { eexists. split; [reflexivity |]. intros E. rewrite E in E2.
      cbn [truthy] in E2. now rewrite andb_false_r in E2. }
    destruct (py_eq type (JStr "scatter") && truthy x' && truthy y) eqn:E3.
    { eexists. split; [reflexivity |]. intros E. rewrite E in E3.
      cbn [truthy] in E3. now rewrite andb_false_r in E3. }
    destruct (py_eq type (JStr "histogram") && truthy x').
    + eexists. split; [reflexivity |]. intros _. right.
      eexists. split; [reflexivity |]. split; reflexivity.
    + eexists. split; [reflexivity |]. intros _. now left.
  - intros y Hy Hty Hhash Hin. eapply viz_stage_raises; eassumption.
Qed.

(** A count plan without chart axis: the y axis resolves to nothing,
    since the result table has the single column [count]. *)
Lemma unset_y_resolves_or_stays_unset_witness :
  resolve_y [("count", {| dtype_of := Dint64; cells := [CInt 3] |})]
            (JDict [("type", JStr "bar"); ("x", JStr "country")])
            (JList [metric "population" "count"])
  = inr JNull.
Proof.
  apply (unset_y_resolves_or_stays_unset
           [("count", {| dtype_of := Dint64; cells := [CInt 3] |})]
           [("type", JStr "bar"); ("x", JStr "country")]
           [metric "population" "count"] (JStr "bar")).
  - reflexivity.
  - reflexivity.
  - constructor; [| constructor]. exists "population". reflexivity.
  - reflexivity.
Defined.

(** C5 (counterexample).  A validated plan that counts the rows of
    [population] and charts that column: the count is computed, the
    chart step raises the configuration error, and the error is all that
    [execute_plan] hands to its caller. *)
Lemma chart_error_loses_result :
  validate_plan count_chart_plan ["country"; "population"] = inr count_chart_plan
  /\ run_to_sort bare_library countries count_chart_plan
     = inr ([("count", {| dtype_of := Dint64; cells := [CInt 3] |})], countries)
  /\ execute_plan bare_library countries count_chart_plan
     = inl (ValueError (InvalidResultYAxis (JStr "population") ["count"])).
Proof. repeat split; reflexivity. Qed.

Section ChartError.

Variable lib : Library.

(** C5 (amended).  When the chart step raises the configuration error
    (the y axis is set and is not a column of the result table), that
    error is the outcome of [execute_plan]: the call returns no result
    table, no chart and no filtered table, although filtering,
    aggregation, sorting and truncation had succeeded. *)
Theorem chart_error_is_the_outcome (df sorted filtered result_df : DataFrame)
  (d v : list (string * json)) (user_intent type y : json) :
  run_to_sort lib df (JDict d) = inr (sorted, filtered) ->
  dict_get d "visualization" = Some (JDict v) ->
  get_default (JDict d) "user_intent" (JDict []) = inr user_intent ->
  top_n_stage sorted (JDict v) user_intent = inr result_df ->
  dict_get v "type" = Some type -> truthy type = true ->
  dict_get v "y" = Some y -> truthy y = true -> hashable y = true ->
  in_strs y (columns result_df) = false ->
  execute_plan lib df (JDict d)
  = inl (ValueError (InvalidResultYAxis y (columns result_df)))
  /\ forall out, execute_plan lib df (JDict d) <> inr out.
Proof.
  intros Hrun Hviz Hui Htop Htype Htruthy Hy Hty Hhash Hin.
  assert (H : execute_plan lib df (JDict d)
              = inl (ValueError (InvalidResultYAxis y (columns result_df)))).
  { unfold execute_plan. rewrite Hrun. cbn [bind].
    unfold get_default at 1 2. rewrite Hviz.
    destruct (dict_get d "metrics") as [metrics |]; cbn [bind ret];
      rewrite Hui; cbn [bind]; rewrite Htop; cbn [bind];
      now rewrite (viz_stage_raises _ _ _ _ _ Htype Htruthy Hy Hty Hhash Hin). }
  split; [assumption |]. intros out. rewrite H. discriminate.
Qed.

End ChartError.

(** The count plan with a chart of [population]. *)
Lemma chart_error_is_the_outcome_witness :
  execute_plan bare_library countries count_chart_plan
  = inl (ValueError (InvalidResultYAxis (JStr "population") ["count"])).
Proof.
  apply (chart_error_is_the_outcome bare_library countries
           [("count", {| dtype_of := Dint64; cells := [CInt 3] |})] countries
           [("count", {| dtype_of := Dint64; cells := [CInt 3] |})]
           [("analysis_type", JStr "aggregation"); ("filters", JList []);
            ("group_by", JList []);
            ("metrics", JList [JDict [("column", JStr "population");
                                      ("operation", JStr "count")]]);
            ("sort", JNull);
            ("visualization",
             JDict [("type", JStr "bar"); ("x", JStr "country");
                    ("y", JStr "population")])]
           [("type", JStr "bar"); ("x", JStr "country"); ("y", JStr "population")]
           (JDict []) (JStr "bar") (JStr "population")); reflexivity.
Defined.

(** *** Relational filters *)

Lemma compare_nan (op : string) (x : spec_float) :
  compare_float op S754_nan x = false.
Proof.
  unfold compare_float.
  destruct (String.eqb op ">"); [now destruct x |].
  destruct (String.eqb op "<"); [now destruct x |].
  destruct (String.eqb op ">="); now destruct x.
Qed.

(** Comparing a column of numbers with a float never raises. *)
Lemma series_compare_numbers (op : string) (d : dtype) (ns : list number)
  (x : spec_float) :
  series_compare op {| dtype_of := d; cells := map number_cell ns |} x
  = inr (map (satisfies op x) (map number_cell ns)).
Proof.
  unfold series_compare. cbn [cells].
  induction ns as [| n ns IH]; [reflexivity |].
  cbn [map map_result]. rewrite IH. unfold satisfies.
  now destruct n.
Qed.

(** Comparing a coerced column never raises. *)
Lemma series_compare_coerced (lib : Library) (op : string) (s : Series)
  (x : spec_float) :
  series_compare op (_coerce_numeric lib s) x
  = inr (map (satisfies op x) (cells (_coerce_numeric lib s))).
Proof. apply series_compare_numbers. Qed.

(** A missing value satisfies no comparison. *)
Lemma missing_satisfies_nothing (op : string) (x : spec_float) (c : cell) :
  is_nan c = true -> satisfies op x c = false.
Proof.
  destruct c as [| f | |]; try discriminate.
  destruct f; try discriminate. intros _. apply compare_nan.
Qed.

(** The coerced column has one number for each cell: the one read in the
    text of the cell. *)
Lemma coerced_cells (lib : Library) (s : Series) :
  cells (_coerce_numeric lib s)
  = map (fun c => number_cell
                    (numeric_value lib (map (read_text lib) (cells s))
                                   (read_text lib c)))
        (cells s).
Proof.
  unfold _coerce_numeric, to_numeric. cbn [cells].
  rewrite !map_map. reflexivity.
Qed.

(** A mask computed from the cells keeps the cells that pass the test. *)
Lemma mask_cells_filter {A} (p : A -> bool) (xs : list A) :
  mask_cells (map p xs) xs = filter p xs.
Proof.
  induction xs as [| x xs IH]; [reflexivity |].
  cbn [map mask_cells filter]. destruct (p x); now rewrite IH.
Qed.

Lemma dict_get_filter_rows (mask : list bool) (df : DataFrame) (c : string) :
  dict_get (filter_rows mask df) c
  = option_map (fun s => {| dtype_of := dtype_of s;
                            cells := mask_cells mask (cells s) |})
               (dict_get df c).
Proof.
  unfold filter_rows. induction df as [| [k s] df IH]; [reflexivity |].
  cbn [map dict_get fst snd]. destruct (String.eqb k c); [reflexivity | exact IH].
Qed.

Lemma relational_is_string (op : json) :
  in_strs op relational_operators = true ->
  exists o, op = JStr o /\ In o relational_operators.
Proof. apply in_strs_true. Qed.

Section Filters.

Variable lib : Library.

(** A value that [float] rejects is rejected after the list-literal
    decoding as well. *)
Lemma decode_keeps_failure (val : json) (e0 : exn) :
  py_float val = inl e0 ->
  exists e, py_float (decode_list_literal lib val) = inl e.
Proof.
  intros H. unfold decode_list_literal.
  destruct val as [| | | | s | |]; eauto.
  destruct (startswith "[" s && endswith "]" s); [| eauto].
  destruct (json_loads lib _); [| eauto].
  exists TypeError. reflexivity.
Qed.

(** The relational filter step, for a column that exists and a value
    that converts. *)
Lemma apply_relational_filter (working_df : DataFrame) (f val : json)
  (col op : string) (s : Series) (x : spec_float) :
  get f "column" = inr (JStr col) ->
  get f "operator" = inr (JStr op) ->
  In op relational_operators ->
  get f "value" = inr val ->
  dict_get working_df col = Some s ->
  py_float (decode_list_literal lib val) = inr x ->
  apply_filter lib working_df f
  = inr (filter_rows
           (map (satisfies op x) (cells (_coerce_numeric lib s)))
           (dict_set working_df col (_coerce_numeric lib s))).
Proof.
  intros Hcol Hop Hin Hval Hs Hx. unfold apply_filter.
  rewrite Hcol, Hop, Hval. cbn [bind].
  unfold in_str_set. cbn [hashable]. rewrite (in_strs_str _ _ Hin).
  cbn [bind ret df_get]. rewrite Hs. cbn [bind ret df_set]. rewrite Hx.
  cbn [bind ret].
  assert (Hcmp : compare_column op
                   (dict_set working_df col (_coerce_numeric lib s))
                   (JStr col) (JFloat x)
                 = inr (map (satisfies op x) (cells (_coerce_numeric lib s)))).
  { unfold compare_column. cbn [df_get]. rewrite dict_get_set_same.
    cbn [bind]. apply series_compare_coerced. }
  simpl in Hin.
  destruct Hin as [<- | [<- | [<- | [<- | []]]]]; cbn [py_eq String.eqb Ascii.eqb Bool.eqb];
    rewrite Hcmp; reflexivity.
Qed.

(** The filtered column after a relational filter. *)
Lemma relational_filter_column (working_df : DataFrame)
  (f val : json) (col op : string) (s : Series) (x : spec_float) :
  get f "column" = inr (JStr col) ->
  get f "operator" = inr (JStr op) ->
  In op relational_operators ->
  get f "value" = inr val ->
  dict_get working_df col = Some s ->
  py_float (decode_list_literal lib val) = inr x ->
  exists df',
    apply_filter lib working_df f = inr df'
    /\ dict_get df' col
       = Some {| dtype_of := dtype_of (_coerce_numeric lib s);
                 cells := filter (satisfies op x)
                                 (cells (_coerce_numeric lib s)) |}.
Proof.
  intros Hcol Hop Hin Hval Hs Hx. eexists. split.
  - apply (apply_relational_filter working_df f val); eassumption.
  - rewrite dict_get_filter_rows, dict_get_set_same. cbn [option_map].
    now rewrite mask_cells_filter.
Qed.


(** C10.  A relational filter whose value [float] rejects makes
    [execute_plan] raise: the filter step ends with the exception of the
    conversion once the column has been read, and nothing in
    [execute_plan] catches it. *)
Theorem relational_value_must_convert (df : DataFrame)
  (d : list (string * json)) (fs : list json) (f op val : json) (e0 : exn) :
  dict_get d "filters" = Some (JList fs) ->
  In f fs ->
  get f "operator" = inr op ->
  in_strs op relational_operators = true ->
  get f "value" = inr val ->
  py_float val = inl e0 ->
  (exists e, execute_plan lib df (JDict d) = inl e)
  /\ (forall (working_df : DataFrame) (col : string) (s : Series),
         get f "column" = inr (JStr col) ->
         dict_get working_df col = Some s ->
         exists e, py_float (decode_list_literal lib val) = inl e
                   /\ apply_filter lib working_df f = inl e).
Proof.
  intros Hfs Hin Hop Hrel Hval Hfloat.
  destruct (decode_keeps_failure _ _ Hfloat) as (e & He).
  destruct (relational_is_string _ Hrel) as (o & -> & Ho).
  assert (Hstep : forall working_df, exists e', apply_filter lib working_df f = inl e').
  { intros working_df. unfold apply_filter.
    destruct (get f "column") as [e' | col]; [now eexists |]. cbn [bind].
    rewrite Hop, Hval. cbn [bind]. unfold in_str_set. cbn [hashable].
    rewrite Hrel. cbn [bind ret].
    destruct (df_get working_df col) as [e' | s] eqn:Hs; [now eexists |].
    cbn [bind]. destruct (df_set working_df col (_coerce_numeric lib s)); [now eexists |].
    cbn [bind]. rewrite He. now eexists. }
  split.
  - unfold execute_plan, run_to_sort, get_default. rewrite Hfs.
    cbn [bind ret iter].
    assert (Hall : forall working_df,
               exists e', apply_filters lib working_df fs = inl e').
    { clear Hfs. induction fs as [| f' fs' IH]; [contradiction |].
      intros working_df. cbn [apply_filters].
      destruct Hin as [-> | Hin].
      - destruct (Hstep working_df) as (e' & ->). now eexists.
      - destruct (apply_filter lib working_df f') as [e' | working_df'];
          [now eexists |]. cbn [bind]. now apply IH. }
    destruct (Hall df) as (e' & ->). now eexists.
  - intros working_df col s Hcol Hs. exists e. split; [assumption |].
    unfold apply_filter. rewrite Hcol, Hop, Hval. cbn [bind].
    unfold in_str_set. cbn [hashable]. rewrite Hrel.
    cbn [bind ret df_get]. rewrite Hs. cbn [bind ret df_set]. now rewrite He.
Qed.

End Filters.



(** The value ["abc"] of a [>] filter stops [execute_plan]. *)
Lemma relational_value_must_convert_witness :
  exists e,
    execute_plan bare_library discounts (relational_plan (JStr "abc")) = inl e.
Proof.
  apply (relational_value_must_convert bare_library discounts
           [("analysis_type", JStr "comparison");
            ("filters",
             JList [JDict [("column", JStr "discount"); ("operator", JStr ">");
                           ("value", JStr "abc")]]);
            ("group_by", JList []); ("metrics", JList []); ("sort", JNull);
            ("visualization", JDict [])]
           [JDict [("column", JStr "discount"); ("operator", JStr ">");
                   ("value", JStr "abc")]]
           (JDict [("column", JStr "discount"); ("operator", JStr ">");
                   ("value", JStr "abc")])
           (JStr ">") (JStr "abc") (ValueError (FloatOfString "abc")));
    try reflexivity.
  simpl. auto.
Defined.

End ExecutorFacts.

(** ** More on the validator *)

Module ValidatorMore.
Import Validator ValidatorFacts.

(** A loop of guards stops at the first element that fails its guard. *)
Lemma for_each_raise_find {A} (p : A -> bool) (E : A -> exn) (ks : list A) :
  for_each (fun k => raise_if (p k) (E k)) ks
  = match find p ks with
    | Some k => inl (E k)
    | None => inr tt
    end.
Proof.
  induction ks as [| k ks IH]; [reflexivity |].
  cbn [for_each find]. destruct (p k); [reflexivity |].
  cbn [raise_if bind ret]. exact IH.
Qed.

(** X1.  A plan that lacks a required key is rejected with the
    missing-key error of the first required key it lacks, whatever else
    the plan holds. *)
Theorem missing_key_reported_first (d : list (string * json))
  (cols : list string) (k0 : string) :
  In k0 required_keys ->
  dict_has d k0 = false ->
  exists k,
    find (fun key => negb (dict_has d key)) required_keys = Some k
    /\ validate_plan (JDict d) cols = inl (ValueError (MissingKey k)).
Proof.
  intros Hin Hmiss.
  destruct (find (fun key => negb (dict_has d key)) required_keys) as [k |] eqn:E.
  - exists k. split; [reflexivity |].
    unfold validate_plan, check_request.
    rewrite (for_each_raise_find (fun key => negb (dict_has d key))
               (fun key => ValueError (MissingKey key))), E.
    reflexivity.
  - pose proof (find_none _ _ E _ Hin) as H. cbn beta in H.
    rewrite Hmiss in H. discriminate.
Qed.

Lemma missing_key_reported_first_witness :
  exists k,
    find (fun key => negb (dict_has [("analysis_type", JStr "trend");
                                     ("metrics", JList [])] key))
         required_keys = Some k
    /\ validate_plan (JDict [("analysis_type", JStr "trend");
                             ("metrics", JList [])]) ["a"]
       = inl (ValueError (MissingKey k)).
Proof.
  apply (missing_key_reported_first _ ["a"] "sort"); [simpl; tauto | reflexivity].
Defined.

(** *** What an accepted plan holds *)

Lemma check_filter_inv (cols : list string) (f : json) :
  check_filter cols f = inr tt ->
  exists column operator,
    getitem f "column" = inr (JStr column) /\ In column cols
    /\ getitem f "operator" = inr (JStr operator)
    /\ In operator ALLOWED_OPERATORS
    /\ (operator = "in" -> exists l, getitem f "value" = inr (JList l)).
Proof.
  unfold check_filter. intros H.
  inv_bind H as column Hcolumn. inv_bind H as u Hu.
  apply raise_if_inr, negb_false_true in Hu. clear u.
  inv_bind H as operator Hoperator. inv_bind H as allowed Hallowed.
  inv_bind H as u Hu'. apply raise_if_inr, negb_false_true in Hu'. subst allowed.
  clear u. apply in_str_set_inr in Hallowed. destruct Hallowed as [_ Hallowed].
  destruct (in_strs_true _ _ Hu) as (c & -> & Hc).
  destruct (in_strs_true _ _ Hallowed) as (o & -> & Ho).
  exists c, o. repeat split; try assumption.
  intros ->. cbn [py_eq] in H. rewrite String.eqb_refl in H.
  inv_bind H as value Hvalue. apply raise_if_inr, negb_false_true in H.
  destruct value; try discriminate. eauto.
Qed.

Lemma check_request_filters (d : list (string * json)) (cols : list string)
  (analysis_type : json) :
  check_request d cols = inr analysis_type ->
  exists filters fs,
    getitem (JDict d) "filters" = inr filters /\ iter filters = inr fs
    /\ for_each (check_filter cols) fs = inr tt.
Proof.
  unfold check_request. intros H.
  inv_bind H as u Hkeys. destruct u.
  inv_bind H as analysis_type' Htype.
  inv_bind H as allowed Hallowed.
  inv_bind H as u Hu. clear u Hu.
  inv_bind H as filters Hfilters.
  inv_bind H as fs Hfs. inv_bind H as u Hfs_ok. destruct u.
  eauto.
Qed.

Lemma dict_set_keys {A} (d : list (string * A)) (k : string) (v : A) :
  dict_has d k = true -> map fst (dict_set d k v) = map fst d.
Proof.
  unfold dict_has. induction d as [| [k0 v0] d IH]; simpl; [discriminate |].
  destruct (String.eqb k0 k); simpl; [reflexivity |].
  intros H. now rewrite IH.
Qed.

(** Normalization rewrites the values under [metrics] and
    [visualization] and nothing else. *)
Lemma accepted_other_keys (cols : list string) (plan plan' : json) :
  accepted cols plan plan' ->
  exists d d',
    plan = JDict d /\ plan' = JDict d'
    /\ map fst d' = map fst d
    /\ forall k, k <> "metrics" -> k <> "visualization" ->
                  dict_get d' k = dict_get d k.
Proof.
  intros [d analysis_type group_by cleaned viz Hchk Hviz Htruthy
         | d analysis_type group_by cleaned v type metrics' v'
             Hchk Hviz Htruthy Htype Hknown Hfix Hcheck];
    destruct (chk_metrics _ _ _ _ _ Hchk) as (metrics & ms & Hmetrics & _ & _);
    apply getitem_has in Hmetrics; apply getitem_has in Hviz.
  - exists d, (dict_set d "metrics" (JList cleaned)).
    repeat split; [now apply dict_set_keys |].
    intros k Hm _. now apply dict_get_set_other.
  - exists d, (dict_set (dict_set d "metrics" (JList metrics'))
                       "visualization" (JDict v')).
    repeat split.
    + rewrite dict_set_keys; [now apply dict_set_keys |].
      now rewrite dict_has_set.
    + intros k Hm Hv. now rewrite !dict_get_set_other.
Qed.

(** X2.  The filters of an accepted plan are left as they were given,
    and each of them names a column of the table and an operator of the
    closed set, with a list as value when the operator is [in]. *)
Theorem accepted_filters_are_valid (plan plan' : json) (cols : list string) :
  validate_plan plan cols = inr plan' ->
  exists filters fs,
    getitem plan "filters" = inr filters
    /\ getitem plan' "filters" = inr filters
    /\ iter filters = inr fs
    /\ Forall (fun f =>
                 exists column operator,
                   getitem f "column" = inr (JStr column) /\ In column cols
                   /\ getitem f "operator" = inr (JStr operator)
                   /\ In operator ALLOWED_OPERATORS
                   /\ (operator = "in" ->
                       exists l, getitem f "value" = inr (JList l))) fs.
Proof.
  intros H. apply validate_plan_inv in H.
  destruct (accepted_other_keys _ _ _ H) as (d & d' & -> & -> & _ & Hsame).
  assert (Hreq : exists analysis_type, check_request d cols = inr analysis_type).
  { inversion H as [? ? ? ? ? Hchk | ? ? ? ? ? ? ? ? Hchk]; subst;
      exists analysis_type; apply (chk_request _ _ _ _ _ Hchk). }
  destruct Hreq as (analysis_type & Hreq).
  destruct (check_request_filters _ _ _ Hreq) as (filters & fs & Hf & Hfs & Hok).
  exists filters, fs. split; [assumption |]. split.
  - unfold getitem in *. now rewrite Hsame by discriminate.
  - split; [assumption |]. apply for_each_inr in Hok.
    eapply Forall_impl; [| exact Hok]. intros f. apply check_filter_inv.
Qed.

Lemma accepted_filters_are_valid_witness :
  exists filters fs,
    getitem (relational_plan (JStr "10")) "filters" = inr filters
    /\ getitem (relational_plan (JStr "10")) "filters" = inr filters
    /\ iter filters = inr fs
    /\ Forall (fun f =>
                 exists column operator,
                   getitem f "column" = inr (JStr column)
                   /\ In column ["item"; "discount"]
                   /\ getitem f "operator" = inr (JStr operator)
                   /\ In operator ALLOWED_OPERATORS
                   /\ (operator = "in" ->
                       exists l, getitem f "value" = inr (JList l))) fs.
Proof.
  apply (accepted_filters_are_valid (relational_plan (JStr "10")) _
           ["item"; "discount"]).
  reflexivity.
Defined.

(** X3.  The group-by of an accepted plan is left as it was given and
    lists column names of the table only. *)
Theorem accepted_group_by_are_columns (plan plan' : json) (cols : list string) :
  validate_plan plan cols = inr plan' ->
  exists group_by gs,
    getitem plan "group_by" = inr group_by
    /\ getitem plan' "group_by" = inr group_by
    /\ iter group_by = inr gs
    /\ Forall (fun g => exists c, g = JStr c /\ In c cols) gs.
Proof.
  intros H. apply validate_plan_inv in H.
  destruct (accepted_other_keys _ _ _ H) as (d & d' & -> & -> & _ & Hsame).
  assert (Hchk : exists analysis_type group_by cleaned,
             checked cols d analysis_type group_by cleaned).
  { inversion H; subst; eauto. }
  destruct Hchk as (analysis_type & group_by & cleaned & Hchk).
  destruct (chk_group_cols _ _ _ _ _ Hchk) as (gs & Hgs & Hok).
  exists group_by, gs. split; [apply (chk_group_by _ _ _ _ _ Hchk) |]. split.
  - pose proof (chk_group_by _ _ _ _ _ Hchk) as Hg.
    unfold getitem in *. now rewrite Hsame by discriminate.
  - split; [assumption |]. apply for_each_inr in Hok.
    eapply Forall_impl; [| exact Hok]. intros g Hg. unfold check_group_by in Hg.
    apply raise_if_inr, negb_false_true in Hg.
    destruct (in_strs_true _ _ Hg) as (c & -> & Hc). eauto.
Qed.

Lemma accepted_group_by_are_columns_witness :
  exists group_by gs,
    getitem (JDict (metrics_plan [metric "sales" "sum"])) "group_by"
    = inr group_by
    /\ getitem (JDict (metrics_plan [metric "sales" "sum"])) "group_by"
       = inr group_by
    /\ iter group_by = inr gs
    /\ Forall (fun g => exists c, g = JStr c /\ In c ["region"; "sales"]) gs.
Proof.
  apply (accepted_group_by_are_columns
           (JDict (metrics_plan [metric "sales" "sum"])) _ ["region"; "sales"]).
  reflexivity.
Defined.

(** X4.  Validation rewrites the values under [metrics] and
    [visualization] only: the normalized plan has the keys of the plan
    in the same order, and every other key, [user_intent] among them,
    keeps its value. *)
Theorem validation_touches_metrics_and_chart_only (plan plan' : json)
  (cols : list string) :
  validate_plan plan cols = inr plan' ->
  exists d d',
    plan = JDict d /\ plan' = JDict d'
    /\ map fst d' = map fst d
    /\ forall k, k <> "metrics" -> k <> "visualization" ->
                  dict_get d' k = dict_get d k.
Proof.
  intros H. apply validate_plan_inv in H. now apply accepted_other_keys in H.
Qed.

Lemma validation_touches_metrics_and_chart_only_witness :
  exists d d',
    top_plan 2 "both" = JDict d /\ top_plan 2 "both" = JDict d'
    /\ map fst d' = map fst d
    /\ forall k, k <> "metrics" -> k <> "visualization" ->
                  dict_get d' k = dict_get d k.
Proof.
  apply (validation_touches_metrics_and_chart_only (top_plan 2 "both") _
           ["country"; "population"]).
  reflexivity.
Defined.

(** *** The metrics of an accepted plan *)

Lemma clean_metric_result (cols : list string) (m : json) (r : option json) :
  clean_metric cols m = inr r ->
  chart_metric m = match r with None => true | Some _ => false end.
Proof.
  unfold clean_metric, chart_metric, operation_of. intros H.
  inv_bind H as op Hop. rewrite Hop. inv_bind H as dropped Hdropped.
  apply in_str_set_inr in Hdropped. destruct Hdropped as [_ <-].
  destruct (in_strs op INVALID_METRIC_OPERATIONS).
  - now inversion H.
  - inv_bind H as allowed Hallowed. inv_bind H as u Hu.
    inv_bind H as column Hcolumn. inv_bind H as u' Hu'. now inversion H.
Qed.

(** The cleaning loop keeps, in their order, the metrics that carry no
    chart keyword. *)
Lemma clean_metrics_filter (cols : list string) (ms acc out : list json) :
  clean_metrics cols acc ms = inr out ->
  out = acc ++ filter (fun m => negb (chart_metric m)) ms.
Proof.
  revert acc. induction ms as [| m ms IH]; simpl; intros acc H.
  - inversion H. now rewrite app_nil_r.
  - inv_bind H as r Hr. pose proof (clean_metric_result _ _ _ Hr) as Hc.
    destruct r as [m' |]; rewrite Hc; cbn [negb].
    + pose proof (clean_metric_some _ _ _ Hr) as ->.
      apply IH in H. rewrite H, <- app_assoc. reflexivity.
    + now apply IH.
Qed.

Lemma dict_get_null_key (v : list (string * json)) (key k : string) :
  dict_get (null_key v key) k
  = if String.eqb key k
    then option_map (fun x => if in_strs x ["null"; "NULL"] then JNull else x)
                    (dict_get v k)
    else dict_get v k.
Proof.
  unfold null_key. destruct (String.eqb_spec key k) as [-> | Hne].
  - destruct (dict_get v k) as [x |] eqn:E; cbn [option_map]; [| now rewrite E].
    destruct (in_strs x ["null"; "NULL"]); [apply dict_get_set_same | exact E].
  - destruct (dict_get v key) as [x |]; [| reflexivity].
    destruct (in_strs x ["null"; "NULL"]); [| reflexivity].
    now apply dict_get_set_other.
Qed.

Lemma normalized_y (v : list (string * json)) :
  dict_get (normalize_nulls v) "y"
  = option_map (fun x => if in_strs x ["null"; "NULL"] then JNull else x)
               (dict_get v "y").
Proof.
  unfold normalize_nulls. cbn [fold_left].
  rewrite !dict_get_null_key. reflexivity.
Qed.

(** A metric name is no null literal, so the y axis names a metric after
    the null literals are cleared exactly when it did before. *)
Lemma normalized_y_metric (v : list (string * json)) (y : json) :
  get (JDict (normalize_nulls v)) "y" = inr y ->
  in_strs y ALLOWED_METRICS = true ->
  get (JDict v) "y" = inr y.
Proof.
  unfold get, get_default. rewrite normalized_y.
  destruct (dict_get v "y") as [x |]; cbn [option_map]; [| auto].
  destruct (in_strs x ["null"; "NULL"]); [| auto].
  intros H. inversion H. subst y. discriminate.
Qed.

Lemma raw_y_metric (v : list (string * json)) (y : json) :
  get (JDict v) "y" = inr y ->
  in_strs y ALLOWED_METRICS = true ->
  get (JDict (normalize_nulls v)) "y" = inr y.
Proof.
  unfold get, get_default. rewrite normalized_y.
  destruct (dict_get v "y") as [x |]; cbn [option_map].
  - intros H Hy. inversion H. subst x.
    destruct (in_strs_true _ _ Hy) as (s & -> & Hin).
    simpl in Hin. repeat (destruct Hin as [<- | Hin]; [reflexivity |]).
    contradiction.
  - auto.
Qed.

(** X5.  When the y axis of the chart is no metric name, the metrics of
    the normalized plan are the metrics of the plan without the entries
    that carry a chart keyword, in their order. *)
Theorem cleaned_metrics_are_the_given_ones (d : list (string * json))
  (ms : list json) (plan' : json) (cols : list string) :
  validate_plan (JDict d) cols = inr plan' ->
  dict_get d "metrics" = Some (JList ms) ->
  y_axis_in (JDict d) ALLOWED_METRICS = false ->
  metrics_of plan' = filter (fun m => negb (chart_metric m)) ms.
Proof.
  intros H Hms Hy. apply validate_plan_inv in H.
  inversion H as [d0 analysis_type group_by cleaned viz Hchk Hviz Htruthy
                 | d0 analysis_type group_by cleaned v type metrics' v'
                     Hchk Hviz Htruthy Htype Hknown Hfix Hcheck]; subst;
    destruct (chk_metrics _ _ _ _ _ Hchk) as (metrics & ms' & Hget & Hiter & Hclean);
    apply getitem_get in Hget; rewrite Hms in Hget; inversion Hget; subst metrics;
    inversion Hiter; subst ms'; apply clean_metrics_filter in Hclean;
    cbn [app] in Hclean; subst cleaned.
  - apply metrics_of_set.
  - rewrite metrics_of_set_viz, metrics_of_set.
    apply auto_fix_inv in Hfix.
    destruct Hfix as (y & (Hy0 & _) & [(_ & -> & _) | (Hyes & _)]);
      [reflexivity |].
    unfold y_axis_in, visualization_of in Hy. rewrite Hviz in Hy.
    rewrite (normalized_y_metric _ _ Hy0 Hyes) in Hy. congruence.
Qed.

Lemma cleaned_metrics_are_the_given_ones_witness :
  metrics_of (JDict (metrics_plan [metric "sales" "sum"]))
  = filter (fun m => negb (chart_metric m))
           [metric "nowhere" "bar"; metric "sales" "sum"].
Proof.
  apply (cleaned_metrics_are_the_given_ones
           (metrics_plan [metric "nowhere" "bar"; metric "sales" "sum"])
           _ _ ["region"; "sales"]); reflexivity.
Defined.

(** X6.  When the y axis of the chart is a metric name, an accepted plan
    gets one more metric after the cleaned ones: that operation on the
    first group-by column, or on the first column of the table when there
    is no group-by; the y axis becomes that column, which is a column of
    the table. *)
Theorem auto_fix_moves_metric_out_of_y (d : list (string * json))
  (ms : list json) (plan' : json) (cols : list string) :
  validate_plan (JDict d) cols = inr plan' ->
  dict_get d "metrics" = Some (JList ms) ->
  y_axis_in (JDict d) ALLOWED_METRICS = true ->
  exists y target,
    get (visualization_of (JDict d)) "y" = inr y
    /\ (if truthy (group_by_of (JDict d)) then first_item (group_by_of (JDict d))
        else first_column cols) = inr target
    /\ in_strs target cols = true
    /\ metrics_of plan'
       = filter (fun m => negb (chart_metric m)) ms
         ++ [JDict [("operation", y); ("column", target)]]
    /\ get (visualization_of plan') "y" = inr target.
Proof.
  intros H Hms Hy. apply validate_plan_inv in H.
  inversion H as [d0 analysis_type group_by cleaned viz Hchk Hviz Htruthy
                 | d0 analysis_type group_by cleaned v type metrics' v'
                     Hchk Hviz Htruthy Htype Hknown Hfix Hcheck]; subst;
    destruct (chk_metrics _ _ _ _ _ Hchk) as (metrics & ms' & Hget & Hiter & Hclean);
    apply getitem_get in Hget; rewrite Hms in Hget; inversion Hget; subst metrics;
    inversion Hiter; subst ms'; apply clean_metrics_filter in Hclean;
    cbn [app] in Hclean; subst cleaned;
    unfold y_axis_in, visualization_of in Hy; rewrite Hviz in Hy.
  - destruct viz as [| | | | | | v]; try discriminate.
    destruct v; [discriminate | discriminate].
  - destruct (chk_group_cols _ _ _ _ _ Hchk) as (gs & Hgs & Hgs_ok).
    destruct (get (JDict v) "y") as [e | y] eqn:Hraw; [discriminate |].
    pose proof (raw_y_metric _ _ Hraw Hy) as Hnorm.
    apply auto_fix_inv in Hfix.
    destruct Hfix as (y' & (Hy0 & _) & [(Hno & _) | (_ & target & Ht & -> & ->)]);
      rewrite Hnorm in Hy0; inversion Hy0; subst y'; [congruence |].
    exists y, target. unfold visualization_of, group_by_of.
    rewrite Hviz, (chk_group_by _ _ _ _ _ Hchk), getitem_set_same.
    split; [assumption |]. split; [assumption |].
    split; [eapply target_col_in; eassumption |].
    split; [now rewrite metrics_of_set_viz, metrics_of_set |].
    unfold get, get_default. now rewrite dict_get_set_same.
Qed.

Lemma auto_fix_moves_metric_out_of_y_witness :
  exists plan' y target,
    validate_plan scenario_E ["region"; "sales"] = inr plan'
    /\ get (visualization_of scenario_E) "y" = inr y
    /\ in_strs target ["region"; "sales"] = true
    /\ metrics_of plan' = [JDict [("operation", y); ("column", target)]]
    /\ get (visualization_of plan') "y" = inr target.
Proof.
  destruct (auto_fix_moves_metric_out_of_y
              [("analysis_type", JStr "aggregation"); ("filters", JList []);
               ("group_by", JList [JStr "region"]); ("metrics", JList []);
               ("sort", JNull);
               ("visualization",
                JDict [("type", JStr "bar"); ("x", JStr "region");
                       ("y", JStr "mean")])]
              [] _ ["region"; "sales"] eq_refl eq_refl eq_refl)
    as (y & target & Hy & _ & Hin & Hms & Hy').
  eexists. exists y, target. split; [reflexivity |]. repeat split; assumption.
Defined.

(** *** The chart of an accepted plan *)

Lemma get_axis (v : list (string * json)) (k : string) :
  get (JDict v) k = inr (axis (JDict v) k).
Proof. unfold axis, get, get_default. now destruct (dict_get v k). Qed.

Lemma getitem_axis (v : list (string * json)) (k : string) (x : json) :
  getitem (JDict v) k = inr x -> axis (JDict v) k = x.
Proof. intros H. unfold axis. now rewrite (get_of_getitem _ _ _ H). Qed.

Lemma getitem_of_axis (v : list (string * json)) (k : string) :
  is_none (axis (JDict v) k) = false ->
  getitem (JDict v) k = inr (axis (JDict v) k).
Proof.
  unfold axis, get, get_default, getitem.
  destruct (dict_get v k); [reflexivity | discriminate].
Qed.

Lemma check_viz_inv (cols : list string) (analysis_type : json)
  (v : list (string * json)) :
  check_viz cols analysis_type (JDict v) = inr tt ->
  chart_ok cols analysis_type v.
Proof.
  unfold check_viz. intros H.
  inv_bind H as type Htype. rewrite !get_axis in H.
  pose proof (getitem_axis _ _ _ Htype) as Etype.
  inv_bind H as u1 Hhist. inv_bind H as u2 Hcorr. cbn [bind] in H.
  inv_bind H as u3 Hx. inv_bind H as u4 Hy.
  constructor.
  - rewrite Etype. intros E. rewrite E in Hhist. cbn [bind] in Hhist.
    inv_bind Hhist as u5 Hy'. apply raise_if_inr, negb_false_true in Hy'.
    apply raise_if_inr in Hhist. auto.
  - rewrite Etype. intros E. rewrite E in Hcorr. rewrite Htype in Hcorr.
    cbn [bind] in Hcorr. inv_bind Hcorr as u5 Hs.
    apply raise_if_inr, negb_false_true in Hs.
    destruct (is_none (axis (JDict v) "x")); [discriminate |].
    apply raise_if_inr in Hcorr. auto.
  - intros E. rewrite E in Hx. cbn [negb] in Hx.
    rewrite (getitem_of_axis _ _ E) in Hx. cbn [bind] in Hx.
    now apply raise_if_inr, negb_false_true in Hx.
  - intros E. rewrite E in Hy. cbn [negb] in Hy.
    rewrite (getitem_of_axis _ _ E) in Hy. cbn [bind] in Hy.
    now apply raise_if_inr, negb_false_true in Hy.
  - destruct (is_none (axis (JDict v) "top_n")) eqn:E.
    + left. destruct (axis (JDict v) "top_n"); try discriminate. reflexivity.
    + cbn [negb] in H. rewrite (getitem_of_axis _ _ E) in H. cbn [bind] in H.
      destruct (axis (JDict v) "top_n") as [| b | n | | | |]; try discriminate.
      * right. right. apply raise_if_inr in H. destruct b; [reflexivity |].
        discriminate.
      * right. left. exists n. split; [reflexivity |].
        apply raise_if_inr in H. now apply Z.leb_gt in H.
Qed.

(** The chart of a plan accepted with a chart. *)
Lemma accepted_chart_inv (cols : list string) (plan plan' : json) :
  accepted cols plan plan' ->
  truthy (visualization_of plan') = true ->
  exists v' analysis_type,
    visualization_of plan' = JDict v'
    /\ analysis_type_of plan' = analysis_type
    /\ in_strs (axis (JDict v') "type") ALLOWED_VIZ_TYPES = true
    /\ chart_ok cols analysis_type v'
    /\ (forall key, In key ["x"; "color"; "top_n"] -> no_null_literal v' key).
Proof.
  intros [d analysis_type group_by cleaned viz Hchk Hviz Htruthy
         | d analysis_type group_by cleaned v type metrics' v'
             Hchk Hviz Htruthy Htype Hknown Hfix Hcheck] Ht.
  - unfold visualization_of in Ht.
    rewrite getitem_set_other, Hviz in Ht by discriminate. congruence.
  - exists v', analysis_type. unfold visualization_of, analysis_type_of.
    rewrite getitem_set_same, !getitem_set_other by discriminate.
    rewrite (chk_type _ _ _ _ _ Hchk).
    split; [reflexivity |]. split; [reflexivity |].
    apply in_str_set_inr in Hknown. destruct Hknown as [_ Hknown].
    apply auto_fix_inv in Hfix.
    destruct Hfix as (y & _ & [(_ & _ & ->) | (_ & target & _ & _ & ->)]).
    + split; [now rewrite (getitem_axis _ _ _ Htype) |].
      split; [now apply check_viz_inv |].
      intros key Hkey. apply fold_null_key_cleans. simpl in *. tauto.
    + split.
      { rewrite <- (getitem_set_other _ "y" "type" target) in Htype
          by discriminate.
        now rewrite (getitem_axis _ _ _ Htype). }
      split; [now apply check_viz_inv |].
      intros key Hkey. unfold no_null_literal. intros val.
      rewrite dict_get_set_other
        by (simpl in Hkey; destruct Hkey as [<- | [<- | [<- | []]]]; discriminate).
      apply fold_null_key_cleans. simpl in *. tauto.
Qed.

(** X7.  The chart of an accepted plan has a type of the closed set; its
    x and y axes, when set, are columns of the table; its top-N, when
    set, is a positive integer (or [True], which Python counts as one). *)
Theorem accepted_chart_is_valid (plan plan' : json) (cols : list string) :
  validate_plan plan cols = inr plan' ->
  truthy (visualization_of plan') = true ->
  let viz := visualization_of plan' in
  in_strs (axis viz "type") ALLOWED_VIZ_TYPES = true
  /\ (axis viz "x" = JNull \/ in_strs (axis viz "x") cols = true)
  /\ (axis viz "y" = JNull \/ in_strs (axis viz "y") cols = true)
  /\ (axis viz "top_n" = JNull
      \/ (exists n, axis viz "top_n" = JInt n /\ 0 < n)
      \/ axis viz "top_n" = JBool true).
Proof.
  intros H Ht viz. apply validate_plan_inv in H.
  destruct (accepted_chart_inv _ _ _ H Ht)
    as (v' & analysis_type & Hv & _ & Htype & Hok & _).
  subst viz. rewrite Hv. split; [assumption |].
  split; [| split; [| apply (ok_top_n _ _ _ Hok)]].
  - destruct (is_none (axis (JDict v') "x")) eqn:E.
    + left. destruct (axis (JDict v') "x"); try discriminate. reflexivity.
    + right. now apply (ok_x _ _ _ Hok).
  - destruct (is_none (axis (JDict v') "y")) eqn:E.
    + left. destruct (axis (JDict v') "y"); try discriminate. reflexivity.
    + right. now apply (ok_y _ _ _ Hok).
Qed.

Lemma accepted_chart_is_valid_witness :
  let viz := visualization_of (top_plan 2 "both") in
  in_strs (axis viz "type") ALLOWED_VIZ_TYPES = true
  /\ (axis viz "x" = JNull
      \/ in_strs (axis viz "x") ["country"; "population"] = true)
  /\ (axis viz "y" = JNull
      \/ in_strs (axis viz "y") ["country"; "population"] = true)
  /\ (axis viz "top_n" = JNull
      \/ (exists n, axis viz "top_n" = JInt n /\ 0 < n)
      \/ axis viz "top_n" = JBool true).
Proof.
  apply (accepted_chart_is_valid (top_plan 2 "both") (top_plan 2 "both")
           ["country"; "population"]); reflexivity.
Defined.

(** X8.  In an accepted plan, a histogram has an x axis and no y axis,
    and a correlation analysis that comes with a chart has a scatter
    chart with both axes.  (A correlation analysis without chart is
    accepted as well.) *)
Theorem accepted_chart_obeys_type_rules (plan plan' : json)
  (cols : list string) :
  validate_plan plan cols = inr plan' ->
  truthy (visualization_of plan') = true ->
  let viz := visualization_of plan' in
  (axis viz "type" = JStr "histogram" ->
   axis viz "y" = JNull /\ axis viz "x" <> JNull)
  /\ (analysis_type_of plan' = JStr "correlation" ->
      axis viz "type" = JStr "scatter"
      /\ axis viz "x" <> JNull /\ axis viz "y" <> JNull).
Proof.
  intros H Ht viz. apply validate_plan_inv in H.
  destruct (accepted_chart_inv _ _ _ H Ht)
    as (v' & analysis_type & Hv & Hat & Htype & Hok & _).
  subst viz. rewrite Hv, Hat. split.
  - intros E. destruct (ok_histogram _ _ _ Hok) as [Hy Hx];
      [now rewrite E |].
    split.
    + destruct (axis (JDict v') "y"); try discriminate. reflexivity.
    + intros E'. rewrite E' in Hx. discriminate.
  - intros E. destruct (ok_correlation _ _ _ Hok) as (Hs & Hx & Hy);
      [now rewrite E |].
    split; [| split].
    + destruct (axis (JDict v') "type"); try discriminate.
      cbn [py_eq] in Hs. apply String.eqb_eq in Hs. now subst.
    + intros E'. rewrite E' in Hx. discriminate.
    + intros E'. rewrite E' in Hy. discriminate.
Qed.

Lemma accepted_chart_obeys_type_rules_witness :
  let viz := JDict [("type", JStr "histogram"); ("x", JStr "population");
                    ("y", JNull)] in
  (axis viz "type" = JStr "histogram" ->
   axis viz "y" = JNull /\ axis viz "x" <> JNull)
  /\ (analysis_type_of
        (plain_plan (JDict [("type", JStr "histogram");
                            ("x", JStr "population"); ("y", JNull)]))
      = JStr "correlation" ->
      axis viz "type" = JStr "scatter"
      /\ axis viz "x" <> JNull /\ axis viz "y" <> JNull).
Proof.
  apply (accepted_chart_obeys_type_rules
           (plain_plan (JDict [("type", JStr "histogram");
                               ("x", JStr "population"); ("y", JStr "null")]))
           (plain_plan (JDict [("type", JStr "histogram");
                               ("x", JStr "population"); ("y", JNull)]))
           ["country"; "population"]); reflexivity.
Defined.

(** X9.  In the chart of an accepted plan the literal strings ["null"]
    and ["NULL"] are gone from [x], [color] and [top_n]; the y axis
    holds one only when the auto-fix put a column of that name there. *)
Theorem accepted_chart_has_no_null_literal (plan plan' : json)
  (cols : list string) :
  validate_plan plan cols = inr plan' ->
  truthy (visualization_of plan') = true ->
  let viz := visualization_of plan' in
  (forall key, In key ["x"; "color"; "top_n"] ->
               in_strs (axis viz key) ["null"; "NULL"] = false)
  /\ (in_strs (axis viz "y") ["null"; "NULL"] = true ->
      y_axis_in plan ALLOWED_METRICS = true).
Proof.
  intros H Ht viz. apply validate_plan_inv in H.
  pose proof (accepted_chart_inv _ _ _ H Ht)
    as (v' & analysis_type & Hv & _ & _ & _ & Hclean).
  split.
  - intros key Hkey. subst viz. rewrite Hv.
    specialize (Hclean key Hkey). unfold no_null_literal in Hclean.
    unfold axis, get, get_default.
    destruct (dict_get v' key) as [x |]; [now apply Hclean | reflexivity].
  - subst viz. clear Hclean.
    destruct H as [d analysis_type' group_by cleaned viz Hchk Hviz Htruthy
                  | d analysis_type' group_by cleaned v type metrics' v''
                      Hchk Hviz Htruthy Htype Hknown Hfix Hcheck].
    + unfold visualization_of in Ht.
      rewrite getitem_set_other, Hviz in Ht by discriminate. congruence.
    + unfold visualization_of at 1. rewrite getitem_set_same.
      unfold y_axis_in, visualization_of. rewrite Hviz.
      apply auto_fix_inv in Hfix.
      destruct Hfix as (y & (Hy0 & _) & [(_ & _ & ->) | (Hyes & _)]).
      * intros Hnull. exfalso.
        assert (Hc : no_null_literal (normalize_nulls v) "y")
          by (apply fold_null_key_cleans; simpl; tauto).
        unfold no_null_literal in Hc. unfold axis, get, get_default in Hnull.
        destruct (dict_get (normalize_nulls v) "y") as [x |] eqn:E;
          unfold ret in Hnull; [rewrite (Hc x eq_refl) in Hnull |];
          discriminate.
      * intros _. now rewrite (normalized_y_metric _ _ Hy0 Hyes).
Qed.

Lemma accepted_chart_has_no_null_literal_witness :
  in_strs (axis (JDict [("type", JStr "histogram"); ("x", JStr "population");
                        ("y", JNull); ("color", JNull)]) "color")
          ["null"; "NULL"] = false.
Proof.
  destruct (accepted_chart_has_no_null_literal
              (plain_plan (JDict [("type", JStr "histogram");
                                  ("x", JStr "population"); ("y", JStr "null");
                                  ("color", JStr "NULL")]))
              (plain_plan (JDict [("type", JStr "histogram");
                                  ("x", JStr "population"); ("y", JNull);
                                  ("color", JNull)]))
              ["country"; "population"] eq_refl eq_refl) as [Hkeys _].
  apply (Hkeys "color"). simpl. tauto.
Defined.

(** *** Keys the validator does not read *)

Lemma dict_set_comm {A} (d : list (string * A)) (k k' : string) (v v' : A) :
  k <> k' -> dict_has d k = true ->
  dict_set (dict_set d k v) k' v' = dict_set (dict_set d k' v') k v.
Proof.
  unfold dict_has. intros Hne. induction d as [| [k0 v0] d IH]; [discriminate |].
  cbn [dict_get dict_set].
  destruct (String.eqb_spec k0 k) as [-> | Hk].
  - intros _. destruct (String.eqb_spec k k') as [E | _]; [contradiction |].
    cbn [dict_set]. rewrite String.eqb_refl.
    destruct (String.eqb_spec k k') as [E | _]; [contradiction | reflexivity].
  - intros H. destruct (String.eqb_spec k0 k') as [-> | Hk'].
    + cbn [dict_set]. rewrite String.eqb_refl.
      destruct (String.eqb_spec k' k) as [E | _]; [congruence | reflexivity].
    + cbn [dict_set].
      destruct (String.eqb_spec k0 k) as [E | _]; [contradiction |].
      destruct (String.eqb_spec k0 k') as [E | _]; [contradiction |].
      now rewrite IH.
Qed.

(** X10.  The validator reads five keys.  Changing the value under any
    other key that the plan has ([sort], [user_intent], ...) changes
    neither the acceptance nor the error, and the normalized plan carries
    the changed value: [sort] is required to be present and is never
    checked. *)
Theorem validation_ignores_other_keys (d : list (string * json)) (k : string)
  (v : json) (cols : list string) :
  dict_has d k = true ->
  ~ In k ["analysis_type"; "filters"; "group_by"; "metrics"; "visualization"] ->
  validate_plan (JDict (dict_set d k v)) cols
  = match validate_plan (JDict d) cols with
    | inr (JDict d') => inr (JDict (dict_set d' k v))
    | other => other
    end.
Proof.
  intros Hk Hnot.
  assert (H1 : k <> "analysis_type") by (intros ->; apply Hnot; simpl; tauto).
  assert (H2 : k <> "filters") by (intros ->; apply Hnot; simpl; tauto).
  assert (H3 : k <> "group_by") by (intros ->; apply Hnot; simpl; tauto).
  assert (H4 : k <> "metrics") by (intros ->; apply Hnot; simpl; tauto).
  assert (H5 : k <> "visualization") by (intros ->; apply Hnot; simpl; tauto).
  unfold validate_plan. rewrite check_request_set by assumption.
  destruct (check_request d cols) as [e | analysis_type]; [reflexivity |].
  cbn [bind]. rewrite getitem_set_other by assumption.
  destruct (getitem (JDict d) "metrics") as [e | metrics] eqn:Hm; [reflexivity |].
  cbn [bind]. destruct (iter metrics) as [e | ms]; [reflexivity |].
  cbn [bind]. destruct (clean_metrics cols [] ms) as [e | cleaned]; [reflexivity |].
  cbn [bind]. cbv zeta.
  destruct (in_str_set analysis_type ["distribution"; "correlation"])
    as [e | conflict]; [reflexivity |].
  cbn [bind].
  destruct (raise_if (conflict && truthy (JList cleaned))
              (ValueError (MetricsNotAllowed analysis_type))) as [e | u];
    [reflexivity |].
  cbn [bind]. apply getitem_has in Hm.
  rewrite (dict_set_comm d k "metrics") by assumption.
  rewrite (getitem_set_other _ k "visualization") by assumption.
  rewrite (getitem_set_other _ k "group_by") by assumption.
  destruct (getitem (JDict (dict_set d "metrics" (JList cleaned))) "visualization")
    as [e | viz]; [reflexivity |].
  cbn [bind]. destruct (negb (truthy viz)); [reflexivity |].
  destruct viz as [| | | | | | vz]; try reflexivity.
  destruct (getitem (JDict (normalize_nulls vz)) "type") as [e | type];
    [reflexivity |].
  cbn [bind].
  destruct (in_str_set type ALLOWED_VIZ_TYPES) as [e | known]; [reflexivity |].
  cbn [bind].
  destruct (raise_if (negb known) (ValueError (InvalidVizType type))) as [e | u'];
    [reflexivity |].
  cbn [bind].
  destruct (getitem (JDict (dict_set d "metrics" (JList cleaned))) "group_by")
    as [e | group_by]; [reflexivity |].
  cbn [bind].
  destruct (auto_fix cols group_by cleaned (normalize_nulls vz))
    as [e | [metrics' v']]; [reflexivity |].
  cbn [bind].
  destruct (check_viz cols analysis_type (JDict v')) as [e | u'']; [reflexivity |].
  cbn [bind ret].
  assert (Hk1 : dict_has (dict_set d "metrics" (JList cleaned)) k = true)
    by now rewrite dict_has_set.
  rewrite (dict_set_comm _ k "metrics") by assumption.
  rewrite (dict_set_comm _ k "visualization");
    [reflexivity | assumption |].
  rewrite dict_has_set; [assumption |].
  rewrite dict_has_set; assumption.
Qed.

Lemma validation_ignores_other_keys_witness :
  validate_plan
    (JDict (dict_set (metrics_plan [metric "sales" "sum"]) "sort"
                     (JStr "by sales, please")))
    ["region"; "sales"]
  = inr (JDict (dict_set (metrics_plan [metric "sales" "sum"]) "sort"
                         (JStr "by sales, please"))).
Proof.
  rewrite (validation_ignores_other_keys (metrics_plan [metric "sales" "sum"])
             "sort" (JStr "by sales, please") ["region"; "sales"]).
  - reflexivity.
  - reflexivity.
  - simpl. intuition discriminate.
Defined.

End ValidatorMore.

(** ** More on the execution engine *)

Module ExecutorMore.
Import Validator ValidatorFacts ValidatorMore Executor ExecutorFacts.

(** *** Plans without a chart *)

(** X11.  A plan that [validate_plan] accepts with a visualization that
    is not an object ([null], as the plan format allows, or any other
    empty value) makes [execute_plan] raise [AttributeError] at the top-N
    step, after filtering, aggregation and sorting have succeeded. *)
Theorem chartless_plan_stops_executor (lib : Library) (df sorted filtered : DataFrame)
  (plan plan' : json) (cols : list string) :
  validate_plan plan cols = inr plan' ->
  (forall v, visualization_of plan' <> JDict v) ->
  run_to_sort lib df plan' = inr (sorted, filtered) ->
  execute_plan lib df plan' = inl AttributeError.
Proof.
  intros H Hviz Hrun. apply validate_plan_inv in H.
  assert (Hd : exists d' viz, plan' = JDict d'
                              /\ dict_get d' "visualization" = Some viz).
  { destruct H as [d analysis_type group_by cleaned viz Hchk Hv Htruthy
                  | d analysis_type group_by cleaned v type metrics' v'
                      Hchk Hv Htruthy Htype Hknown Hfix Hcheck].
    - eexists. exists viz. split; [reflexivity |].
      rewrite dict_get_set_other by discriminate. now apply getitem_get.
    - eexists. exists (JDict v'). split; [reflexivity |].
      apply dict_get_set_same. }
  destruct Hd as (d' & viz & -> & Hget).
  unfold visualization_of, getitem in Hviz. rewrite Hget in Hviz.
  unfold execute_plan. rewrite Hrun. cbn [bind].
  unfold get_default at 1 2. rewrite Hget.
  destruct (dict_get d' "metrics"); cbn [bind ret];
    (destruct (get_default (JDict d') "user_intent" (JDict [])) as [e | ui] eqn:E;
     [unfold get_default in E; destruct (dict_get d' "user_intent"); discriminate |]);
    cbn [bind]; unfold top_n_stage;
    (destruct viz as [| | | | | | v]; try reflexivity);
    now contradiction (Hviz v).
Qed.

Lemma chartless_plan_stops_executor_witness :
  execute_plan bare_library countries (plain_plan JNull) = inl AttributeError.
Proof.
  apply (chartless_plan_stops_executor bare_library countries countries countries
           (plain_plan JNull) (plain_plan JNull) ["country"; "population"]).
  - reflexivity.
  - intros v. discriminate.
  - reflexivity.
Defined.

(** *** The shape of a filtered table *)

Lemma filter_rows_columns (mask : list bool) (df : DataFrame) :
  columns (filter_rows mask df) = columns df.
Proof. unfold columns, filter_rows. rewrite map_map. reflexivity. Qed.

(** How many cells a mask keeps depends on the number of cells only. *)
Lemma mask_cells_length (mask : list bool) (n : nat) :
  exists n', (n' <= n)%nat
             /\ forall (A : Type) (xs : list A),
                 List.length xs = n -> List.length (mask_cells mask xs) = n'.
Proof.
  revert n. induction mask as [| b mask IH]; intros n.
  - exists 0%nat. split; [lia |]. intros A xs _. now destruct xs.
  - destruct n as [| n].
    + exists 0%nat. split; [lia |]. intros A xs H.
      destruct xs; [reflexivity | discriminate].
    + destruct (IH n) as (n' & Hle & Hn'). destruct b.
      * exists (S n'). split; [lia |]. intros A xs H.
        destruct xs as [| x xs]; [discriminate |]. cbn [mask_cells List.length].
        f_equal. apply Hn'. now inversion H.
      * exists n'. split; [lia |]. intros A xs H.
        destruct xs as [| x xs]; [discriminate |]. cbn [mask_cells].
        apply Hn'. now inversion H.
Qed.

Lemma filter_rows_rectangular (mask : list bool) (n : nat) (df : DataFrame) :
  rectangular n df ->
  exists n', (n' <= n)%nat /\ rectangular n' (filter_rows mask df).
Proof.
  intros H. destruct (mask_cells_length mask n) as (n' & Hle & Hn').
  exists n'. split; [assumption |]. unfold rectangular, filter_rows.
  apply Forall_map. eapply Forall_impl; [| exact H].
  intros c Hc. cbn [snd cells]. now apply Hn'.
Qed.

Lemma dict_get_In {A} (d : list (string * A)) (k : string) (v : A) :
  dict_get d k = Some v -> In (k, v) d.
Proof.
  induction d as [| [k0 v0] d IH]; simpl; [discriminate |].
  destruct (String.eqb_spec k0 k) as [-> | Hne].
  - intros H. inversion H. now left.
  - intros H. right. now apply IH.
Qed.

Lemma dict_set_Forall {A} (P : string * A -> Prop) (d : list (string * A))
  (k : string) (v : A) :
  dict_has d k = true -> P (k, v) -> Forall P d -> Forall P (dict_set d k v).
Proof.
  unfold dict_has. intros Hk Hv H.
  induction H as [| [k0 v0] d Hx Hd IH]; [discriminate |].
  cbn [dict_set dict_get] in *. destruct (String.eqb_spec k0 k) as [-> | Hne].
  - now constructor.
  - constructor; [assumption | now apply IH].
Qed.

(** Replacing a column by its coercion changes neither the names nor the
    number of cells of the columns. *)
Lemma coerced_column_shape (lib : Library) (df : DataFrame) (col : string)
  (s : Series) :
  dict_get df col = Some s ->
  columns (dict_set df col (_coerce_numeric lib s)) = columns df
  /\ forall n, rectangular n df ->
                rectangular n (dict_set df col (_coerce_numeric lib s)).
Proof.
  intros Hs.
  assert (Hhas : dict_has df col = true) by (unfold dict_has; now rewrite Hs).
  split; [now apply dict_set_keys |].
  intros n H. unfold rectangular. apply dict_set_Forall; [assumption | | assumption].
  cbn [snd]. rewrite coerced_cells, length_map.
  unfold rectangular in H. rewrite Forall_forall in H.
  apply (H (col, s)). now apply dict_get_In.
Qed.

(** A filter step returns the table it worked on, with the filtered
    column coerced for a relational operator, cut down by a mask. *)
Lemma apply_filter_shape (lib : Library) (working_df df' : DataFrame) (f : json) :
  apply_filter lib working_df f = inr df' ->
  exists df1,
    (df' = df1 \/ exists mask, df' = filter_rows mask df1)
    /\ columns df1 = columns working_df
    /\ forall n, rectangular n working_df -> rectangular n df1.
Proof.
  unfold apply_filter. intros H.
  inv_bind H as col Hcol. inv_bind H as op Hop. inv_bind H as val Hval.
  cbv zeta in H. inv_bind H as relational Hrel. inv_bind H as st Hst.
  destruct st as [df1 val1]. exists df1.
  assert (Hshape : columns df1 = columns working_df
                   /\ forall n, rectangular n working_df -> rectangular n df1).
  { destruct relational.
    - inv_bind Hst as series Hseries. inv_bind Hst as df2 Hset.
      inv_bind Hst as x Hx. inversion Hst. subst df2 val1.
      destruct col; try discriminate. cbn [df_get] in Hseries.
      destruct (dict_get working_df s) as [s0 |] eqn:E; [| discriminate].
      inversion Hseries. subst s0. cbn [df_set] in Hset. inversion Hset.
      now apply coerced_column_shape.
    - inversion Hst. subst. auto. }
  split; [| exact Hshape].
  repeat match type of H with
         | (if ?b then _ else _) = _ => destruct b
         end;
    try (inv_bind H as s Hs); try (inv_bind H as mask Hmask);
    inversion H; eauto.
Qed.

Lemma apply_filters_shape (lib : Library) (fs : list json)
  (df df' : DataFrame) :
  apply_filters lib df fs = inr df' ->
  columns df' = columns df
  /\ forall n, rectangular n df ->
                exists n', (n' <= n)%nat /\ rectangular n' df'.
Proof.
  revert df. induction fs as [| f fs IH]; cbn [apply_filters]; intros df H.
  - inversion H. subst. split; [reflexivity |]. intros n Hn. exists n. auto.
  - inv_bind H as df1 Hstep.
    destruct (apply_filter_shape _ _ _ _ Hstep) as (df0 & Hcase & Hcols & Hrect).
    destruct (IH _ H) as (Hcols' & Hrect').
    assert (Hmid : columns df1 = columns df
                   /\ forall n, rectangular n df ->
                                 exists n', (n' <= n)%nat /\ rectangular n' df1).
    { destruct Hcase as [-> | (mask & ->)].
      - split; [assumption |]. intros n Hn. exists n. auto.
      - rewrite filter_rows_columns. split; [assumption |].
        intros n Hn. now apply filter_rows_rectangular, Hrect. }
    destruct Hmid as (Hc & Hr). split; [congruence |].
    intros n Hn. destruct (Hr n Hn) as (n1 & Hle1 & Hn1).
    destruct (Hrect' n1 Hn1) as (n2 & Hle2 & Hn2).
    exists n2. split; [lia | assumption].
Qed.

(** X12.  Whatever the filters and whatever the library answers, the
    filter stage keeps the column names of the table in their order,
    keeps the columns at one common number of rows, and never adds a
    row. *)
Theorem filters_only_narrow (lib : Library) (fs : list json)
  (df df' : DataFrame) (n : nat) :
  apply_filters lib df fs = inr df' ->
  rectangular n df ->
  columns df' = columns df
  /\ exists n', (n' <= n)%nat /\ rectangular n' df'.
Proof.
  intros H Hn. destruct (apply_filters_shape _ _ _ _ H) as (Hc & Hr). auto.
Qed.

Lemma filters_only_narrow_witness :
  columns [("item", {| dtype_of := Dobject; cells := [CStr "pen"] |});
           ("discount", {| dtype_of := Dint64; cells := [CInt 15] |})]
  = columns discounts
  /\ exists n', (n' <= 2)%nat
                /\ rectangular n'
                     [("item", {| dtype_of := Dobject; cells := [CStr "pen"] |});
                      ("discount",
                       {| dtype_of := Dint64; cells := [CInt 15] |})].
Proof.
  apply (filters_only_narrow bare_library
           [JDict [("column", JStr "discount"); ("operator", JStr ">");
                   ("value", JStr "10")]] discounts).
  - reflexivity.
  - repeat constructor.
Defined.

(** *** Relational filters *)

Lemma satisfies_number (op : string) (x : spec_float) (n : number) :
  satisfies op x (number_cell n) = compare_float op (number_float n) x.
Proof. now destruct n. Qed.

(** X13.  After a relational filter the filtered column is the coerced
    column cut down to the rows that satisfy the comparison.  It keeps
    the kind that the coercion gave the column and holds, in their
    order, the numbers that satisfy the comparison, and only those:
    every cell left is a number, and none is missing. *)
Theorem relational_filter_keeps_matches (lib : Library) (working_df : DataFrame)
  (f val : json) (col op : string) (s : Series) (x : spec_float) :
  get f "column" = inr (JStr col) ->
  get f "operator" = inr (JStr op) ->
  In op relational_operators ->
  get f "value" = inr val ->
  dict_get working_df col = Some s ->
  py_float (decode_list_literal lib val) = inr x ->
  exists df',
    apply_filter lib working_df f = inr df'
    /\ dict_get df' col
       = Some {| dtype_of := dtype_of (_coerce_numeric lib s);
                 cells := filter (satisfies op x)
                                 (cells (_coerce_numeric lib s)) |}
    /\ forall s', dict_get df' col = Some s' ->
                  Forall (fun c => exists n, c = number_cell n
                                             /\ compare_float op (number_float n) x
                                                = true
                                             /\ is_nan c = false) (cells s').
Proof.
  intros Hcol Hop Hin Hval Hs Hx.
  destruct (relational_filter_column lib working_df f val col op s x
              Hcol Hop Hin Hval Hs Hx) as (df' & Hrun & E).
  exists df'. split; [assumption |]. split; [exact E |].
  intros s' Hs'. rewrite E in Hs'. inversion Hs'. subst s'. cbn [cells].
  apply Forall_forall. intros c Hc.
  apply filter_In in Hc. destruct Hc as [Hc Hsat].
  apply in_map_iff in Hc. destruct Hc as (n & <- & _).
  exists n. split; [reflexivity |]. rewrite <- satisfies_number.
  split; [assumption |].
  destruct (is_nan _) eqn:Hnan; [| reflexivity].
  now rewrite missing_satisfies_nothing in Hsat.
Qed.

Lemma relational_filter_keeps_matches_witness :
  exists df',
    apply_filter bare_library discounts
      (JDict [("column", JStr "discount"); ("operator", JStr "<=");
              ("value", JStr "5")]) = inr df'
    /\ dict_get df' "discount"
       = Some {| dtype_of := Dint64; cells := [CInt 5] |}.
Proof.
  destruct (relational_filter_keeps_matches bare_library discounts
              (JDict [("column", JStr "discount"); ("operator", JStr "<=");
                      ("value", JStr "5")])
              (JStr "5") "discount" "<="
              {| dtype_of := Dobject; cells := [CStr "15%"; CStr "5%"] |}
              (binary64_of_Z 5) eq_refl eq_refl
              (or_intror (or_intror (or_intror (or_introl eq_refl))))
              eq_refl eq_refl eq_refl)
    as (df' & Hrun & Hcol & _).
  exists df'. split; [exact Hrun | exact Hcol].
Defined.

Lemma columns_dict_get (df : DataFrame) (col : string) :
  In col (columns df) -> exists s, dict_get df col = Some s.
Proof.
  unfold columns. induction df as [| [k s] df IH]; simpl; [contradiction |].
  destruct (String.eqb_spec k col) as [-> | Hne]; [eauto |].
  intros [E | H]; [contradiction | auto].
Qed.

(** X14.  A list of relational filters over columns of the table, each
    with a value that [float] accepts, is applied without an error,
    whatever the cells hold; the filtered table has the columns of the
    table. *)
Theorem relational_filters_never_raise (lib : Library) (fs : list json)
  (df : DataFrame) :
  Forall (fun f =>
            exists col op val x,
              get f "column" = inr (JStr col) /\ In col (columns df)
              /\ get f "operator" = inr (JStr op)
              /\ In op relational_operators
              /\ get f "value" = inr val
              /\ py_float (decode_list_literal lib val) = inr x) fs ->
  exists df', apply_filters lib df fs = inr df' /\ columns df' = columns df.
Proof.
  intros H. revert df H. induction fs as [| f fs IH]; intros df H.
  - exists df. split; reflexivity.
  - inversion H as [| ? ? Hf Hfs]; subst.
    destruct Hf as (col & op & val & x & Hcol & Hin & Hop & Hrel & Hval & Hx).
    destruct (columns_dict_get _ _ Hin) as (s & Hs).
    pose proof (apply_relational_filter lib df f val col op s x
                  Hcol Hop Hrel Hval Hs Hx) as Hstep.
    cbn [apply_filters]. rewrite Hstep. cbn [bind].
    assert (Hc : columns (filter_rows
                            (map (satisfies op x) (cells (_coerce_numeric lib s)))
                            (dict_set df col (_coerce_numeric lib s)))
                 = columns df).
    { rewrite filter_rows_columns.
      now apply (coerced_column_shape lib df col s). }
    destruct (IH _ ltac:(now rewrite Hc)) as (df' & Hrun & Hcols).
    exists df'. split; [assumption | congruence].
Qed.

Lemma relational_filters_never_raise_witness :
  exists df',
    apply_filters bare_library discounts
      [JDict [("column", JStr "discount"); ("operator", JStr ">");
              ("value", JInt 1)];
       JDict [("column", JStr "item"); ("operator", JStr "<");
              ("value", JStr "3.5")]] = inr df'
    /\ columns df' = columns discounts.
Proof.
  apply (relational_filters_never_raise bare_library).
  constructor; [| constructor; [| constructor]].
  - exists "discount", ">", (JInt 1), (binary64_of_Z 1).
    repeat split; simpl; auto.
  - exists "item", "<", (JStr "3.5"),
      (binary64_of_decimal false 35 (-1)).
    repeat split; simpl; auto.
Defined.

(** *** The coercion *)

Lemma list_ascii_of_string_app (a b : string) :
  list_ascii_of_string (a ++ b)%string
  = list_ascii_of_string a ++ list_ascii_of_string b.
Proof. induction a as [| c a IH]; simpl; [reflexivity | now rewrite IH]. Qed.

(** X16.  A percent sign is ignored wherever it stands in a text: a
    column that holds ["1%5"] is coerced as the column that holds ["15"]
    in its place, whatever the trimming and the parser do. *)
Theorem percent_is_ignored_anywhere (lib : Library) (d : dtype)
  (before after : list cell) (a b : string) :
  _coerce_numeric lib
    {| dtype_of := d; cells := before ++ CStr (a ++ "%" ++ b)%string :: after |}
  = _coerce_numeric lib
      {| dtype_of := d; cells := before ++ CStr (a ++ b)%string :: after |}.
Proof.
  unfold _coerce_numeric. cbn [cells]. f_equal.
  rewrite !map_app. cbn [map astype_str text_map]. do 4 f_equal.
  unfold remove_percent. f_equal.
  rewrite !list_ascii_of_string_app, !filter_app. reflexivity.
Qed.

Lemma filter_twice {A} (p q : A -> bool) (xs : list A) :
  filter q (filter p xs) = filter (fun c => p c && q c) xs.
Proof.
  induction xs as [| c xs IH]; [reflexivity |].
  cbn [filter]. destruct (p c); cbn [andb filter]; [| exact IH].
  destruct (q c); now rewrite IH.
Qed.

(** X15.  The second of two relational filters on one column coerces
    the column again, from the numbers the first filter left.  Whenever
    that second coercion reads those numbers back as they are, the two
    filters compose as a conjunction: the column holds the coerced
    values that satisfy the first and the second comparison. *)
Theorem relational_filters_compose (lib : Library) (df : DataFrame)
  (f1 f2 val1 val2 : json) (col op1 op2 : string) (s : Series)
  (x1 x2 : spec_float) :
  get f1 "column" = inr (JStr col) ->
  get f1 "operator" = inr (JStr op1) -> In op1 relational_operators ->
  get f1 "value" = inr val1 ->
  py_float (decode_list_literal lib val1) = inr x1 ->
  get f2 "column" = inr (JStr col) ->
  get f2 "operator" = inr (JStr op2) -> In op2 relational_operators ->
  get f2 "value" = inr val2 ->
  py_float (decode_list_literal lib val2) = inr x2 ->
  dict_get df col = Some s ->
  let coerced := _coerce_numeric lib s in
  let remaining := {| dtype_of := dtype_of coerced;
                      cells := filter (satisfies op1 x1) (cells coerced) |} in
  cells (_coerce_numeric lib remaining) = cells remaining ->
  exists df',
    apply_filters lib df [f1; f2] = inr df'
    /\ dict_get df' col
       = Some {| dtype_of := dtype_of (_coerce_numeric lib remaining);
                 cells := filter (fun c => satisfies op1 x1 c
                                           && satisfies op2 x2 c)
                                 (cells coerced) |}.
Proof.
  intros Hc1 Ho1 Hi1 Hv1 Hx1 Hc2 Ho2 Hi2 Hv2 Hx2 Hs coerced remaining Hback.
  destruct (relational_filter_column lib df f1 val1 col op1 s x1
              Hc1 Ho1 Hi1 Hv1 Hs Hx1) as (df1 & Hrun1 & E1).
  destruct (relational_filter_column lib df1 f2 val2 col op2 _ x2
              Hc2 Ho2 Hi2 Hv2 E1 Hx2) as (df2 & Hrun2 & E2).
  exists df2. cbn [apply_filters]. rewrite Hrun1. cbn [bind]. rewrite Hrun2.
  split; [reflexivity |]. rewrite E2. fold coerced. fold remaining.
  rewrite Hback. subst remaining. cbn [cells]. now rewrite filter_twice.
Qed.

Lemma relational_filters_compose_witness :
  exists df',
    apply_filters bare_library discounts
      [JDict [("column", JStr "discount"); ("operator", JStr ">");
              ("value", JInt 1)];
       JDict [("column", JStr "discount"); ("operator", JStr "<");
              ("value", JInt 10)]] = inr df'
    /\ dict_get df' "discount"
       = Some {| dtype_of := Dint64; cells := [CInt 5] |}.
Proof.
  apply (relational_filters_compose bare_library discounts
           (JDict [("column", JStr "discount"); ("operator", JStr ">");
                   ("value", JInt 1)])
           (JDict [("column", JStr "discount"); ("operator", JStr "<");
                   ("value", JInt 10)])
           (JInt 1) (JInt 10) "discount" ">" "<"
           {| dtype_of := Dobject; cells := [CStr "15%"; CStr "5%"] |}
           (binary64_of_Z 1) (binary64_of_Z 10));
    try reflexivity; simpl; auto.
Defined.

(** *** Aggregation *)

(** X17.  In grouped mode, when every metric is on a group-by column
    (or there is no metric), nothing is aggregated: the result is the
    distinct combinations of the group-by columns. *)
Theorem metrics_on_keys_give_distinct_groups (lib : Library)
  (working_df : DataFrame) (group_by : json) (ms : list json) :
  truthy group_by = true ->
  Forall (fun m => exists col op,
              getitem m "column" = inr col
              /\ getitem m "operation" = inr op
              /\ contains group_by col = inr true) ms ->
  aggregate lib working_df (JList ms) group_by
  = select_distinct lib working_df group_by.
Proof.
  intros Hg Hms. unfold aggregate, count_only. rewrite Hg.
  cbn [negb bind ret iter].
  assert (E : build_agg_map group_by [] ms = inr []).
  { induction Hms as [| m ms (col & op & Hcol & Hop & Hin) _ IH]; [reflexivity |].
    cbn [build_agg_map]. rewrite Hcol, Hop. cbn [bind]. rewrite Hin.
    cbn [bind]. exact IH. }
  now rewrite E.
Qed.

Lemma metrics_on_keys_give_distinct_groups_witness :
  aggregate bare_library countries
            (JList [metric "country" "count"; metric "country" "max"])
            (JList [JStr "country"])
  = select_distinct bare_library countries (JList [JStr "country"]).
Proof.
  apply metrics_on_keys_give_distinct_groups; [reflexivity |].
  constructor; [| constructor; [| constructor]];
    exists (JStr "country"); eexists; repeat split; reflexivity.
Defined.

Lemma py_eq_str (v : json) (c : string) :
  py_eq v (JStr c) = true -> v = JStr c.
Proof.
  destruct v; simpl; try discriminate.
  intros H. apply String.eqb_eq in H. now subst.
Qed.

Lemma str_py_eq (v : json) (c : string) :
  py_eq (JStr c) v = true -> v = JStr c.
Proof.
  destruct v; simpl; try discriminate.
  intros H. apply String.eqb_eq in H. now subst.
Qed.

Lemma agg_get_set_same (agg_map : list (json * json)) (c : string) (op : json) :
  agg_get (agg_set agg_map (JStr c) op) (JStr c) = Some op.
Proof.
  induction agg_map as [| [c0 o0] rest IH]; cbn [agg_set agg_get].
  - cbn [py_eq]. now rewrite String.eqb_refl.
  - destruct (py_eq c0 (JStr c)) eqn:E; cbn [agg_get]; rewrite E;
      [reflexivity | exact IH].
Qed.

Lemma agg_get_set_other (agg_map : list (json * json)) (col op : json)
  (c : string) :
  col <> JStr c ->
  agg_get (agg_set agg_map col op) (JStr c) = agg_get agg_map (JStr c).
Proof.
  intros Hne. induction agg_map as [| [c0 o0] rest IH]; cbn [agg_set agg_get].
  - destruct (py_eq col (JStr c)) eqn:E; [| reflexivity].
    now apply py_eq_str in E.
  - destruct (py_eq c0 col) eqn:E; cbn [agg_get].
    + destruct (py_eq c0 (JStr c)) eqn:E'; [| reflexivity].
      apply py_eq_str in E'. subst c0. now apply str_py_eq in E.
    + destruct (py_eq c0 (JStr c)); [reflexivity | exact IH].
Qed.

Lemma build_agg_map_app (group_by : json) (ms1 ms2 : list json)
  (agg_map mid : list (json * json)) :
  build_agg_map group_by agg_map ms1 = inr mid ->
  build_agg_map group_by agg_map (ms1 ++ ms2) = build_agg_map group_by mid ms2.
Proof.
  revert agg_map. induction ms1 as [| m ms1 IH]; cbn [app build_agg_map];
    intros agg_map H.
  - now inversion H.
  - destruct (getitem m "column") as [e | col]; [discriminate |]. cbn [bind] in *.
    destruct (getitem m "operation") as [e | op]; [discriminate |]. cbn [bind] in *.
    destruct (contains group_by col) as [e | skip]; [discriminate |].
    cbn [bind] in *. destruct skip; [now apply IH |].
    destruct (hashable col); [now apply IH | discriminate].
Qed.

(** Metrics on other columns leave the entry of a column as it is. *)
Lemma build_agg_map_other (group_by : json) (c : string) (ms : list json)
  (agg_map : list (json * json)) :
  Forall (fun m => exists col op skip,
              getitem m "column" = inr col /\ col <> JStr c
              /\ getitem m "operation" = inr op
              /\ contains group_by col = inr skip
              /\ hashable col = true) ms ->
  exists out,
    build_agg_map group_by agg_map ms = inr out
    /\ agg_get out (JStr c) = agg_get agg_map (JStr c).
Proof.
  intros H. revert agg_map.
  induction H as [| m ms (col & op & skip & Hcol & Hne & Hop & Hskip & Hhash) _ IH];
    intros agg_map; cbn [build_agg_map]; [eauto |].
  rewrite Hcol, Hop. cbn [bind]. rewrite Hskip. cbn [bind].
  destruct skip; [apply IH |]. rewrite Hhash.
  destruct (IH (agg_set agg_map col op)) as (out & Hout & Hget).
  exists out. split; [assumption |]. now rewrite Hget, agg_get_set_other.
Qed.

(** X18.  When several metrics are on one column, the aggregation map
    holds the operation of the last of them only: the earlier ones are
    overwritten without notice. *)
Theorem last_metric_on_a_column_wins (group_by m op : json) (c : string)
  (before after : list json) (agg_map mid : list (json * json)) :
  build_agg_map group_by agg_map before = inr mid ->
  getitem m "column" = inr (JStr c) ->
  getitem m "operation" = inr op ->
  contains group_by (JStr c) = inr false ->
  Forall (fun m' => exists col op' skip,
              getitem m' "column" = inr col /\ col <> JStr c
              /\ getitem m' "operation" = inr op'
              /\ contains group_by col = inr skip
              /\ hashable col = true) after ->
  exists out,
    build_agg_map group_by agg_map (before ++ m :: after) = inr out
    /\ agg_get out (JStr c) = Some op.
Proof.
  intros Hbefore Hcol Hop Hskip Hafter.
  destruct (build_agg_map_other group_by c after
              (agg_set mid (JStr c) op) Hafter) as (out & Hout & Hget).
  exists out. rewrite (build_agg_map_app _ _ _ _ _ Hbefore).
  cbn [build_agg_map]. rewrite Hcol, Hop. cbn [bind]. rewrite Hskip.
  cbn [bind hashable]. split; [assumption |].
  now rewrite Hget, agg_get_set_same.
Qed.

Lemma last_metric_on_a_column_wins_witness :
  exists out,
    build_agg_map (JList [JStr "region"]) []
      ([metric "sales" "sum"] ++ metric "sales" "mean" :: [metric "units" "max"])
    = inr out
    /\ agg_get out (JStr "sales") = Some (JStr "mean").
Proof.
  apply (last_metric_on_a_column_wins (JList [JStr "region"])
           (metric "sales" "mean") (JStr "mean") "sales"
           [metric "sales" "sum"] [metric "units" "max"] []
           [(JStr "sales", JStr "sum")]); try reflexivity.
  constructor; [| constructor].
  exists (JStr "units"), (JStr "max"), false.
  repeat split; try reflexivity. discriminate.
Defined.

(** X19.  Without a group-by, the metrics are not computed: unless they
    are a single [count], the result of the aggregation step is the
    filtered table itself, row by row. *)
Theorem metrics_without_group_by_are_ignored (lib : Library)
  (working_df : DataFrame) (group_by : json) (ms : list json) :
  truthy group_by = false ->
  (List.length ms <> 1%nat
   \/ exists m op, ms = [m] /\ getitem m "operation" = inr op
                    /\ py_eq op (JStr "count") = false) ->
  aggregate lib working_df (JList ms) group_by = inr working_df.
Proof.
  intros Hg Hms. unfold aggregate, count_only. rewrite Hg.
  cbn [negb py_len bind ret].
  destruct Hms as [Hlen | (m & op & -> & Hop & Hcount)].
  - destruct (Nat.eqb_spec (List.length ms) 1); [contradiction | reflexivity].
  - cbn [List.length Nat.eqb first_item bind ret]. rewrite Hop. cbn [bind ret].
    now rewrite Hcount.
Qed.

Lemma metrics_without_group_by_are_ignored_witness :
  aggregate bare_library countries (JList [metric "population" "max"]) (JList [])
  = inr countries.
Proof.
  apply metrics_without_group_by_are_ignored; [reflexivity |].
  right. exists (metric "population" "max"), (JStr "max").
  repeat split; reflexivity.
Defined.

(** *** Sorting, the chart request and the filtered table *)

(** X20.  Sorting is skipped without an error, and the table handed on
    as it is, when the plan has no sort, when the sort names no column,
    or when it names a column that the result table does not have (as
    after an aggregation that removed it). *)
Theorem sort_is_skipped_silently (lib : Library) (result_df : DataFrame)
  (plan sort_cfg : json) :
  get plan "sort" = inr sort_cfg ->
  (truthy sort_cfg = false
   \/ exists sc, sort_cfg = JDict sc
                  /\ (truthy (axis sort_cfg "by") = false
                      \/ (hashable (axis sort_cfg "by") = true
                          /\ in_strs (axis sort_cfg "by") (columns result_df)
                             = false))) ->
  sort_stage lib result_df plan = inr result_df.
Proof.
  intros Hsort Hcase. unfold sort_stage. rewrite Hsort. cbn [bind].
  destruct Hcase as [Hf | (sc & -> & Hby)].
  - now rewrite Hf.
  - rewrite get_axis. destruct (truthy (JDict sc)); [| reflexivity].
    cbn [bind ret]. destruct Hby as [Hf | (Hhash & Hin)].
    + now rewrite Hf.
    + destruct (truthy (axis (JDict sc) "by")) eqn:Ht; [| reflexivity].
      assert (Hn : is_none (axis (JDict sc) "by") = false)
        by (destruct (axis (JDict sc) "by"); try reflexivity; discriminate).
      rewrite (getitem_of_axis _ _ Hn). cbn [bind].
      unfold in_columns, in_str_set. rewrite Hhash. cbn [bind ret].
      now rewrite Hin.
Qed.

Lemma sort_is_skipped_silently_witness :
  sort_stage bare_library
    [("count", {| dtype_of := Dint64; cells := [CInt 3] |})]
    (JDict [("sort", JDict [("by", JStr "population"); ("order", JStr "desc")])])
  = inr [("count", {| dtype_of := Dint64; cells := [CInt 3] |})].
Proof.
  apply (sort_is_skipped_silently bare_library _ _
           (JDict [("by", JStr "population"); ("order", JStr "desc")]));
    [reflexivity |].
  right. eexists. split; [reflexivity |]. right. split; reflexivity.
Defined.

(** X21.  A chart request that the chart step produces has a type of the
    closed set, the x axis of the plan, which is set, and the colour of
    the plan; a histogram has no y axis, every other chart has a y axis
    that is set and is a column of the result table. *)
Theorem chart_request_is_well_formed (result_df : DataFrame)
  (viz metrics : json) (fig : Figure) :
  viz_stage result_df viz metrics = inr (Some fig) ->
  In (fig_kind fig) ALLOWED_VIZ_TYPES
  /\ py_eq (axis viz "type") (JStr (fig_kind fig)) = true
  /\ fig_x fig = axis viz "x" /\ truthy (fig_x fig) = true
  /\ fig_color fig = axis viz "color"
  /\ match fig_y fig with
     | Some y => fig_kind fig <> "histogram" /\ truthy y = true
                 /\ in_strs y (columns result_df) = true
     | None => fig_kind fig = "histogram"
     end.
Proof.
  unfold viz_stage. intros H.
  destruct viz as [| | | | | | v];
    try (cbn [truthy andb bind ret] in H;
         repeat match type of H with
                | context [if ?b then _ else _] => destruct b
                end; discriminate).
  rewrite !get_axis in H.
  inv_bind H as type Htype.
  destruct (truthy (JDict v) && truthy type); [| discriminate].
  cbn [bind] in H.
  inv_bind H as y Hy. inv_bind H as bad Hbad. inv_bind H as u Hu.
  apply raise_if_inr in Hu. subst bad. cbn [bind] in H.
  assert (Hcol : truthy y = true -> in_strs y (columns result_df) = true).
  { intros Ht. rewrite Ht in Hbad. inv_bind Hbad as present Hp.
    inversion Hbad as [E]. apply negb_false_true in E. subst present.
    now apply in_str_set_inr in Hp. }
  destruct (py_eq (axis (JDict v) "type") (JStr "bar")
            && truthy (axis (JDict v) "x") && truthy y) eqn:E1.
  { inversion H. subst fig. cbn [fig_kind fig_x fig_y fig_color].
    apply andb_true_iff in E1. destruct E1 as [E1 Ey].
    apply andb_true_iff in E1. destruct E1 as [Et Ex].
    repeat split; auto; [simpl; tauto | discriminate]. }
  destruct (py_eq (axis (JDict v) "type") (JStr "line")
            && truthy (axis (JDict v) "x") && truthy y) eqn:E2.
  { inversion H. subst fig. cbn [fig_kind fig_x fig_y fig_color].
    apply andb_true_iff in E2. destruct E2 as [E2 Ey].
    apply andb_true_iff in E2. destruct E2 as [Et Ex].
    repeat split; auto; [simpl; tauto | discriminate]. }
  destruct (py_eq (axis (JDict v) "type") (JStr "scatter")
            && truthy (axis (JDict v) "x") && truthy y) eqn:E3.
  { inversion H. subst fig. cbn [fig_kind fig_x fig_y fig_color].
    apply andb_true_iff in E3. destruct E3 as [E3 Ey].
    apply andb_true_iff in E3. destruct E3 as [Et Ex].
    repeat split; auto; [simpl; tauto | discriminate]. }
  destruct (py_eq (axis (JDict v) "type") (JStr "histogram")
            && truthy (axis (JDict v) "x")) eqn:E4; [| discriminate].
  inversion H. subst fig. cbn [fig_kind fig_x fig_y fig_color].
  apply andb_true_iff in E4. destruct E4 as [Et Ex].
  repeat split; auto. simpl. tauto.
Qed.

Lemma chart_request_is_well_formed_witness :
  In "bar" ALLOWED_VIZ_TYPES
  /\ py_eq (axis (JDict [("type", JStr "bar"); ("x", JStr "country");
                         ("y", JStr "population")]) "type") (JStr "bar") = true.
Proof.
  destruct (chart_request_is_well_formed countries
              (JDict [("type", JStr "bar"); ("x", JStr "country");
                      ("y", JStr "population")])
              (JList [])
              {| fig_kind := "bar"; fig_x := JStr "country";
                 fig_y := Some (JStr "population"); fig_color := JNull |}
              eq_refl) as (Hk & Ht & _).
  split; assumption.
Defined.

(** X22.  The third output of [execute_plan] is the table as the filters
    leave it, before aggregation, sorting and truncation; it has the
    columns of the input table, whatever the result table has. *)
Theorem filtered_table_is_returned (lib : Library) (df result_df filtered : DataFrame)
  (plan : json) (fig : option Figure) :
  execute_plan lib df plan = inr (result_df, fig, filtered) ->
  exists filters fs,
    get_default plan "filters" (JList []) = inr filters
    /\ iter filters = inr fs
    /\ apply_filters lib df fs = inr filtered
    /\ columns filtered = columns df.
Proof.
  unfold execute_plan, run_to_sort. intros H.
  inv_bind H as st Hst. destruct st as [sorted original].
  inv_bind Hst as filters Hfilters. inv_bind Hst as fs Hfs.
  inv_bind Hst as working_df Hwork. cbv zeta in Hst.
  inv_bind Hst as metrics Hmetrics. inv_bind Hst as group_by Hgroup.
  inv_bind Hst as aggregated Hagg. inv_bind Hst as sorted' Hsorted.
  inversion Hst. subst sorted' original.
  inv_bind H as metrics' Hmetrics'. inv_bind H as viz Hviz.
  inv_bind H as user_intent Hui. inv_bind H as top Htop.
  inv_bind H as fig' Hfig. inversion H. subst.
  exists filters, fs. repeat split; try assumption.
  now apply (apply_filters_shape lib fs df filtered).
Qed.

Lemma filtered_table_is_returned_witness :
  exists filters fs,
    get_default (top_plan 2 "highest") "filters" (JList []) = inr filters
    /\ iter filters = inr fs
    /\ apply_filters bare_library countries fs = inr countries
    /\ columns countries = columns countries.
Proof.
  apply (filtered_table_is_returned bare_library countries
           [("country", {| dtype_of := Dobject; cells := [CStr "FR"; CStr "IN"] |});
            ("population", {| dtype_of := Dint64; cells := [CInt 68; CInt 1400] |})]
           countries (top_plan 2 "highest")
           (Some {| fig_kind := "bar"; fig_x := JStr "country";
                    fig_y := Some (JStr "population"); fig_color := JNull |})).
  reflexivity.
Defined.

End ExecutorMore.

(** ** The dataset-information question *)

Module AppFacts.
Import App.

Lemma prefix_spec (t s : string) :
  String.prefix t s = true <-> exists post, s = (t ++ post)%string.
Proof.
  revert s. induction t as [| c t IH]; intros s.
  - split; [intros _; now exists s | intros _; now destruct s].
  - destruct s as [| c' s]; cbn [String.prefix].
    + split; [discriminate | intros (post & E); discriminate].
    + destruct (Ascii.ascii_dec c c') as [-> | Hne].
      * rewrite IH. split; intros (post & E); exists post.
        -- now rewrite E.
        -- cbn [String.append] in E. now inversion E.
      * split; [discriminate |].
        intros (post & E). cbn [String.append] in E. inversion E.
        congruence.
Qed.

(** [t in s] holds exactly when [s] is [t] between two texts. *)
Lemma is_substring_spec (t s : string) :
  is_substring t s = true
  <-> exists pre post, s = (pre ++ t ++ post)%string.
Proof.
  induction s as [| c s IH]; cbn [is_substring].
  - rewrite orb_false_r, prefix_spec. split.
    + intros (post & E). now exists EmptyString, post.
    + intros (pre & post & E). destruct pre; [| discriminate].
      now exists post.
  - rewrite orb_true_iff, prefix_spec, IH. split.
    + intros [(post & E) | (pre & post & E)].
      * now exists EmptyString, post.
      * exists (String c pre), post. cbn [String.append]. now rewrite E.
    + intros (pre & post & E). destruct pre as [| c' pre].
      * left. now exists post.
      * right. cbn [String.append] in E. inversion E. now exists pre, post.
Qed.

(** X23.  A question is taken for a dataset-information query exactly
    when, put in lower case, it holds one of the keywords somewhere;
    so the letter case of the question does not matter. *)
Theorem dataset_info_query_spec (question : string) :
  is_dataset_info_query question = true
  <-> exists k pre post,
      In k keywords /\ lower_string question = (pre ++ k ++ post)%string.
Proof.
  unfold is_dataset_info_query. rewrite existsb_exists. split.
  - intros (k & Hin & Hsub). apply is_substring_spec in Hsub.
    destruct Hsub as (pre & post & E). now exists k, pre, post.
  - intros (k & pre & post & Hin & E). exists k. split; [assumption |].
    apply is_substring_spec. now exists pre, post.
Qed.

Lemma dataset_info_query_spec_witness :
  is_dataset_info_query "Please DESCRIBE Dataset now" = true.
Proof.
  apply (dataset_info_query_spec "Please DESCRIBE Dataset now").
  exists "describe dataset", "please ", " now".
  split; [simpl; tauto | reflexivity].
Defined.

(** X24.  The keyword ["dataset information"] never decides: a question
    that holds it holds ["dataset info"], so the function is the same
    without it. *)
Theorem dataset_information_keyword_is_redundant (question : string) :
  is_dataset_info_query question
  = existsb (fun k => is_substring k (lower_string question)) (tl keywords).
Proof.
  unfold is_dataset_info_query, keywords. cbn [existsb tl].
  destruct (is_substring "dataset information" (lower_string question)) eqn:E;
    [| reflexivity].
  apply is_substring_spec in E. destruct E as (pre & post & E).
  assert (H : is_substring "dataset info" (lower_string question) = true).
  { apply is_substring_spec. exists pre, ("rmation" ++ post)%string.
    rewrite E. reflexivity. }
  now rewrite H.
Qed.

End AppFacts.

